(** * AlphaVantageDataFetcher (fetch.py): a shallow embedding

    The program downloads four JSON documents (daily prices, RSI, MACD, SMA),
    turns each into a pandas DataFrame indexed by date, derives a rolling
    volatility column from the closing prices and joins everything on the
    dates of the price frame.

    Conventions of the embedding.
    - A pandas DataFrame is a list of column labels and a list of rows; a row
      is its index label and one cell per column.  A Series is a list of
      (label, value) pairs.
    - A float64 cell is an exact rational or one of the IEEE special values
      [PInf], [NInf], [NaN]: rounding and overflow are not modelled, division
      by zero and missing values are.  Signed zeros are not distinguished.
      Line 33, the one place where rounding changes what a reader sees, is
      modelled a second time in IEEE binary64, with the sliding update of
      the variance that pandas runs.
    - pandas is modelled by its documented behaviour (the 1.x and 2.x lines):
      assignment of a Series aligns on the index, pct_change pads missing
      values, rolling(20) needs 20 observations and reads infinities as
      missing, std divides by n - 1.
    - Python exceptions are values of [exn]; effectful code runs in a state
      and error monad whose state is the trace of observable events (HTTP
      requests, console output, files that to_csv has written).
    - What CPython, numpy and pandas do with a single string (float parsing,
      date parsing) and the square root are the fields of the class [Runtime];
      every general result holds for all instances. *)

From Stdlib Require Import List String Ascii ZArith QArith Qcanon Bool Lia.
From Stdlib Require Import Permutation Sorted Floats.
Import ListNotations.

Set Implicit Arguments.
Open Scope string_scope.
Open Scope list_scope.

(* ================================================================= *)
(** ** float64 values *)

Inductive float64 : Type :=
| Fin (q : Qc)
| PInf
| NInf
| NaN.

Definition isnan (x : float64) : bool :=
  match x with NaN => true | _ => false end.

Definition isinf (x : float64) : bool :=
  match x with PInf | NInf => true | _ => false end.

(** numpy's true division on float64: no exception, a zero divisor gives an
    infinity (or NaN for 0/0). *)
Definition fdiv (x y : float64) : float64 :=
  match x, y with
  | NaN, _ | _, NaN => NaN
  | Fin a, Fin b =>
      match (b ?= 0)%Qc with
      | Eq => match (a ?= 0)%Qc with
              | Eq => NaN
              | Gt => PInf
              | Lt => NInf
              end
      | _ => Fin (a / b)%Qc
      end
  | Fin _, (PInf | NInf) => Fin 0%Qc
  | (PInf | NInf), (PInf | NInf) => NaN
  | PInf, Fin b => match (b ?= 0)%Qc with Lt => NInf | _ => PInf end
  | NInf, Fin b => match (b ?= 0)%Qc with Lt => PInf | _ => NInf end
  end.

Definition fsub (x y : float64) : float64 :=
  match x, y with
  | NaN, _ | _, NaN => NaN
  | Fin a, Fin b => Fin (a - b)%Qc
  | Fin _, PInf => NInf
  | Fin _, NInf => PInf
  | PInf, PInf | NInf, NInf => NaN
  | PInf, _ => PInf
  | NInf, _ => NInf
  end.

(* ================================================================= *)
(** ** Exceptions and results *)

Inductive exn : Type :=
| ValueError (msg : string)
| KeyError (key : string)
| TypeError (msg : string)
| AttributeError (msg : string)
| OSError (msg : string)
| YAMLError (msg : string)
| RequestException (msg : string)
| JSONDecodeError (msg : string).

Inductive result (A : Type) : Type :=
| Ok (a : A)
| Raise (e : exn).

Arguments Ok {A} a.
Arguments Raise {A} e.

Definition rbind {A B} (r : result A) (k : A -> result B) : result B :=
  match r with
  | Ok a => k a
  | Raise e => Raise e
  end.

Fixpoint rmap {A B} (f : A -> result B) (l : list A) : result (list B) :=
  match l with
  | [] => Ok []
  | x :: l' =>
      rbind (f x) (fun y => rbind (rmap f l') (fun ys => Ok (y :: ys)))
  end.

(* ================================================================= *)
(** ** The runtime: CPython, numpy and pandas on single values *)

(** A pandas Timestamp, as an integer on the time line. *)
Definition Timestamp := Z.

Class Runtime : Type := {
  (** Python's [float(s)]; [None] when it raises ValueError. *)
  float_of_str : string -> option float64;
  (** [pd.to_datetime] on one index label; [None] when it raises. *)
  to_datetime : string -> option Timestamp;
  (** [np.sqrt] on a non-negative finite value. *)
  np_sqrt : Qc -> Qc
}.

(* ================================================================= *)
(** ** Python dictionaries as association lists (insertion order kept) *)

Section Dict.
Variable V : Type.

Fixpoint dict_get (k : string) (d : list (string * V)) : option V :=
  match d with
  | [] => None
  | (k', v) :: d' => if String.eqb k k' then Some v else dict_get k d'
  end.

Definition dict_in (k : string) (d : list (string * V)) : bool :=
  match dict_get k d with Some _ => true | None => false end.

(** [d[k] = v]: an existing key keeps its position. *)
Fixpoint dict_set (k : string) (v : V) (d : list (string * V))
  : list (string * V) :=
  match d with
  | [] => [(k, v)]
  | (k', v') :: d' =>
      if String.eqb k k' then (k, v) :: d' else (k', v') :: dict_set k v d'
  end.

(** [d[k]], raising KeyError. *)
Definition dict_getitem (k : string) (d : list (string * V)) : result V :=
  match dict_get k d with
  | Some v => Ok v
  | None => Raise (KeyError k)
  end.
End Dict.

(** Labels in order of first appearance. *)
Fixpoint unique (l : list string) : list string :=
  match l with
  | [] => []
  | x :: l' => x :: filter (fun y => negb (String.eqb x y)) (unique l')
  end.

(* ================================================================= *)
(** ** DataFrame and Series *)

Record Frame (I : Type) : Type := mkFrame {
  columns : list string;
  rows : list (I * list float64)
}.

Definition DataFrame := Frame Timestamp.
Definition Series := list (Timestamp * float64).

Definition index {I} (df : Frame I) : list I := map fst (rows df).

(** [pd.DataFrame()] *)
Definition empty_frame {I} : Frame I := mkFrame [] [].

(** [df.empty]: some axis has length 0. *)
Definition empty {I} (df : Frame I) : bool :=
  match columns df, rows df with
  | [], _ | _, [] => true
  | _, _ => false
  end.

(** The JSON payload of one indicator: date label -> field -> text.  The
    labels of a payload are distinct, as the keys of a Python dict are. *)
Definition payload := list (string * list (string * string)).

(** [pd.DataFrame.from_dict(data, orient='index', dtype=float)] for a dict of
    dicts.  The nested dict is transposed (columns in order of first
    appearance over the entries), the index is the union of the labels that
    carry each column (again in order of first appearance, so an entry with
    no field at all has no row), a field missing from an entry is NaN, and
    every text cell goes through float(). *)
Definition from_dict_columns (data : payload) : list string :=
  unique (flat_map (fun e => map fst (snd e)) data).

Definition from_dict_index (data : payload) : list string :=
  unique (flat_map
            (fun c => map fst (filter (fun e => dict_in c (snd e)) data))
            (from_dict_columns data)).

Definition from_dict_cell `{Runtime} (fields : list (string * string))
    (c : string) : result float64 :=
  match dict_get c fields with
  | None => Ok NaN
  | Some s =>
      match float_of_str s with
      | Some x => Ok x
      | None => Raise (ValueError "could not convert string to float")
      end
  end.

Definition from_dict_row `{Runtime} (data : payload) (cols : list string)
    (label : string) : result (string * list float64) :=
  let fields := match dict_get label data with Some f => f | None => [] end in
  rbind (rmap (from_dict_cell fields) cols) (fun cells => Ok (label, cells)).

Definition from_dict `{Runtime} (data : payload) : result (Frame string) :=
  let cols := from_dict_columns data in
  rbind (rmap (from_dict_row data cols) (from_dict_index data))
        (fun rs => Ok (mkFrame cols rs)).

(** [df.index = pd.to_datetime(df.index)].  Every label is parsed on its
    own and a label that cannot be parsed raises.  Two things that pandas
    does are outside this model: it reads the empty label and its NaT
    spellings as NaT, a missing date that [Timestamp] does not have (here
    such a label raises), and from version 2 on it parses all labels in the
    format it infers from the first one.  The results on dates are stated
    for payloads without NaT labels. *)
Definition to_datetime_label `{Runtime} (r : string * list float64)
    : result (Timestamp * list float64) :=
  match to_datetime (fst r) with
  | Some t => Ok (t, snd r)
  | None => Raise (ValueError "unable to parse date string")
  end.

Definition set_datetime_index `{Runtime} (df : Frame string)
    : result DataFrame :=
  rbind (rmap to_datetime_label (rows df))
        (fun rs => Ok (mkFrame (columns df) rs)).

(** [df.sort_index()]: rows in ascending order of their label.  Rows with
    equal labels keep their relative order here. *)
Fixpoint insert_row {A} (r : Timestamp * A) (l : list (Timestamp * A))
    : list (Timestamp * A) :=
  match l with
  | [] => [r]
  | r' :: l' =>
      if (fst r <? fst r')%Z then r :: r' :: l' else r' :: insert_row r l'
  end.

Definition sort_rows {A} (l : list (Timestamp * A)) : list (Timestamp * A) :=
  fold_left (fun acc r => insert_row r acc) l [].

Definition sort_index (df : DataFrame) : DataFrame :=
  mkFrame (columns df) (sort_rows (rows df)).

(** [df.columns = names], raising on a length mismatch. *)
Definition set_columns {I} (df : Frame I) (names : list string)
    : result (Frame I) :=
  if Nat.eqb (List.length (columns df)) (List.length names)
  then Ok (mkFrame names (rows df))
  else Raise (ValueError "Length mismatch").

(** Position of a column label. *)
Fixpoint position (c : string) (cols : list string) : option nat :=
  match cols with
  | [] => None
  | c' :: cols' =>
      if String.eqb c c' then Some 0%nat
      else option_map S (position c cols')
  end.

(** [df[c]], raising KeyError. *)
Definition getitem (df : DataFrame) (c : string) : result Series :=
  match position c (columns df) with
  | Some j => Ok (map (fun r => (fst r, nth j (snd r) NaN)) (rows df))
  | None => Raise (KeyError c)
  end.

Fixpoint series_lookup (t : Timestamp) (s : Series) : option float64 :=
  match s with
  | [] => None
  | (t', v) :: s' => if (t =? t')%Z then Some v else series_lookup t s'
  end.

Fixpoint has_duplicates (l : list Timestamp) : bool :=
  match l with
  | [] => false
  | t :: l' => existsb (Z.eqb t) l' || has_duplicates l'
  end.

Fixpoint index_equals (l1 l2 : list Timestamp) : bool :=
  match l1, l2 with
  | [], [] => true
  | t1 :: l1', t2 :: l2' => (t1 =? t2)%Z && index_equals l1' l2'
  | _, _ => false
  end.

(** [value.reindex(target)]: the value at each target label, NaN where the
    label is missing; duplicate labels in [value] cannot be reindexed. *)
Definition reindex (value : Series) (target : list Timestamp)
    : result (list float64) :=
  if has_duplicates (map fst value)
  then Raise (ValueError "cannot reindex on an axis with duplicate labels")
  else Ok (map (fun t => match series_lookup t value with
                         | Some v => v
                         | None => NaN
                         end) target).

(** pandas' [_reindex_for_setitem]. *)
Definition _reindex_for_setitem (value : Series) (df : DataFrame)
    : result (list float64) :=
  if index_equals (map fst value) (index df)
     || Nat.eqb (List.length (index df)) 0
  then Ok (map snd value)
  else reindex value (index df).

(** pandas' [_ensure_valid_index]: a frame without rows takes the index of
    the first non-empty Series stored in it. *)
Definition _ensure_valid_index (df : DataFrame) (value : Series) : DataFrame :=
  match rows df with
  | [] => mkFrame (columns df)
            (map (fun p => (fst p, map (fun _ => NaN) (columns df))) value)
  | _ :: _ => df
  end.

Fixpoint replace_nth {A} (j : nat) (v : A) (l : list A) : list A :=
  match l, j with
  | [], _ => []
  | _ :: l', O => v :: l'
  | x :: l', S j' => x :: replace_nth j' v l'
  end.

Definition set_column (df : DataFrame) (c : string) (vals : list float64)
    : DataFrame :=
  match position c (columns df) with
  | Some j =>
      mkFrame (columns df)
        (map (fun rv => (fst (fst rv), replace_nth j (snd rv) (snd (fst rv))))
             (combine (rows df) vals))
  | None =>
      mkFrame (columns df ++ [c])
        (map (fun rv => (fst (fst rv), snd (fst rv) ++ [snd rv]))
             (combine (rows df) vals))
  end.

(** [df[c] = value] for a Series [value]: aligned on the index of [df]. *)
Definition setitem (df : DataFrame) (c : string) (value : Series)
    : result DataFrame :=
  let df := _ensure_valid_index df value in
  rbind (_reindex_for_setitem value df) (fun vals => Ok (set_column df c vals)).

(* ================================================================= *)
(** ** pct_change and rolling(window).std() *)

(** Forward fill (the fill_method='pad' that pct_change applies by default
    before pandas 3): a NaN takes the last value seen before it. *)
Fixpoint pad_from (last : float64) (l : list float64) : list float64 :=
  match l with
  | [] => []
  | x :: l' =>
      if isnan x then last :: pad_from last l' else x :: pad_from x l'
  end.

Definition ffill (l : list float64) : list float64 := pad_from NaN l.

(** [shift(1)] *)
Definition shift (l : list float64) : list float64 :=
  firstn (List.length l) (NaN :: l).

(** [data / data.shift(1) - 1] *)
Definition pct_change_values (l : list float64) : list float64 :=
  let data := ffill l in
  map (fun p => fsub (fdiv (fst p) (snd p)) (Fin 1%Qc))
      (combine data (shift data)).

(** The rolling window replaces infinities by NaN before it computes. *)
Definition _prep_values (l : list float64) : list float64 :=
  map (fun x => if isinf x then NaN else x) l.

(** The window that ends at position [i]: positions max(0, i-w+1) .. i. *)
Definition window_at {A} (w : nat) (l : list A) (i : nat) : list A :=
  let start := (i + 1 - w)%nat in
  firstn (i + 1 - start) (skipn start l).

(** The observations of a window: its values that are not NaN. *)
Definition observations (l : list float64) : list Qc :=
  flat_map (fun x => match x with Fin q => [q] | _ => [] end) l.

Definition Qc_sum (l : list Qc) : Qc := fold_right Qcplus 0%Qc l.

Definition Qc_of_nat (n : nat) : Qc := Q2Qc (inject_Z (Z.of_nat n)).

Definition mean (obs : list Qc) : Qc :=
  (Qc_sum obs / Qc_of_nat (List.length obs))%Qc.

(** Sum of squared differences from the mean. *)
Definition ssqdm (obs : list Qc) : Qc :=
  let m := mean obs in
  Qc_sum (map (fun x => (x - m) * (x - m))%Qc obs).

(** Variance and standard deviation of one window, with [minp] the minimum
    number of observations and [ddof] the delta degrees of freedom. *)
Definition calc_var (minp ddof : nat) (obs : list Qc) : option Qc :=
  let nobs := List.length obs in
  if Nat.leb minp nobs && Nat.ltb ddof nobs
  then Some (ssqdm obs / (Qc_of_nat nobs - Qc_of_nat ddof))%Qc
  else None.

Definition calc_std `{Runtime} (minp ddof : nat) (obs : list Qc) : float64 :=
  match calc_var minp ddof obs with
  | Some v => Fin (np_sqrt v)
  | None => NaN
  end.

(** [rolling(w).std()] in exact arithmetic: min_periods defaults to the
    window size, ddof to 1.  Every window is computed from its own
    observations.  pandas slides a running state from one window to the
    next instead ([roll_var], further down): on exact values the two give
    the same column, in binary64 they do not. *)
Definition rolling_std_values `{Runtime} (w : nat) (l : list float64)
    : list float64 :=
  let values := _prep_values l in
  map (fun i => calc_std w 1 (observations (window_at w values i)))
      (seq 0 (List.length l)).

Definition series_apply (f : list float64 -> list float64) (s : Series)
    : Series :=
  combine (map fst s) (f (map snd s)).

Definition pct_change (s : Series) : Series := series_apply pct_change_values s.

Definition rolling_std `{Runtime} (w : nat) (s : Series) : Series :=
  series_apply (rolling_std_values w) s.

(* ================================================================= *)
(** ** Python values, the outside world and the effect monad *)

#[warnings="-register-all"]
Inductive pyval : Type :=
| VNone
| VStr (s : string)
| VInt (z : Z)
| VDict (d : list (string * pyval)).

Definition pydict := list (string * pyval).

(** [obj[k]] on a Python value. *)
Definition py_getitem (obj : pyval) (k : string) : result pyval :=
  match obj with
  | VDict d => dict_getitem k d
  | VStr _ => Raise (TypeError "string indices must be integers")
  | _ => Raise (TypeError "object is not subscriptable")
  end.

(** A decoded JSON document: a mapping whose values are either a text (a
    provider notice) or a table of entries. *)
Inductive jvalue : Type :=
| JText (s : string)
| JEntries (p : payload).

Definition response := list (string * jvalue).

Inductive event : Type :=
| HttpGet (url : string) (params : pydict)
| Stdout (parts : list pyval)
| PrintFrame (what : string) (data : DataFrame)
| ToCsv (filename : list pyval) (data : DataFrame).

Definition trace := list event.

Record World : Type := {
  (** [open(path)] followed by [yaml.safe_load]. *)
  read_yaml : string -> result pyval;
  (** [os.getenv] once the .env file is loaded. *)
  getenv : string -> option string;
  (** [requests.get(url, params).json()], given what happened before. *)
  requests_get : trace -> string -> pydict -> result response;
  (** [data.to_csv(filename)], given what happened before: the call returns
      once the file is written, or it raises (OSError when the path cannot
      be opened for writing). *)
  to_csv : trace -> list pyval -> DataFrame -> result unit
}.

Definition M (A : Type) : Type := trace -> result A * trace.

Definition ret {A} (a : A) : M A := fun tr => (Ok a, tr).

Definition raise {A} (e : exn) : M A := fun tr => (Raise e, tr).

Definition bind {A B} (m : M A) (k : A -> M B) : M B :=
  fun tr =>
    match m tr with
    | (Ok a, tr') => k a tr'
    | (Raise e, tr') => (Raise e, tr')
    end.

Definition lift {A} (r : result A) : M A := fun tr => (r, tr).

Definition emit (e : event) : M unit := fun tr => (Ok tt, (tr ++ [e])%list).

Notation "x <- m ;; k" := (bind m (fun x => k))
  (at level 61, m at next level, right associativity).
Notation "m ;;; k" := (bind m (fun _ => k))
  (at level 61, right associativity).

(* ================================================================= *)
(** ** class AlphaVantageDataFetcher *)

Record AlphaVantageDataFetcher : Type := {
  config : pyval;
  api_key : string;
  base_url : string
}.

(** [not s] for the result of os.getenv. *)
Definition not_ (s : option string) : bool :=
  match s with
  | None => true
  | Some s' => String.eqb s' ""
  end.

Definition __init__ (w : World) (config_path : string)
    : M AlphaVantageDataFetcher :=
  cfg <- lift (read_yaml w config_path) ;;
  let key := getenv w "ALPHA_VANTAGE_API_KEY" in
  if not_ key
  then raise (ValueError
                "Please set ALPHA_VANTAGE_API_KEY environment variable")
  else ret {| config := cfg;
              api_key := match key with Some k => k | None => "" end;
              base_url := "https://www.alphavantage.co/query" |}.

Definition _api_call (w : World) (self : AlphaVantageDataFetcher)
    (params : pydict) : M response :=
  let params := dict_set "apikey" (VStr (api_key self)) params in
  fun tr =>
    (requests_get w tr (base_url self) params,
     (tr ++ [HttpGet (base_url self) params])%list).

(** [pd.DataFrame.from_dict(v, orient='index', dtype=float)] on a JSON value *)
Definition from_dict_json `{Runtime} (v : jvalue) : result (Frame string) :=
  match v with
  | JEntries p => from_dict p
  | JText "" => Raise (ValueError "DataFrame constructor not properly called!")
  | JText _ => Raise (AttributeError "'str' object has no attribute 'values'")
  end.

Definition _get_price_volume `{Runtime} (w : World)
    (self : AlphaVantageDataFetcher) (symbol : pyval) : M DataFrame :=
  let params := [("function", VStr "TIME_SERIES_DAILY");
                 ("symbol", symbol);
                 ("outputsize", VStr "compact")] in
  data <- _api_call w self params ;;
  ts_data <- lift (dict_getitem "Time Series (Daily)" data) ;;
  df <- lift (from_dict_json ts_data) ;;
  df <- lift (set_datetime_index df) ;;
  let df := sort_index df in
  lift (set_columns df ["open"; "high"; "low"; "close"; "volume"]).

(** The shared body of _get_rsi, _get_macd and _get_sma after the call. *)
Definition indicator_frame `{Runtime} (key : string) (data : response)
    : result DataFrame :=
  if dict_in key data then
    rbind (dict_getitem key data) (fun v =>
    rbind (from_dict_json v) (fun df =>
    rbind (set_datetime_index df) (fun df =>
    Ok (sort_index df))))
  else Ok empty_frame.

Definition _get_rsi `{Runtime} (w : World) (self : AlphaVantageDataFetcher)
    (symbol : pyval) : M DataFrame :=
  let params := [("function", VStr "RSI");
                 ("symbol", symbol);
                 ("interval", VStr "daily");
                 ("time_period", VInt 14);
                 ("series_type", VStr "close")] in
  data <- _api_call w self params ;;
  lift (indicator_frame "Technical Analysis: RSI" data).

Definition _get_macd `{Runtime} (w : World) (self : AlphaVantageDataFetcher)
    (symbol : pyval) : M DataFrame :=
  let params := [("function", VStr "MACD");
                 ("symbol", symbol);
                 ("interval", VStr "daily");
                 ("series_type", VStr "close")] in
  data <- _api_call w self params ;;
  lift (indicator_frame "Technical Analysis: MACD" data).

Definition _get_sma `{Runtime} (w : World) (self : AlphaVantageDataFetcher)
    (symbol : pyval) : M DataFrame :=
  let params := [("function", VStr "SMA");
                 ("symbol", symbol);
                 ("interval", VStr "daily");
                 ("time_period", VInt 20);
                 ("series_type", VStr "close")] in
  data <- _api_call w self params ;;
  lift (indicator_frame "Technical Analysis: SMA" data).

(** [price_data['close'].pct_change().rolling(20).std()] *)
Definition volatility `{Runtime} (price_data : DataFrame) : result Series :=
  rbind (getitem price_data "close") (fun close =>
  Ok (rolling_std 20 (pct_change close))).

(** The merge of get_stock_data, lines 39 to 48. *)
Definition combine_data (price_data rsi macd sma : DataFrame)
    : result DataFrame :=
  let combined_data := price_data in
  rbind (if negb (empty rsi)
         then rbind (getitem rsi "RSI") (setitem combined_data "rsi")
         else Ok combined_data) (fun combined_data =>
  rbind (if negb (empty macd)
         then rbind (getitem macd "MACD") (fun s =>
              rbind (setitem combined_data "macd" s) (fun combined_data =>
              rbind (getitem macd "MACD_Signal")
                    (setitem combined_data "macd_signal")))
         else Ok combined_data) (fun combined_data =>
  if negb (empty sma)
  then rbind (getitem sma "SMA") (setitem combined_data "sma_20")
  else Ok combined_data)).

Definition get_stock_data `{Runtime} (w : World)
    (self : AlphaVantageDataFetcher) : M DataFrame :=
  symbol <- lift (py_getitem (config self) "symbol") ;;
  emit (Stdout [VStr "Fetching data for "; symbol; VStr "..."]) ;;;
  price_data <- _get_price_volume w self symbol ;;
  vol <- lift (volatility price_data) ;;
  price_data <- lift (setitem price_data "volatility" vol) ;;
  rsi <- _get_rsi w self symbol ;;
  macd <- _get_macd w self symbol ;;
  sma <- _get_sma w self symbol ;;
  lift (combine_data price_data rsi macd sma).

(** [data.to_csv(filename)]: the file is among the events only when the
    call has returned; a call that raises leaves no event. *)
Definition write_csv (w : World) (filename : list pyval) (data : DataFrame)
    : M unit :=
  fun tr =>
    match to_csv w tr filename data with
    | Ok _ => (Ok tt, (tr ++ [ToCsv filename data])%list)
    | Raise e => (Raise e, tr)
    end.

Definition main `{Runtime} (w : World) : M unit :=
  fetcher <- __init__ w "config.yaml" ;;
  data <- get_stock_data w fetcher ;;
  emit (Stdout [VStr "Data fetched successfully!"]) ;;;
  emit (PrintFrame "Shape" data) ;;;
  emit (PrintFrame "Date range" data) ;;;
  emit (PrintFrame "Columns" data) ;;;
  emit (Stdout [VStr "Latest data:"]) ;;;
  emit (PrintFrame "tail(3)" data) ;;;
  symbol <- lift (py_getitem (config fetcher) "symbol") ;;
  let filename := [symbol; VStr "_stock_data.csv"] in
  write_csv w filename data ;;;
  emit (Stdout [VStr "Data saved to "; symbol; VStr "_stock_data.csv"]).

(** The whole program, started with nothing observed yet. *)
Definition run {A} (m : M A) : result A * trace := m [].

(* ================================================================= *)
(** ** A reference runtime, for running the program on concrete inputs

    Only a fragment of what CPython and pandas accept is covered: decimal
    literals with an optional sign and fraction, [nan] and [inf] for floats;
    year-month-day labels separated by dashes for dates, where month and day
    may be written with one digit or two. *)

Definition digit_of (c : ascii) : option Z :=
  let n := nat_of_ascii c in
  if Nat.leb 48 n && Nat.leb n 57 then Some (Z.of_nat (n - 48)) else None.

Fixpoint digits_value (acc : Z) (l : list ascii) : option Z :=
  match l with
  | [] => Some acc
  | c :: l' =>
      match digit_of c with
      | Some d => digits_value (10 * acc + d) l'
      | None => None
      end
  end.

(** Split at the first occurrence of a separator. *)
Fixpoint split_at (sep : ascii) (l : list ascii)
    : list ascii * option (list ascii) :=
  match l with
  | [] => ([], None)
  | c :: l' =>
      if Ascii.eqb c sep then ([], Some l')
      else let (a, b) := split_at sep l' in (c :: a, b)
  end.

Definition unsigned_decimal (l : list ascii) : option Qc :=
  let (ip, rest) := split_at "."%char l in
  let fp := match rest with Some f => f | None => [] end in
  match ip, fp with
  | [], [] => None
  | _, _ =>
      match digits_value 0 ip, digits_value 0 fp with
      | Some i, Some f =>
          let scale := (10 ^ Z.of_nat (List.length fp))%Z in
          Some (Q2Qc (Qmake (i * scale + f) (Z.to_pos scale)))
      | _, _ => None
      end
  end.

Definition python_float (s : string) : option float64 :=
  if String.eqb s "nan" then Some NaN
  else if String.eqb s "inf" then Some PInf
  else if String.eqb s "-inf" then Some NInf
  else
    match list_ascii_of_string s with
    | "-"%char :: l => option_map (fun q => Fin (- q)%Qc) (unsigned_decimal l)
    | l => option_map Fin (unsigned_decimal l)
    end.

Definition is_leap (y : Z) : bool :=
  ((y mod 4 =? 0) && negb (y mod 100 =? 0) || (y mod 400 =? 0))%Z.

Definition days_in_month (y m : Z) : Z :=
  if (m =? 2)%Z then (if is_leap y then 29 else 28)%Z
  else if ((m =? 4) || (m =? 6) || (m =? 9) || (m =? 11))%Z then 30%Z
  else 31%Z.

(** Days since 1970-01-01 in the proleptic Gregorian calendar. *)
Definition days_from_civil (y m d : Z) : Z :=
  let y' := (if m <=? 2 then y - 1 else y)%Z in
  let era := (y' / 400)%Z in
  let yoe := (y' - era * 400)%Z in
  let mp := ((m + 9) mod 12)%Z in
  let doy := ((153 * mp + 2) / 5 + d - 1)%Z in
  let doe := (yoe * 365 + yoe / 4 - yoe / 100 + doy)%Z in
  (era * 146097 + doe - 719468)%Z.

Definition short_field (l : list ascii) : option Z :=
  match l with
  | [_] | [_; _] => digits_value 0 l
  | _ => None
  end.

Definition ymd_date (s : string) : option Timestamp :=
  let (ys, r1) := split_at "-"%char (list_ascii_of_string s) in
  match r1 with
  | None => None
  | Some r1 =>
      let (ms, r2) := split_at "-"%char r1 in
      match r2 with
      | None => None
      | Some ds =>
          match (if Nat.eqb (List.length ys) 4 then digits_value 0 ys
                 else None), short_field ms, short_field ds with
          | Some y, Some m, Some d =>
              if ((1 <=? m) && (m <=? 12) && (1 <=? d)
                  && (d <=? days_in_month y m))%Z
              then Some (days_from_civil y m d)
              else None
          | _, _, _ => None
          end
      end
  end.

(** Square root truncated to fifteen decimal places. *)
Definition sqrt_15 (q : Qc) : Qc :=
  let n := Qnum (this q) in
  let d := Z.pos (Qden (this q)) in
  Q2Qc (Qmake (Z.sqrt (n * 10 ^ 30 / d)) (Z.to_pos (10 ^ 15))).

Definition reference_runtime : Runtime := {|
  float_of_str := python_float;
  to_datetime := ymd_date;
  np_sqrt := sqrt_15
|}.

(* ================================================================= *)
(** ** Concrete worlds *)

Definition function_of (params : pydict) : string :=
  match dict_get "function" params with
  | Some (VStr f) => f
  | _ => ""
  end.

(** A provider that answers each of the four functions with a fixed reply. *)
Definition provider (price rsi macd sma : result response)
    : trace -> string -> pydict -> result response :=
  fun _ _ params =>
    let f := function_of params in
    if String.eqb f "TIME_SERIES_DAILY" then price
    else if String.eqb f "RSI" then rsi
    else if String.eqb f "MACD" then macd
    else if String.eqb f "SMA" then sma
    else Ok [("Error Message", JText "Invalid API call.")].

Definition sample_config : pyval :=
  VDict [("symbol", VStr "IBM");
         ("indicators", VDict [("rsi_period", VInt 14);
                               ("sma_period", VInt 20)])].

Definition env_with_key (k : string) : option string :=
  if String.eqb k "ALPHA_VANTAGE_API_KEY" then Some "demo" else None.

Definition env_without_key (k : string) : option string := None.

(** A working directory that can be written and has no sub-directory: a
    file name with a path separator cannot be opened. *)
Definition has_separator (part : pyval) : bool :=
  match part with
  | VStr s => existsb (Ascii.eqb "/"%char) (list_ascii_of_string s)
  | _ => false
  end.

Definition flat_directory (tr : trace) (filename : list pyval)
    (data : DataFrame) : result unit :=
  if existsb has_separator filename
  then Raise (OSError "Cannot save file into a non-existent directory")
  else Ok tt.

Definition world_of (price rsi macd sma : result response) : World := {|
  read_yaml := fun _ => Ok sample_config;
  getenv := env_with_key;
  requests_get := provider price rsi macd sma;
  to_csv := flat_directory
|}.

Definition sample_fetcher : AlphaVantageDataFetcher := {|
  config := sample_config;
  api_key := "demo";
  base_url := "https://www.alphavantage.co/query"
|}.

Definition bar (o h l c v : string) : list (string * string) :=
  [("1. open", o); ("2. high", h); ("3. low", l); ("4. close", c);
   ("5. volume", v)].

Definition price_reply : response :=
  [("Meta Data", JText "Daily Prices");
   ("Time Series (Daily)",
    JEntries [("2024-01-04", bar "101" "103" "100" "102" "1200");
              ("2024-01-03", bar "100" "102" "99" "101" "1100");
              ("2024-01-02", bar "99" "101" "98" "100" "1000")])].

Definition rsi_reply : response :=
  [("Technical Analysis: RSI",
    JEntries [("2024-01-04", [("RSI", "55.5")]);
              ("2024-01-03", [("RSI", "51")])])].

Definition macd_reply : response :=
  [("Technical Analysis: MACD",
    JEntries [("2024-01-04",
               [("MACD", "1.5"); ("MACD_Signal", "1.25");
                ("MACD_Hist", "0.25")])])].

Definition sma_reply : response :=
  [("Technical Analysis: SMA",
    JEntries [("2024-01-02", [("SMA", "100.5")]);
              ("2023-12-29", [("SMA", "99.5")])])].

(** The provider answers a notice instead of data. *)
Definition notice_reply : response :=
  [("Note", JText "Thank you for using Alpha Vantage!")].

Definition empty_rsi_reply : response :=
  [("Technical Analysis: RSI", JEntries [])].

Definition empty_price_reply : response :=
  [("Time Series (Daily)", JEntries [])].

(** Two labels of one payload that denote the same day. *)
Definition same_day_rsi_reply : response :=
  [("Technical Analysis: RSI",
    JEntries [("2024-01-02", [("RSI", "50")]);
              ("2024-1-2", [("RSI", "51")])])].

Definition all_up : World :=
  world_of (Ok price_reply) (Ok rsi_reply) (Ok macd_reply) (Ok sma_reply).

Definition macd_down : World :=
  world_of (Ok price_reply) (Ok rsi_reply)
           (Raise (RequestException "connection refused")) (Ok sma_reply).

Definition rsi_malformed : World :=
  world_of (Ok price_reply)
           (Ok [("Technical Analysis: RSI",
                 JEntries [("2024-01-04", [("RSI", "n/a")])])])
           (Ok macd_reply) (Ok sma_reply).

Definition only_prices : World :=
  world_of (Ok price_reply) (Ok notice_reply) (Ok notice_reply)
           (Ok notice_reply).

Definition no_credential : World := {|
  read_yaml := fun _ => Ok sample_config;
  getenv := env_without_key;
  requests_get := provider (Ok price_reply) (Ok rsi_reply) (Ok macd_reply)
                           (Ok sma_reply);
  to_csv := flat_directory
|}.

(* ================================================================= *)
(** ** Vocabulary of the properties *)

Definition price_columns : list string :=
  ["open"; "high"; "low"; "close"; "volume"].

Definition banner (symbol : pyval) : event :=
  Stdout [VStr "Fetching data for "; symbol; VStr "..."].

(** Every row has one cell per column. *)
Definition well_formed {I} (df : Frame I) : Prop :=
  Forall (fun r => List.length (snd r) = List.length (columns df)) (rows df).

(** Rows in ascending order of their label. *)
Definition key_le {A} (r r' : Timestamp * A) : Prop := (fst r <= fst r')%Z.

(** The four downloads of one run of get_stock_data: the symbol, the frames
    and the events seen after each of the first three downloads. *)
Record Downloads : Type := {
  symbol_of : pyval;
  price_of : DataFrame;
  rsi_of : DataFrame;
  macd_of : DataFrame;
  sma_of : DataFrame;
  after_price : trace;
  after_rsi : trace;
  after_macd : trace
}.

(** All four downloads of a run that starts after the events [tr] return a
    frame, and the run ends after the events [tr']. *)
Definition fetched `{Runtime} (w : World) (self : AlphaVantageDataFetcher)
    (tr : trace) (d : Downloads) (tr' : trace) : Prop :=
  py_getitem (config self) "symbol" = Ok (symbol_of d) /\
  _get_price_volume w self (symbol_of d) (tr ++ [banner (symbol_of d)])
  = (Ok (price_of d), after_price d) /\
  _get_rsi w self (symbol_of d) (after_price d) = (Ok (rsi_of d), after_rsi d)
  /\
  _get_macd w self (symbol_of d) (after_rsi d) = (Ok (macd_of d), after_macd d)
  /\
  _get_sma w self (symbol_of d) (after_macd d) = (Ok (sma_of d), tr').

(** Column [c] of [out] carries column [c'] of the indicator frame [ind],
    matched on equal dates: every cell is the indicator's value at the date
    of its row, or NaN when the indicator has no entry for that date. *)
Definition joined_on_date (out : DataFrame) (c : string) (ind : DataFrame)
    (c' : string) : Prop :=
  exists s_out s_ind,
    getitem out c = Ok s_out /\
    getitem ind c' = Ok s_ind /\
    map fst s_out = index out /\
    forall d v, In (d, v) s_out ->
                In (d, v) s_ind \/ (v = NaN /\ ~ In d (map fst s_ind)).

(** [df'] has the rows of [df], in the same order, and every column of
    [df] at the same position with the same cells. *)
Definition keeps (df df' : DataFrame) : Prop :=
  index df' = index df /\
  well_formed df' /\
  rows df' <> [] /\
  forall c j, position c (columns df) = Some j ->
              position c (columns df') = Some j /\
              getitem df' c = getitem df c.

(** The column labels of section 4.4, step 5. *)
Definition expected_columns (rsi macd sma : DataFrame) : list string :=
  ["open"; "high"; "low"; "close"; "volume"; "volatility"]
    ++ (if empty rsi then [] else ["rsi"])
    ++ (if empty macd then [] else ["macd"; "macd_signal"])
    ++ (if empty sma then [] else ["sma_20"]).

(** The request that each indicator sends, as the provider sees it. *)
Definition request_of (self : AlphaVantageDataFetcher) (params : pydict)
    : event :=
  HttpGet (base_url self) (params ++ [("apikey", VStr (api_key self))]).

(** *** The volatility of section 4.3, written from its definition *)

(** r_i = (close_i - close_{i-1}) / close_{i-1}; undefined for i = 0 and for
    a zero denominator. *)
Definition pct_spec (closes : list Qc) (i : nat) : option Qc :=
  match i with
  | O => None
  | S j =>
      let prev := nth j closes 0%Qc in
      let cur := nth i closes 0%Qc in
      if Qc_eq_dec prev 0%Qc then None else Some ((cur - prev) / prev)%Qc
  end.

Definition of_option (o : option Qc) : float64 :=
  match o with Some q => Fin q | None => NaN end.

(** The positions i-19 .. i that exist. *)
Definition trailing_positions (i : nat) : list nat :=
  seq (i + 1 - 20) (i + 1 - (i + 1 - 20)).

Definition defined_values (l : list (option Qc)) : list Qc :=
  flat_map (fun o => match o with Some q => [q] | None => [] end) l.

(** Sample standard deviation of twenty values, divisor n - 1 = 19. *)
Definition sample_std_20 `{Runtime} (xs : list Qc) : Qc :=
  let m := (Qc_sum xs / Q2Qc 20)%Qc in
  np_sqrt (Qc_sum (map (fun x => (x - m) * (x - m))%Qc xs) / Q2Qc 19)%Qc.

Definition volatility_spec `{Runtime} (closes : list Qc) (i : nat) : float64 :=
  let rs := defined_values (map (pct_spec closes) (trailing_positions i)) in
  if Nat.ltb (List.length rs) 20 then NaN else Fin (sample_std_20 rs).

(** A rising series of 22 closes, one of 22 closes with a zero, and the
    four closes of the scenario in section 8. *)
Definition closes_22 : list Qc :=
  map (fun z => Q2Qc (inject_Z z))
      [100; 102; 101; 99; 103; 104; 102; 105; 107; 106; 108;
       110; 109; 111; 112; 110; 113; 115; 114; 116; 118; 117]%Z.

Definition closes_with_zero : list Qc :=
  map (fun z => Q2Qc (inject_Z z))
      [100; 102; 0; 99; 103; 104; 102; 105; 107; 106; 108;
       110; 109; 111; 112; 110; 113; 115; 114; 116; 118; 117; 119; 120]%Z.

Definition frame_of_closes (closes : list Qc) : DataFrame :=
  mkFrame price_columns
    (map (fun p => (Z.of_nat (fst p),
                    [Fin (snd p); Fin (snd p); Fin (snd p); Fin (snd p);
                     Fin 0%Qc]))
         (combine (seq 0 (List.length closes)) closes)).

Definition close_of (closes : list Qc) : Series :=
  combine (map Z.of_nat (seq 0 (List.length closes))) (map Fin closes).

(** The three optional indicators: the method, the payload key it looks for
    and the parameters it sends. *)
Definition optional_indicators `{Runtime}
    : list ((World -> AlphaVantageDataFetcher -> pyval -> M DataFrame)
            * string * (pyval -> pydict)) :=
  [(_get_rsi, "Technical Analysis: RSI",
    fun symbol => [("function", VStr "RSI"); ("symbol", symbol);
                   ("interval", VStr "daily"); ("time_period", VInt 14);
                   ("series_type", VStr "close")]);
   (_get_macd, "Technical Analysis: MACD",
    fun symbol => [("function", VStr "MACD"); ("symbol", symbol);
                   ("interval", VStr "daily"); ("series_type", VStr "close")]);
   (_get_sma, "Technical Analysis: SMA",
    fun symbol => [("function", VStr "SMA"); ("symbol", symbol);
                   ("interval", VStr "daily"); ("time_period", VInt 20);
                   ("series_type", VStr "close")])].

(** The reply to a request sent after the events [tr]. *)
Definition reply (w : World) (self : AlphaVantageDataFetcher) (tr : trace)
    (params : pydict) : result response :=
  requests_get w tr (base_url self)
    (params ++ [("apikey", VStr (api_key self))]).

(** Worlds built on the sample replies, and what the program does there. *)
Definition same_day_rsi : World :=
  world_of (Ok price_reply) (Ok same_day_rsi_reply) (Ok macd_reply)
           (Ok sma_reply).

Definition empty_prices : World :=
  world_of (Ok empty_price_reply) (Ok rsi_reply) (Ok macd_reply)
           (Ok sma_reply).

Definition empty_rsi : World :=
  world_of (Ok price_reply) (Ok empty_rsi_reply) (Ok macd_reply)
           (Ok sma_reply).

Definition all_up_run : result DataFrame * trace :=
  Eval vm_compute in
    run (get_stock_data (H := reference_runtime) all_up sample_fetcher).

Definition only_prices_run : result DataFrame * trace :=
  Eval vm_compute in
    run (get_stock_data (H := reference_runtime) only_prices sample_fetcher).

Definition table_of (r : result DataFrame * trace) : DataFrame :=
  match fst r with
  | Ok t => t
  | Raise _ => empty_frame
  end.

(** A second configuration for the same symbol. *)
Definition other_config : pyval :=
  VDict [("indicators", VDict [("rsi_period", VInt 7);
                               ("sma_period", VInt 50);
                               ("macd_series_type", VStr "open");
                               ("sma_series_type", VStr "high")]);
         ("symbol", VStr "IBM")].

Definition other_fetcher : AlphaVantageDataFetcher := {|
  config := other_config;
  api_key := "demo";
  base_url := "https://www.alphavantage.co/query"
|}.

(* ================================================================= *)
(** ** Vocabulary for whole runs *)

(** The four requests of get_stock_data, in the order of its calls. *)
Definition run_requests (self : AlphaVantageDataFetcher) (symbol : pyval)
    : list event :=
  [request_of self [("function", VStr "TIME_SERIES_DAILY");
                    ("symbol", symbol); ("outputsize", VStr "compact")];
   request_of self [("function", VStr "RSI"); ("symbol", symbol);
                    ("interval", VStr "daily"); ("time_period", VInt 14);
                    ("series_type", VStr "close")];
   request_of self [("function", VStr "MACD"); ("symbol", symbol);
                    ("interval", VStr "daily"); ("series_type", VStr "close")];
   request_of self [("function", VStr "SMA"); ("symbol", symbol);
                    ("interval", VStr "daily"); ("time_period", VInt 20);
                    ("series_type", VStr "close")]].

(** The four downloads of get_stock_data, in the order of its calls. *)
Definition downloads `{Runtime}
    : list (World -> AlphaVantageDataFetcher -> pyval -> M DataFrame) :=
  [_get_price_volume; _get_rsi; _get_macd; _get_sma].

(** The files written during a trace, oldest first. *)
Definition csv_files (tr : trace) : list (list pyval * DataFrame) :=
  flat_map (fun e => match e with
                     | ToCsv name data => [(name, data)]
                     | _ => []
                     end) tr.

(** The requests sent during a trace, oldest first. *)
Definition http_requests (tr : trace) : list (string * pydict) :=
  flat_map (fun e => match e with
                     | HttpGet url params => [(url, params)]
                     | _ => []
                     end) tr.

(** What main prints once it holds the table, before it writes the file. *)
Definition summary (data : DataFrame) : list event :=
  [Stdout [VStr "Data fetched successfully!"];
   PrintFrame "Shape" data;
   PrintFrame "Date range" data;
   PrintFrame "Columns" data;
   Stdout [VStr "Latest data:"];
   PrintFrame "tail(3)" data].

(** What main reports and writes once it holds the table. *)
Definition report (symbol : pyval) (data : DataFrame) : list event :=
  [Stdout [VStr "Data fetched successfully!"];
   PrintFrame "Shape" data;
   PrintFrame "Date range" data;
   PrintFrame "Columns" data;
   Stdout [VStr "Latest data:"];
   PrintFrame "tail(3)" data;
   ToCsv [symbol; VStr "_stock_data.csv"] data;
   Stdout [VStr "Data saved to "; symbol; VStr "_stock_data.csv"]].

(** The labels that [pd.to_datetime] neither parses nor refuses: the empty
    text and pandas' [nat_strings] become NaT, a missing date. *)
Definition nat_strings : list string :=
  ["NaT"; "nat"; "NAT"; "nan"; "NaN"; "NAN"].

Definition reads_as_NaT (label : string) : bool :=
  String.eqb label "" || existsb (String.eqb label) nat_strings.

(** A valid date written YYYY-MM-DD, month and day with two digits: the
    format of the provider's labels, which pandas parses label by label
    whatever the first label of the index is. *)
Definition iso_date_label (label : string) : bool :=
  Nat.eqb (String.length label) 10
  && match ymd_date label with Some _ => true | None => false end.

(** The entries of [rsi_reply]. *)
Definition rsi_payload : payload :=
  [("2024-01-04", [("RSI", "55.5")]); ("2024-01-03", [("RSI", "51")])].

(** More replies and worlds. *)

(** The price fields in another order and under other names. *)
Definition shuffled_price_reply : response :=
  [("Time Series (Daily)",
    JEntries [("2024-01-03",
               [("close", "101"); ("open", "100"); ("high", "102");
                ("low", "99"); ("volume", "1100")]);
              ("2024-01-02",
               [("close", "100"); ("open", "99"); ("high", "101");
                ("low", "98"); ("volume", "1000")])])].

Definition shuffled_prices : World :=
  world_of (Ok shuffled_price_reply) (Ok notice_reply) (Ok notice_reply)
           (Ok notice_reply).

(** The provider answers the price request with a notice. *)
Definition price_notice : World :=
  world_of (Ok notice_reply) (Ok rsi_reply) (Ok macd_reply) (Ok sma_reply).

(** An RSI payload whose field is not called RSI. *)
Definition renamed_rsi_reply : response :=
  [("Technical Analysis: RSI",
    JEntries [("2024-01-04", [("rsi", "55.5")])])].

Definition renamed_rsi : World :=
  world_of (Ok price_reply) (Ok renamed_rsi_reply) (Ok macd_reply)
           (Ok sma_reply).

Definition bad_date_rsi_reply : response :=
  [("Technical Analysis: RSI",
    JEntries [("2024-01-04", [("RSI", "55.5")]);
              ("yesterday", [("RSI", "51")])])].

Definition bad_date_rsi : World :=
  world_of (Ok price_reply) (Ok bad_date_rsi_reply) (Ok macd_reply)
           (Ok sma_reply).

Definition config_without_symbol : pyval :=
  VDict [("ticker", VStr "IBM")].

Definition fetcher_without_symbol : AlphaVantageDataFetcher := {|
  config := config_without_symbol;
  api_key := "demo";
  base_url := "https://www.alphavantage.co/query"
|}.

Definition reversed_rsi_reply : response :=
  [("Technical Analysis: RSI",
    JEntries [("2024-01-03", [("RSI", "51")]);
              ("2024-01-04", [("RSI", "55.5")])])].

Definition reversed_rsi : World :=
  world_of (Ok price_reply) (Ok reversed_rsi_reply) (Ok macd_reply)
           (Ok sma_reply).

(** A symbol with a path separator, in a directory without sub-directory. *)
Definition slash_config : pyval := VDict [("symbol", VStr "BRK/B")].

Definition slash_symbol : World := {|
  read_yaml := fun _ => Ok slash_config;
  getenv := env_with_key;
  requests_get := provider (Ok price_reply) (Ok rsi_reply) (Ok macd_reply)
                           (Ok sma_reply);
  to_csv := flat_directory
|}.

Definition slash_fetcher : AlphaVantageDataFetcher := {|
  config := slash_config;
  api_key := "demo";
  base_url := "https://www.alphavantage.co/query"
|}.

Definition slash_symbol_run : result DataFrame * trace :=
  Eval vm_compute in
    run (get_stock_data (H := reference_runtime) slash_symbol slash_fetcher).

Definition slash_symbol_main : result unit * trace :=
  Eval vm_compute in run (main (H := reference_runtime) slash_symbol).

Definition macd_down_run : result DataFrame * trace :=
  Eval vm_compute in
    run (get_stock_data (H := reference_runtime) macd_down sample_fetcher).

Definition all_up_main : result unit * trace :=
  Eval vm_compute in run (main (H := reference_runtime) all_up).

(** The closes of [closes_22] in cents. *)
Definition closes_22_cents : list Qc := map (Qcmult (Q2Qc 100)) closes_22.

(** A price payload in which one close is not a number. *)
Definition malformed_price_payload : payload :=
  [("2024-01-04", bar "101" "103" "100" "102" "1200");
   ("2024-01-03", bar "100" "102" "99" "-" "1100")].

Definition malformed_price_reply : response :=
  [("Time Series (Daily)", JEntries malformed_price_payload)].

Definition malformed_prices : World :=
  world_of (Ok malformed_price_reply) (Ok rsi_reply) (Ok macd_reply)
           (Ok sma_reply).
(* ================================================================= *)
(** ** Line 33 as pandas computes it: the sliding variance

    [rolling(20).std()] does not recompute a window from its values.
    pandas' [roll_var] keeps a count, a mean and a sum of squared differences
    from the mean; from one row to the next it removes the value that leaves
    the window and adds the one that enters (Welford's update, with a
    compensated mean), and [std] is [zsqrt] of the result.  The computation
    is written once, over the arithmetic it runs on, and read at two
    arithmetics: IEEE binary64, which is what the program runs, and the exact
    values of [float64]. *)

Record Arithmetic (T : Type) : Type := {
  a_zero : T;
  a_one : T;
  a_nan : T;
  a_add : T -> T -> T;
  a_sub : T -> T -> T;
  a_mul : T -> T -> T;
  a_div : T -> T -> T;
  a_sqrt : T -> T;
  (** the float64 of a count *)
  a_of_nat : nat -> T;
  (** [x != x] *)
  a_isnan : T -> bool;
  a_isinf : T -> bool;
  a_eqb : T -> T -> bool;
  a_ltb : T -> T -> bool
}.


(** The exact values: the operations of [float64] that the variance needs
    beside [fdiv] and [fsub]. *)
Definition fadd (x y : float64) : float64 :=
  match x, y with
  | NaN, _ | _, NaN => NaN
  | Fin a, Fin b => Fin (a + b)%Qc
  | PInf, NInf | NInf, PInf => NaN
  | PInf, _ | _, PInf => PInf
  | NInf, _ | _, NInf => NInf
  end.

Definition fmul (x y : float64) : float64 :=
  match x, y with
  | NaN, _ | _, NaN => NaN
  | Fin a, Fin b => Fin (a * b)%Qc
  | Fin a, PInf | PInf, Fin a =>
      match (a ?= 0)%Qc with Eq => NaN | Gt => PInf | Lt => NInf end
  | Fin a, NInf | NInf, Fin a =>
      match (a ?= 0)%Qc with Eq => NaN | Gt => NInf | Lt => PInf end
  | PInf, PInf | NInf, NInf => PInf
  | PInf, NInf | NInf, PInf => NInf
  end.

Definition feqb (x y : float64) : bool :=
  match x, y with
  | Fin a, Fin b => match (a ?= b)%Qc with Eq => true | _ => false end
  | PInf, PInf | NInf, NInf => true
  | _, _ => false
  end.

Definition fltb (x y : float64) : bool :=
  match x, y with
  | NaN, _ | _, NaN => false
  | Fin a, Fin b => match (a ?= b)%Qc with Lt => true | _ => false end
  | NInf, (Fin _ | PInf) | Fin _, PInf => true
  | _, _ => false
  end.

Definition fsqrt `{Runtime} (x : float64) : float64 :=
  match x with
  | Fin a => match (a ?= 0)%Qc with Lt => NaN | _ => Fin (np_sqrt a) end
  | PInf => PInf
  | NInf | NaN => NaN
  end.

Definition exact `{Runtime} : Arithmetic float64 := {|
  a_zero := Fin 0%Qc;
  a_one := Fin 1%Qc;
  a_nan := NaN;
  a_add := fadd;
  a_sub := fsub;
  a_mul := fmul;
  a_div := fdiv;
  a_sqrt := fsqrt;
  a_of_nat := fun n => Fin (Qc_of_nat n);
  a_isnan := isnan;
  a_isinf := isinf;
  a_eqb := feqb;
  a_ltb := fltb
|}.

(** The running state of [roll_var]. *)
Record var_state (T : Type) : Type := mkVar {
  nobs : nat;
  mean_x : T;
  ssqdm_x : T;
  compensation_add : T;
  compensation_remove : T;
  num_consecutive_same_value : nat;
  prev_value : T
}.

Declare Scope arith_scope.
Delimit Scope arith_scope with ar.

Section OnArithmetic.
Variable T : Type.
Variable A : Arithmetic T.

Local Notation "x + y" := (a_add A x y) : arith_scope.
Local Notation "x - y" := (a_sub A x y) : arith_scope.
Local Notation "x * y" := (a_mul A x y) : arith_scope.
Local Notation "x / y" := (a_div A x y) : arith_scope.

(** *** pct_change, on this arithmetic *)




(** *** roll_var *)

(** [add_var]: a NaN is skipped; otherwise the count grows, the run of equal
    values is extended or restarted, and mean and ssqdm follow Welford's
    update.  The count is at least one after the increment, so that the
    branch [mean_x = 0] for a zero count is not taken. *)
Definition add_var (val : T) (st : var_state T) : var_state T :=
  if a_isnan A val then st
  else
    let n := S (nobs st) in
    let same :=
      if a_eqb A val (prev_value st)
      then S (num_consecutive_same_value st) else 1%nat in
    let prev_mean := (mean_x st - compensation_add st)%ar in
    let y := (val - compensation_add st)%ar in
    let t := (y - mean_x st)%ar in
    let compensation := (t + mean_x st - y)%ar in
    let delta := t in
    let mean := (mean_x st + delta / a_of_nat A n)%ar in
    mkVar n mean (ssqdm_x st + (val - prev_mean) * (val - mean))%ar
          compensation (compensation_remove st) same val.













End OnArithmetic.


(** *** A price series with one very large close *)






(* ================================================================= *)
(** * Properties *)

Section Volatility.
Context `{Runtime}.

Lemma nth_map_lt {A B} (f : A -> B) (l : list A) (i : nat) (d : B) (d' : A) :
  (i < List.length l)%nat -> nth i (map f l) d = f (nth i l d').
Proof.
  intros Hi. rewrite (nth_indep _ d (f d')) by (rewrite length_map; exact Hi).
  apply map_nth.
Qed.

Lemma pad_from_finite (last : float64) (closes : list Qc) :
  pad_from last (map Fin closes) = map Fin closes.
Proof.
  revert last. induction closes as [|c l IH]; intros last; simpl.
  - reflexivity.
  - now rewrite IH.
Qed.

Lemma length_shift (l : list float64) :
  List.length (shift l) = List.length l.
Proof.
  unfold shift. rewrite length_firstn. simpl. lia.
Qed.

Lemma length_pad_from (last : float64) (l : list float64) :
  List.length (pad_from last l) = List.length l.
Proof.
  revert last. induction l as [|x l IH]; intros last; simpl; auto.
  destruct (isnan x); simpl; now rewrite IH.
Qed.

Lemma length_pct_change_values (l : list float64) :
  List.length (pct_change_values l) = List.length l.
Proof.
  unfold pct_change_values, ffill.
  rewrite length_map, length_combine, length_shift, length_pad_from. lia.
Qed.

Lemma length_rolling_std_values (w : nat) (l : list float64) :
  List.length (rolling_std_values w l) = List.length l.
Proof.
  unfold rolling_std_values. now rewrite length_map, length_seq.
Qed.

(** What the rolling window sees of the percentage change at position i. *)
Lemma prepared_pct_change (closes : list Qc) (i : nat) :
  (i < List.length closes)%nat ->
  nth i (_prep_values (pct_change_values (map Fin closes))) NaN
  = of_option (pct_spec closes i).
Proof.
  intros Hi. unfold _prep_values, pct_change_values, ffill.
  rewrite pad_from_finite.
  assert (Hlen : List.length (map Fin closes) = List.length closes)
    by apply length_map.
  rewrite (nth_map_lt _ _ NaN NaN).
  2:{ rewrite length_map, length_combine, length_shift, Hlen. lia. }
  rewrite (nth_map_lt _ _ NaN (NaN, NaN)).
  2:{ rewrite length_combine, length_shift, Hlen. lia. }
  rewrite combine_nth by (now rewrite length_shift).
  unfold shift. rewrite nth_firstn, Hlen.
  destruct (Nat.ltb_spec i (List.length closes)) as [_|?]; [|lia].
  cbn [fst snd].
  rewrite (nth_map_lt Fin closes NaN 0%Qc Hi).
  destruct i as [|j].
  - reflexivity.
  - cbn [nth pct_spec].
    rewrite (nth_map_lt Fin closes NaN 0%Qc) by lia.
    set (p := nth j closes 0%Qc). set (c := nth (S j) closes 0%Qc).
    unfold fdiv. destruct (Qc_eq_dec p 0%Qc) as [Hz|Hnz].
    + apply Qceq_alt in Hz. rewrite Hz.
      destruct (c ?= 0)%Qc; reflexivity.
    + destruct (p ?= 0)%Qc eqn:Hc.
      * apply Qceq_alt in Hc. contradiction.
      * cbn. f_equal. field. exact Hnz.
      * cbn. f_equal. field. exact Hnz.
Qed.

Lemma prepared_values_spec (closes : list Qc) :
  _prep_values (pct_change_values (map Fin closes))
  = map (fun k => of_option (pct_spec closes k))
        (seq 0 (List.length closes)).
Proof.
  apply (nth_ext _ _ NaN NaN).
  - unfold _prep_values.
    now rewrite !length_map, length_pct_change_values, length_map, length_seq.
  - intros i Hi. unfold _prep_values in Hi.
    rewrite length_map, length_pct_change_values, length_map in Hi.
    rewrite prepared_pct_change by exact Hi.
    rewrite (nth_map_lt _ _ NaN 0%nat) by (now rewrite length_seq).
    now rewrite seq_nth.
Qed.

Lemma window_at_map {A B} (f : A -> B) (w : nat) (l : list A) (i : nat) :
  window_at w (map f l) i = map f (window_at w l i).
Proof.
  unfold window_at. now rewrite skipn_map, firstn_map.
Qed.

Lemma firstn_seq_le (k a m : nat) :
  (k <= m)%nat -> firstn k (seq a m) = seq a k.
Proof.
  revert a m. induction k as [|k IH]; intros a m Hk.
  - reflexivity.
  - destruct m as [|m]; [lia|]. simpl. f_equal. apply IH. lia.
Qed.

Lemma window_at_seq (w n i : nat) :
  (i < n)%nat ->
  window_at w (seq 0 n) i = seq (i + 1 - w) (i + 1 - (i + 1 - w)).
Proof.
  intros Hi. unfold window_at. rewrite skipn_seq.
  apply firstn_seq_le. lia.
Qed.

Lemma observations_of_option (l : list (option Qc)) :
  observations (map of_option l) = defined_values l.
Proof.
  induction l as [|[q|] l IH]; simpl.
  - reflexivity.
  - now rewrite IH.
  - exact IH.
Qed.

Lemma length_defined_values (l : list (option Qc)) :
  (List.length (defined_values l) <= List.length l)%nat.
Proof.
  induction l as [|[q|] l IH]; simpl; lia.
Qed.

Lemma length_trailing_positions (i : nat) :
  (List.length (trailing_positions i) <= 20)%nat.
Proof.
  unfold trailing_positions. rewrite length_seq. lia.
Qed.

(** The standard deviation of a window of exactly twenty observations. *)
Lemma calc_std_20 (obs : list Qc) :
  (List.length obs <= 20)%nat ->
  calc_std 20 1 obs
  = if Nat.ltb (List.length obs) 20 then NaN else Fin (sample_std_20 obs).
Proof.
  intros Hle. unfold calc_std, calc_var.
  destruct (Nat.ltb_spec (List.length obs) 20) as [Hlt|Hge].
  - destruct (Nat.leb_spec 20 (List.length obs)); [lia|]. reflexivity.
  - assert (Hn : List.length obs = 20%nat) by lia.
    rewrite Hn. cbn [Nat.leb Nat.ltb andb].
    unfold sample_std_20, ssqdm, mean. rewrite Hn.
    replace (Qc_of_nat 20 - Qc_of_nat 1)%Qc with (Q2Qc 19)
      by (apply Qc_is_canon; reflexivity).
    reflexivity.
Qed.

(** The computed column against the definition of section 4.3. *)
Lemma rolling_std_pct_change_spec (closes : list Qc) (i : nat) :
  (i < List.length closes)%nat ->
  nth i (rolling_std_values 20 (pct_change_values (map Fin closes))) NaN
  = volatility_spec closes i.
Proof.
  intros Hi. unfold rolling_std_values.
  rewrite length_pct_change_values, length_map.
  rewrite (nth_map_lt _ _ NaN 0%nat) by (now rewrite length_seq).
  rewrite seq_nth by exact Hi. cbn [Nat.add].
  rewrite prepared_values_spec.
  rewrite window_at_map, (window_at_seq 20 Hi).
  change (seq (i + 1 - 20) (i + 1 - (i + 1 - 20)))
    with (trailing_positions i).
  rewrite <- (map_map (pct_spec closes) of_option).
  rewrite observations_of_option.
  unfold volatility_spec. apply calc_std_20.
  etransitivity; [apply length_defined_values|].
  rewrite length_map. apply length_trailing_positions.
Qed.

Lemma map_fst_combine_eq {A B} (l : list A) (l' : list B) :
  List.length l = List.length l' -> map fst (combine l l') = l.
Proof.
  revert l'. induction l as [|a l IH]; intros [|b l'] Hlen; simpl in *;
    try discriminate; auto.
  f_equal. apply IH. lia.
Qed.

Lemma map_snd_combine_eq {A B} (l : list A) (l' : list B) :
  List.length l = List.length l' -> map snd (combine l l') = l'.
Proof.
  revert l'. induction l as [|a l IH]; intros [|b l'] Hlen; simpl in *;
    try discriminate; auto.
  f_equal. apply IH. lia.
Qed.

Lemma series_apply_index (f : list float64 -> list float64) (s : Series) :
  (forall l, List.length (f l) = List.length l) ->
  map fst (series_apply f s) = map fst s.
Proof.
  intros Hf. unfold series_apply. apply map_fst_combine_eq.
  now rewrite Hf, !length_map.
Qed.

Lemma series_apply_values (f : list float64 -> list float64) (s : Series) :
  (forall l, List.length (f l) = List.length l) ->
  map snd (series_apply f s) = f (map snd s).
Proof.
  intros Hf. unfold series_apply. apply map_snd_combine_eq.
  now rewrite Hf, !length_map.
Qed.

(** Line 33 cannot raise once the close column exists. *)
Lemma volatility_ok (price_data : DataFrame) (close : Series) :
  getitem price_data "close" = Ok close ->
  exists vol,
    volatility price_data = Ok vol /\
    map fst vol = map fst close /\
    map snd vol = rolling_std_values 20 (pct_change_values (map snd close)).
Proof.
  intros Hclose. unfold volatility. rewrite Hclose. cbn [rbind].
  eexists. split; [reflexivity|]. unfold rolling_std, pct_change. split.
  - rewrite !series_apply_index; auto using length_pct_change_values,
      length_rolling_std_values.
  - rewrite !series_apply_values; auto using length_pct_change_values,
      length_rolling_std_values.
Qed.

Lemma defined_values_shrink (f : nat -> option Qc) (l : list nat) (k : nat) :
  In k l -> f k = None ->
  (List.length (defined_values (map f l)) < List.length l)%nat.
Proof.
  induction l as [|a l IH]; intros Hin Hk; [contradiction|].
  destruct Hin as [->|Hin].
  - simpl. rewrite Hk. simpl.
    pose proof (length_defined_values (map f l)) as Hl.
    rewrite length_map in Hl. lia.
  - simpl. specialize (IH Hin Hk).
    destruct (f a); simpl; lia.
Qed.

Lemma prepared_is_nan (l : list float64) (i : nat) :
  nth i (_prep_values l) NaN = NaN ->
  isinf (nth i l NaN) || isnan (nth i l NaN) = true.
Proof.
  unfold _prep_values. intros Hn.
  pose proof (map_nth (fun x => if isinf x then NaN else x) l NaN i) as Hm.
  cbn [isinf] in Hm. rewrite Hm in Hn.
  destruct (nth i l NaN); simpl in *; congruence.
Qed.

(** The volatility column of the exact model against section 4.3: on a
    price frame whose closes are all finite, the value at row i is null
    when fewer than twenty of the percentage changes r_(i-19) .. r_i are
    defined (r_0 and a change from a zero close are not), and otherwise it
    is the sample standard deviation, with divisor n - 1 = 19, of exactly
    those twenty values.  Rounding is left out here; what the program
    computes in binary64 is the subject of the sliding variance below. *)
Lemma exact_volatility_is_sample_std
    (price_data : DataFrame) (close : Series) (closes : list Qc) (i : nat) :
  getitem price_data "close" = Ok close ->
  map snd close = map Fin closes ->
  (i < List.length closes)%nat ->
  exists vol,
    volatility price_data = Ok vol /\
    map fst vol = map fst close /\
    let rs := defined_values (map (pct_spec closes) (trailing_positions i)) in
    (List.length rs <= 20)%nat /\
    ((List.length rs < 20)%nat -> nth i (map snd vol) NaN = NaN) /\
    (List.length rs = 20%nat ->
     nth i (map snd vol) NaN = Fin (sample_std_20 rs)).
Proof.
  intros Hclose Hfin Hi.
  destruct (volatility_ok price_data Hclose) as (vol & Hvol & Hidx & Hval).
  exists vol. split; [exact Hvol|]. split; [exact Hidx|].
  cbv zeta. rewrite Hval, Hfin, rolling_std_pct_change_spec by exact Hi.
  unfold volatility_spec.
  set (rs := defined_values (map (pct_spec closes) (trailing_positions i))).
  assert (Hle : (List.length rs <= 20)%nat).
  { subst rs. etransitivity; [apply length_defined_values|].
    rewrite length_map. apply length_trailing_positions. }
  split; [exact Hle|]. split; intros Hn.
  - destruct (Nat.ltb_spec (List.length rs) 20); [reflexivity|lia].
  - destruct (Nat.ltb_spec (List.length rs) 20); [lia|reflexivity].
Qed.

(** C6: the volatility of a price frame with finite closes is always
    computed (no exception); a percentage change whose denominator is a
    zero close is an infinity or NaN, reaches the rolling window as NaN,
    and every window that contains it yields a null volatility. *)
Theorem zero_close_gives_null_not_error
    (price_data : DataFrame) (close : Series) (closes : list Qc) :
  getitem price_data "close" = Ok close ->
  map snd close = map Fin closes ->
  exists vol,
    volatility price_data = Ok vol /\
    List.length vol = List.length closes /\
    forall i, (S i < List.length closes)%nat -> nth i closes 0%Qc = 0%Qc ->
      (isinf (nth (S i) (pct_change_values (map snd close)) NaN)
       || isnan (nth (S i) (pct_change_values (map snd close)) NaN)
       = true) /\
      nth (S i) (_prep_values (pct_change_values (map snd close))) NaN
      = NaN /\
      forall j, (S i <= j < S i + 20)%nat -> (j < List.length closes)%nat ->
        nth j (map snd vol) NaN = NaN.
Proof.
  intros Hclose Hfin.
  destruct (volatility_ok price_data Hclose) as (vol & Hvol & Hidx & Hval).
  exists vol. split; [exact Hvol|]. split.
  { rewrite <- (length_map snd vol), Hval, length_rolling_std_values,
      length_pct_change_values, Hfin. apply length_map. }
  intros i Hi Hzero.
  assert (Hnone : pct_spec closes (S i) = None).
  { cbn [pct_spec]. rewrite Hzero.
    destruct (Qc_eq_dec 0%Qc 0%Qc); [reflexivity|contradiction]. }
  assert (Hprep :
    nth (S i) (_prep_values (pct_change_values (map snd close))) NaN = NaN).
  { rewrite Hfin, prepared_pct_change by exact Hi. now rewrite Hnone. }
  split; [apply prepared_is_nan; exact Hprep|].
  split; [exact Hprep|].
  intros j Hj Hjn.
  rewrite Hval, Hfin, rolling_std_pct_change_spec by exact Hjn.
  unfold volatility_spec.
  assert (Hin : In (S i) (trailing_positions j)).
  { unfold trailing_positions. apply in_seq. lia. }
  pose proof (defined_values_shrink (pct_spec closes) _ _ Hin Hnone) as Hlt.
  pose proof (length_trailing_positions j) as Hw.
  destruct (Nat.ltb_spec
              (List.length (defined_values
                 (map (pct_spec closes) (trailing_positions j)))) 20);
    [reflexivity|lia].
Qed.
End Volatility.

(** The exact model on the last row of a series of 22 closes. *)
Example exact_volatility_on_22_closes :
  getitem (frame_of_closes closes_22) "close" = Ok (close_of closes_22) /\
  map snd (close_of closes_22) = map Fin closes_22 /\
  (21 < List.length closes_22)%nat /\
  exists vol,
    volatility (H := reference_runtime) (frame_of_closes closes_22) = Ok vol /\
    nth 21 (map snd vol) NaN
    = Fin (sample_std_20 (H := reference_runtime)
             (defined_values
                (map (pct_spec closes_22) (trailing_positions 21)))).
Proof.
  assert (H1 : getitem (frame_of_closes closes_22) "close"
               = Ok (close_of closes_22)) by reflexivity.
  assert (H2 : map snd (close_of closes_22) = map Fin closes_22)
    by reflexivity.
  assert (H3 : (21 < List.length closes_22)%nat) by (simpl; lia).
  split; [exact H1|]. split; [exact H2|]. split; [exact H3|].
  destruct (@exact_volatility_is_sample_std reference_runtime
              (frame_of_closes closes_22) (close_of closes_22) closes_22
              21%nat H1 H2 H3)
    as (vol & Hvol & _ & _ & _ & Hstd).
  exists vol. split; [exact Hvol|]. apply Hstd. vm_compute. reflexivity.
Qed.

(** C6 on a series whose third close is zero: the change of the fourth row
    is an infinity, and row 22, whose window still contains it, is null. *)
Lemma zero_close_gives_null_not_error_witness :
  getitem (frame_of_closes closes_with_zero) "close"
  = Ok (close_of closes_with_zero) /\
  map snd (close_of closes_with_zero) = map Fin closes_with_zero /\
  exists vol,
    volatility (H := reference_runtime) (frame_of_closes closes_with_zero)
    = Ok vol /\
    nth 3 (pct_change_values (map Fin closes_with_zero)) NaN = PInf /\
    nth 22 (map snd vol) NaN = NaN.
Proof.
  assert (H1 : getitem (frame_of_closes closes_with_zero) "close"
               = Ok (close_of closes_with_zero)) by reflexivity.
  assert (H2 : map snd (close_of closes_with_zero)
               = map Fin closes_with_zero) by reflexivity.
  split; [exact H1|]. split; [exact H2|].
  destruct (@zero_close_gives_null_not_error reference_runtime
              (frame_of_closes closes_with_zero)
              (close_of closes_with_zero) closes_with_zero H1 H2)
    as (vol & Hvol & _ & Hz).
  exists vol. split; [exact Hvol|]. split; [reflexivity|].
  refine (proj2 (proj2 (Hz 2%nat _ _)) 22%nat _ _).
  - simpl. lia.
  - reflexivity.
  - lia.
  - simpl. lia.
Defined.
(* ================================================================= *)
(** ** The sliding variance: windows and counts *)








Section SlidingWindow.
Variable T : Type.
Variable A : Arithmetic T.














End SlidingWindow.

(* ================================================================= *)
(** ** The sliding variance in exact arithmetic *)

















Section ExactSliding.
Context `{Runtime}.



Lemma add_var_NaN (A : Arithmetic float64) (st : var_state float64) :
  a_isnan A = isnan -> add_var A NaN st = st.
Proof. intros HA. unfold add_var. now rewrite HA. Qed.

End ExactSliding.










Section ExactRows.
Context `{Runtime}.







End ExactRows.

Section SlidingVolatility.
Context `{Runtime}.

End SlidingVolatility.

(* ================================================================= *)
(** ** Results and dictionaries *)

Lemma rmap_Forall2 {A B} (f : A -> result B) (l : list A) (ys : list B) :
  rmap f l = Ok ys -> Forall2 (fun x y => f x = Ok y) l ys.
Proof.
  revert ys. induction l as [|x l IH]; intros ys Hm; simpl in Hm.
  - injection Hm as <-. constructor.
  - destruct (f x) as [y|e] eqn:Hx; [|discriminate]. cbn [rbind] in Hm.
    destruct (rmap f l) as [ys'|e]; [|discriminate]. cbn [rbind] in Hm.
    injection Hm as <-. constructor; auto.
Qed.

Lemma Forall2_length_eq {A B} (R : A -> B -> Prop) l l' :
  Forall2 R l l' -> List.length l = List.length l'.
Proof. induction 1; simpl; congruence. Qed.

Lemma dict_in_get {V} (k : string) (d : list (string * V)) :
  dict_in k d = true -> exists v, dict_get k d = Some v.
Proof.
  unfold dict_in. destruct (dict_get k d) as [v|]; [eauto|discriminate].
Qed.

Lemma dict_in_keys {V} (k : string) (d : list (string * V)) :
  In k (map fst d) -> dict_in k d = true.
Proof.
  unfold dict_in. induction d as [|[k' v] d IH]; simpl; [contradiction|].
  intros [->|Hin].
  - now rewrite String.eqb_refl.
  - destruct (String.eqb k k'); auto.
Qed.

Lemma In_unique (x : string) (l : list string) : In x (unique l) <-> In x l.
Proof.
  induction l as [|y l IH]; simpl; [tauto|].
  rewrite filter_In, IH. split.
  - intros [->|[Hin _]]; auto.
  - intros [->|Hin]; [auto|].
    destruct (String.eqb_spec y x) as [->|Hne]; [auto|].
    right. split; [exact Hin|reflexivity].
Qed.

Lemma unique_is_NoDup (l : list string) : NoDup (unique l).
Proof.
  induction l as [|x l IH]; simpl; constructor.
  - rewrite filter_In. intros [_ Hx]. now rewrite String.eqb_refl in Hx.
  - now apply NoDup_filter.
Qed.

(** The index of from_dict: the labels of the entries that carry a field. *)
Lemma from_dict_index_spec (p : payload) (label : string) :
  In label (from_dict_index p)
  <-> exists fields, In (label, fields) p /\ fields <> [].
Proof.
  unfold from_dict_index, from_dict_columns.
  rewrite In_unique, in_flat_map. split.
  - intros (c & Hc & Hin).
    apply in_map_iff in Hin as ([l f] & <- & He).
    apply filter_In in He as [He Hd]. exists f. split; [exact He|].
    intros ->. discriminate Hd.
  - intros (fields & Hin & Hne).
    destruct fields as [|[c s] fields]; [contradiction|].
    exists c. split.
    + apply In_unique, in_flat_map. exists (label, (c, s) :: fields).
      split; [exact Hin|]. now left.
    + apply in_map_iff. exists (label, (c, s) :: fields).
      split; [reflexivity|]. apply filter_In. split; [exact Hin|].
      cbn [snd]. unfold dict_in. cbn [dict_get].
      now rewrite String.eqb_refl.
Qed.

Lemma position_None (c : string) (cols : list string) :
  position c cols = None <-> ~ In c cols.
Proof.
  induction cols as [|c' cols IH]; simpl; [tauto|].
  destruct (String.eqb_spec c c') as [->|Hne].
  - split; [discriminate|]. intros Hn. exfalso. auto.
  - destruct (position c cols); simpl.
    + split; [discriminate|]. intros Hn.
      assert (Hx : Some n = None) by (apply IH; tauto). discriminate Hx.
    + split; [|reflexivity]. intros _ [Heq|Hin]; [congruence|].
      now apply IH.
Qed.

Lemma position_In (c : string) (cols : list string) :
  In c cols -> exists j, position c cols = Some j.
Proof.
  intros Hin. destruct (position c cols) as [j|] eqn:Hp; [eauto|].
  apply position_None in Hp. contradiction.
Qed.

Lemma position_lt (c : string) (cols : list string) (j : nat) :
  position c cols = Some j -> (j < List.length cols)%nat.
Proof.
  revert j. induction cols as [|c' cols IH]; intros j; simpl; [discriminate|].
  destruct (String.eqb c c').
  - intros [= <-]. lia.
  - destruct (position c cols) as [j'|]; simpl; [|discriminate].
    intros [= <-]. specialize (IH j' eq_refl). lia.
Qed.

Lemma position_app_old (c : string) (cols more : list string) (j : nat) :
  position c cols = Some j -> position c (cols ++ more) = Some j.
Proof.
  revert j. induction cols as [|c' cols IH]; intros j; simpl; [discriminate|].
  destruct (String.eqb c c'); [auto|].
  destruct (position c cols) as [j'|]; simpl; [|discriminate].
  intros [= <-]. now rewrite (IH j' eq_refl).
Qed.

Lemma position_app_new (c : string) (cols : list string) :
  position c cols = None ->
  position c (cols ++ [c]) = Some (List.length cols).
Proof.
  induction cols as [|c' cols IH]; simpl.
  - now rewrite String.eqb_refl.
  - destruct (String.eqb c c'); [discriminate|].
    destruct (position c cols); simpl; [discriminate|].
    intros _. now rewrite IH.
Qed.

(* ================================================================= *)
(** ** sort_index *)

Section Sorting.
Variable A : Type.

Lemma insert_row_perm (r : Timestamp * A) (l : list (Timestamp * A)) :
  Permutation (r :: l) (insert_row r l).
Proof.
  induction l as [|r' l IH]; simpl.
  - apply Permutation_refl.
  - destruct (fst r <? fst r')%Z.
    + apply Permutation_refl.
    + eapply perm_trans; [apply perm_swap|]. now apply perm_skip.
Qed.

Lemma insert_row_sorted (r : Timestamp * A) (l : list (Timestamp * A)) :
  StronglySorted (@key_le A) l -> StronglySorted (@key_le A) (insert_row r l).
Proof.
  induction 1 as [|r' l Hs IH Hall]; simpl.
  - repeat constructor.
  - destruct (Z.ltb_spec (fst r) (fst r')) as [Hlt|Hge].
    + constructor; [constructor; assumption|].
      constructor; [unfold key_le; lia|].
      eapply Forall_impl; [|exact Hall].
      unfold key_le. intros; lia.
    + constructor; [exact IH|].
      eapply Permutation_Forall; [apply insert_row_perm|].
      constructor; [exact Hge|exact Hall].
Qed.

Lemma fold_insert_perm (l acc : list (Timestamp * A)) :
  Permutation (l ++ acc) (fold_left (fun a r => insert_row r a) l acc).
Proof.
  revert acc. induction l as [|r l IH]; intros acc; simpl.
  - apply Permutation_refl.
  - eapply perm_trans; [|apply IH].
    eapply perm_trans; [apply Permutation_middle|].
    apply Permutation_app_head. apply insert_row_perm.
Qed.

Lemma fold_insert_sorted (l acc : list (Timestamp * A)) :
  StronglySorted (@key_le A) acc ->
  StronglySorted (@key_le A) (fold_left (fun a r => insert_row r a) l acc).
Proof.
  revert acc. induction l as [|r l IH]; intros acc Hs; simpl; auto.
  apply IH. now apply insert_row_sorted.
Qed.

Lemma sort_rows_perm (l : list (Timestamp * A)) :
  Permutation l (sort_rows l).
Proof.
  unfold sort_rows. rewrite <- (app_nil_r l) at 1. apply fold_insert_perm.
Qed.

Lemma sort_rows_sorted (l : list (Timestamp * A)) :
  StronglySorted Z.le (map fst (sort_rows l)).
Proof.
  assert (Hs : StronglySorted (@key_le A) (sort_rows l))
    by (apply fold_insert_sorted; constructor).
  induction Hs as [|r l' Hs IH Hall]; simpl; constructor; auto.
  apply Forall_map. exact Hall.
Qed.
End Sorting.

Lemma sorted_nodup_strict (l : list Z) :
  StronglySorted Z.le l -> NoDup l -> StronglySorted Z.lt l.
Proof.
  induction 1 as [|a l Hs IH Hall]; intros Hnd; [constructor|].
  inversion Hnd as [|? ? Hnotin Hnd']; subst.
  constructor; [auto|].
  rewrite Forall_forall in *. intros x Hx.
  specialize (Hall x Hx).
  assert (a <> x) by (intros ->; contradiction). lia.
Qed.

Lemma strict_sorted_NoDup (l : list Z) : StronglySorted Z.lt l -> NoDup l.
Proof.
  induction 1 as [|a l Hs IH Hall]; constructor; [|exact IH].
  intros Hin. rewrite Forall_forall in Hall. specialize (Hall a Hin). lia.
Qed.

Lemma sort_index_columns (df : DataFrame) :
  columns (sort_index df) = columns df.
Proof. reflexivity. Qed.

Lemma sort_index_sorted (df : DataFrame) :
  StronglySorted Z.le (index (sort_index df)).
Proof. apply sort_rows_sorted. Qed.

Lemma sort_index_perm (df : DataFrame) :
  Permutation (rows df) (rows (sort_index df)).
Proof. apply sort_rows_perm. Qed.

Lemma sort_index_well_formed (df : DataFrame) :
  well_formed df -> well_formed (sort_index df).
Proof.
  unfold well_formed. intros Hwf.
  eapply Permutation_Forall; [apply sort_index_perm|exact Hwf].
Qed.

(* ================================================================= *)
(** ** Normalisation: from_dict, to_datetime, sort_index *)

Section Normalisation.
Context `{Runtime}.

Lemma from_dict_row_ok (data : payload) (cols : list string)
    (label : string) (r : string * list float64) :
  from_dict_row data cols label = Ok r ->
  fst r = label /\ List.length (snd r) = List.length cols.
Proof.
  unfold from_dict_row.
  destruct (rmap _ cols) as [cells|e] eqn:Hcells; [|discriminate].
  cbn [rbind]. intros [= <-]. split; [reflexivity|].
  apply rmap_Forall2, Forall2_length_eq in Hcells. simpl. congruence.
Qed.

Lemma from_dict_ok (data : payload) (df : Frame string) :
  from_dict data = Ok df ->
  columns df = from_dict_columns data /\
  index df = from_dict_index data /\
  well_formed df.
Proof.
  unfold from_dict.
  destruct (rmap _ (from_dict_index data)) as [rs|e] eqn:Hrows;
    [|discriminate].
  cbn [rbind]. intros [= <-].
  apply rmap_Forall2 in Hrows. split; [reflexivity|].
  unfold index, well_formed. cbn [rows columns].
  induction Hrows as [|label r labels rs Hr Hrs [IH1 IH2]].
  - split; [reflexivity|constructor].
  - apply from_dict_row_ok in Hr as [Hl Hn]. split.
    + simpl. now rewrite Hl, IH1.
    + constructor; assumption.
Qed.

Lemma from_dict_index_nonempty (data : payload) :
  from_dict_columns data <> [] -> from_dict_index data <> [].
Proof.
  intros Hcols.
  destruct (from_dict_columns data) as [|c cols] eqn:Ecols; [congruence|].
  assert (Hc : In c (from_dict_columns data)) by (rewrite Ecols; now left).
  unfold from_dict_columns in Hc.
  apply In_unique, in_flat_map in Hc as (e & He & Hce).
  assert (Hin : In (fst e) (from_dict_index data)).
  { unfold from_dict_index. rewrite Ecols. apply In_unique.
    simpl. apply in_or_app. left. apply in_map.
    apply filter_In. split; [exact He|]. now apply dict_in_keys. }
  intros Hnil. rewrite Hnil in Hin. exact Hin.
Qed.

Lemma set_datetime_index_ok (df : Frame string) (df' : DataFrame) :
  set_datetime_index df = Ok df' ->
  columns df' = columns df /\
  Forall2 (fun l d => to_datetime l = Some d) (index df) (index df') /\
  (well_formed df -> well_formed df').
Proof.
  unfold set_datetime_index.
  destruct (rmap _ (rows df)) as [rs|e] eqn:Hrows; [|discriminate].
  cbn [rbind]. intros [= <-]. split; [reflexivity|].
  apply rmap_Forall2 in Hrows.
  unfold index, well_formed. cbn [rows columns].
  induction Hrows as [|r r' rs rs' Hr Hrs [IH1 IH2]].
  - split; [constructor|constructor].
  - unfold to_datetime_label in Hr.
    destruct (to_datetime (fst r)) as [t|] eqn:Ht; [|discriminate].
    injection Hr as <-. split.
    + simpl. constructor; assumption.
    + intros Hwf. inversion Hwf; subst. constructor; auto.
Qed.

(** The three steps that every download goes through. *)
Lemma normalised_frame (v : jvalue) (df : DataFrame) :
  rbind (from_dict_json v) (fun d =>
  rbind (set_datetime_index d) (fun d => Ok (sort_index d))) = Ok df ->
  exists p dates,
    v = JEntries p /\
    columns df = from_dict_columns p /\
    Forall2 (fun l d => to_datetime l = Some d) (from_dict_index p) dates /\
    Permutation dates (index df) /\
    StronglySorted Z.le (index df) /\
    well_formed df.
Proof.
  destruct v as [s|p]; simpl.
  { destruct s; discriminate. }
  destruct (from_dict p) as [d|e] eqn:Hd; [|discriminate]. cbn [rbind].
  destruct (set_datetime_index d) as [d'|e] eqn:Hd'; [|discriminate].
  cbn [rbind]. intros [= <-].
  apply from_dict_ok in Hd as (Hc & Hi & Hwf).
  apply set_datetime_index_ok in Hd' as (Hc' & Hi' & Hwf').
  exists p, (index d'). split; [reflexivity|].
  split; [now rewrite sort_index_columns, Hc', Hc|].
  split; [now rewrite <- Hi|].
  split; [apply Permutation_map, sort_index_perm|].
  split; [apply sort_index_sorted|].
  apply sort_index_well_formed; auto.
Qed.

Lemma normalised_frame_nonempty (p : payload) (dates : list Timestamp)
    (df : DataFrame) :
  columns df = from_dict_columns p ->
  Forall2 (fun l d => to_datetime l = Some d) (from_dict_index p) dates ->
  Permutation dates (index df) ->
  columns df <> [] -> rows df <> [].
Proof.
  intros Hc Hd Hp Hne. rewrite Hc in Hne.
  apply from_dict_index_nonempty in Hne.
  intros Hrows. unfold index in Hp. rewrite Hrows in Hp.
  apply Permutation_sym, Permutation_nil in Hp. subst dates.
  inversion Hd. congruence.
Qed.

Lemma indicator_frame_ok (key : string) (data : response) (df : DataFrame) :
  indicator_frame key data = Ok df ->
  well_formed df /\ StronglySorted Z.le (index df) /\
  ((dict_in key data = false /\ df = empty_frame) \/
   (exists p dates,
      dict_get key data = Some (JEntries p) /\
      columns df = from_dict_columns p /\
      Forall2 (fun l d => to_datetime l = Some d)
              (from_dict_index p) dates /\
      Permutation dates (index df))).
Proof.
  unfold indicator_frame.
  destruct (dict_in key data) eqn:Hin.
  - destruct (dict_in_get _ _ Hin) as [v Hv].
    unfold dict_getitem. rewrite Hv. cbn [rbind]. intros Hn.
    apply normalised_frame in Hn as (p & dates & -> & Hc & Hd & Hp & Hs & Hw).
    split; [exact Hw|]. split; [exact Hs|]. right.
    exists p, dates. auto.
  - intros [= <-]. split; [constructor|]. split; [constructor|].
    left. auto.
Qed.

Lemma indicator_call (w : World) (self : AlphaVantageDataFetcher)
    (params : pydict) (key : string) (tr : trace) :
  bind (_api_call w self params)
       (fun data => lift (indicator_frame key data)) tr
  = (rbind (requests_get w tr (base_url self)
              (dict_set "apikey" (VStr (api_key self)) params))
           (indicator_frame key),
     tr ++ [HttpGet (base_url self)
              (dict_set "apikey" (VStr (api_key self)) params)]).
Proof.
  unfold bind, _api_call, lift.
  destruct (requests_get w tr _ _); reflexivity.
Qed.
End Normalisation.

(* ================================================================= *)
(** ** Reading and adding columns *)

Lemma getitem_index (df : DataFrame) (c : string) (s : Series) :
  getitem df c = Ok s -> map fst s = index df.
Proof.
  unfold getitem. destruct (position c (columns df)); [|discriminate].
  intros [= <-]. unfold index. rewrite map_map. reflexivity.
Qed.

Lemma getitem_defined (df : DataFrame) (c : string) (j : nat) :
  position c (columns df) = Some j -> exists s, getitem df c = Ok s.
Proof. unfold getitem. intros ->. eauto. Qed.

Lemma index_equals_eq (l1 l2 : list Timestamp) :
  index_equals l1 l2 = true -> l1 = l2.
Proof.
  revert l2. induction l1 as [|a l1 IH]; intros [|b l2]; simpl;
    try discriminate; auto.
  intros Hb. apply andb_true_iff in Hb as [Hab Hl].
  apply Z.eqb_eq in Hab. subst. f_equal. auto.
Qed.

Lemma index_equals_refl (l : list Timestamp) : index_equals l l = true.
Proof.
  induction l as [|a l IH]; simpl; [reflexivity|].
  now rewrite Z.eqb_refl, IH.
Qed.

Lemma series_lookup_Some (t : Timestamp) (s : Series) (v : float64) :
  series_lookup t s = Some v -> In (t, v) s.
Proof.
  induction s as [|[t' v'] s IH]; simpl; [discriminate|].
  destruct (Z.eqb_spec t t') as [->|Hne].
  - intros [= ->]. now left.
  - intros Hl. right. auto.
Qed.

Lemma series_lookup_None (t : Timestamp) (s : Series) :
  series_lookup t s = None -> ~ In t (map fst s).
Proof.
  induction s as [|[t' v'] s IH]; simpl; [tauto|].
  destruct (Z.eqb_spec t t') as [->|Hne]; [discriminate|].
  intros Hl [Heq|Hin]; [congruence|]. now apply IH.
Qed.

Lemma combine_fst_snd {A B} (l : list (A * B)) :
  combine (map fst l) (map snd l) = l.
Proof.
  induction l as [|[a b] l IH]; simpl; [reflexivity|]. now rewrite IH.
Qed.

Lemma in_combine_map {A B} (f : A -> B) (l : list A) (a : A) (b : B) :
  In (a, b) (combine l (map f l)) -> b = f a.
Proof.
  induction l as [|x l IH]; simpl; [contradiction|].
  intros [[= -> ->]|Hin]; auto.
Qed.

(** The values that an aligned assignment writes: one per row, each the
    value of the Series at the date of its row, or NaN. *)
Lemma _reindex_for_setitem_ok (value : Series) (df : DataFrame)
    (vals : list float64) :
  rows df <> [] ->
  _reindex_for_setitem value df = Ok vals ->
  List.length vals = List.length (rows df) /\
  forall d v, In (d, v) (combine (index df) vals) ->
              In (d, v) value \/ (v = NaN /\ ~ In d (map fst value)).
Proof.
  intros Hrows. unfold _reindex_for_setitem.
  assert (Hlen : Nat.eqb (List.length (index df)) 0 = false).
  { unfold index. rewrite length_map. destruct (rows df); [congruence|].
    reflexivity. }
  rewrite Hlen, orb_false_r.
  destruct (index_equals (map fst value) (index df)) eqn:Heq.
  - apply index_equals_eq in Heq. intros [= <-]. split.
    + rewrite length_map, <- (length_map fst value), Heq.
      unfold index. apply length_map.
    + intros d v Hin. left. rewrite <- Heq, combine_fst_snd in Hin. exact Hin.
  - unfold reindex. destruct (has_duplicates (map fst value)); [discriminate|].
    intros [= <-]. split.
    + rewrite length_map. unfold index. apply length_map.
    + intros d v Hin. apply in_combine_map in Hin.
      destruct (series_lookup d value) as [x|] eqn:Hl; subst v.
      * left. now apply series_lookup_Some.
      * right. split; [reflexivity|]. now apply series_lookup_None.
Qed.

(** Rows with one more cell each. *)
Lemma appended_index (rs : list (Timestamp * list float64))
    (vals : list float64) :
  List.length vals = List.length rs ->
  map fst (map (fun rv => (fst (fst rv), snd (fst rv) ++ [snd rv]))
               (combine rs vals))
  = map fst rs.
Proof.
  intros Hlen. rewrite map_map. cbn [fst].
  rewrite <- (map_map fst fst). f_equal.
  apply map_fst_combine_eq. auto.
Qed.

Lemma appended_well_formed (n : nat) (rs : list (Timestamp * list float64))
    (vals : list float64) :
  Forall (fun r => List.length (snd r) = n) rs ->
  Forall (fun r => List.length (snd r) = (n + 1)%nat)
         (map (fun rv => (fst (fst rv), snd (fst rv) ++ [snd rv]))
              (combine rs vals)).
Proof.
  intros Hwf. apply Forall_map. rewrite Forall_forall.
  intros [r v] Hin. cbn [fst snd]. rewrite length_app. simpl.
  apply in_combine_l in Hin. rewrite Forall_forall in Hwf.
  now rewrite (Hwf _ Hin).
Qed.

Lemma appended_new_column (n : nat) (rs : list (Timestamp * list float64))
    (vals : list float64) :
  Forall (fun r => List.length (snd r) = n) rs ->
  map (fun r => (fst r, nth n (snd r) NaN))
      (map (fun rv => (fst (fst rv), snd (fst rv) ++ [snd rv]))
           (combine rs vals))
  = combine (map fst rs) vals.
Proof.
  intros Hwf. revert vals.
  induction Hwf as [|r rs' Hr Hrs IH]; intros vals.
  - reflexivity.
  - destruct vals as [|v vals]; [reflexivity|]. simpl.
    rewrite IH. f_equal. f_equal.
    rewrite app_nth2 by lia. now rewrite Hr, Nat.sub_diag.
Qed.

Lemma appended_old_column (n j : nat) (rs : list (Timestamp * list float64))
    (vals : list float64) :
  Forall (fun r => List.length (snd r) = n) rs ->
  List.length vals = List.length rs ->
  (j < n)%nat ->
  map (fun r => (fst r, nth j (snd r) NaN))
      (map (fun rv => (fst (fst rv), snd (fst rv) ++ [snd rv]))
           (combine rs vals))
  = map (fun r => (fst r, nth j (snd r) NaN)) rs.
Proof.
  intros Hwf Hlen Hj. revert vals Hlen.
  induction Hwf as [|r rs' Hr Hrs IH]; intros vals Hlen.
  - reflexivity.
  - destruct vals as [|v vals]; [discriminate|]. simpl.
    rewrite IH by (simpl in Hlen; lia). f_equal. f_equal.
    apply app_nth1. lia.
Qed.

Lemma keeps_refl (df : DataFrame) :
  well_formed df -> rows df <> [] -> keeps df df.
Proof. intros Hwf Hne. repeat split; auto. Qed.

Lemma keeps_trans (df1 df2 df3 : DataFrame) :
  keeps df1 df2 -> keeps df2 df3 -> keeps df1 df3.
Proof.
  intros (Hi & _ & _ & Hc) (Hi' & Hwf & Hne & Hc').
  repeat split; try assumption; try congruence.
  - destruct (Hc _ _ H) as [Hp _]. now destruct (Hc' _ _ Hp).
  - destruct (Hc _ _ H) as [Hp Hg]. destruct (Hc' _ _ Hp) as [_ Hg'].
    congruence.
Qed.

Lemma joined_on_date_keeps (df df' ind : DataFrame) (c c' : string) :
  joined_on_date df c ind c' -> keeps df df' -> joined_on_date df' c ind c'.
Proof.
  intros (s_out & s_ind & Hout & Hind & Hidx & Hval) (Hi & _ & _ & Hc).
  exists s_out, s_ind.
  assert (Hpos : exists j, position c (columns df) = Some j).
  { unfold getitem in Hout. destruct (position c (columns df)); [eauto|].
    discriminate. }
  destruct Hpos as [j Hj]. destruct (Hc _ _ Hj) as [_ Hg].
  repeat split; try assumption; congruence.
Qed.

(** [df[c] = value] for a label that is not yet a column. *)
Lemma setitem_fresh (df : DataFrame) (c : string) (value : Series)
    (df' : DataFrame) :
  well_formed df -> rows df <> [] -> position c (columns df) = None ->
  setitem df c value = Ok df' ->
  columns df' = columns df ++ [c] /\
  keeps df df' /\
  exists s,
    getitem df' c = Ok s /\
    map fst s = index df' /\
    forall d v, In (d, v) s ->
                In (d, v) value \/ (v = NaN /\ ~ In d (map fst value)).
Proof.
  intros Hwf Hne Hpos. unfold setitem, _ensure_valid_index.
  destruct (rows df) as [|r0 rs0] eqn:Hrows; [congruence|].
  destruct (_reindex_for_setitem value df) as [vals|e] eqn:Hre;
    [|discriminate].
  cbn [rbind]. intros [= <-].
  apply _reindex_for_setitem_ok in Hre as [Hlen Hval];
    [|rewrite Hrows; discriminate].
  unfold set_column. rewrite Hpos. cbn [columns].
  assert (Hidx : index (mkFrame (columns df ++ [c])
                   (map (fun rv => (fst (fst rv), snd (fst rv) ++ [snd rv]))
                        (combine (rows df) vals))) = index df).
  { unfold index. cbn [rows]. now apply appended_index. }
  split; [reflexivity|]. split.
  - split; [exact Hidx|]. split; [|split].
    + unfold well_formed. cbn [rows columns]. rewrite length_app. simpl.
      now apply appended_well_formed.
    + intros Hnil. apply (f_equal (@List.length _)) in Hnil.
      cbn [rows] in Hnil.
      rewrite length_map, length_combine, Hlen, Hrows in Hnil.
      simpl in Hnil. lia.
    + intros c0 j Hj. split; [now apply position_app_old|].
      unfold getitem. cbn [columns rows].
      rewrite (position_app_old _ _ [c] Hj), Hj. f_equal.
      apply appended_old_column with (n := List.length (columns df)); auto.
      now apply position_lt with (c := c0).
  - exists (combine (index df) vals).
    split; [|split; [|exact Hval]].
    + unfold getitem. cbn [columns rows].
      rewrite (position_app_new _ _ Hpos). f_equal.
      now apply appended_new_column.
    + rewrite Hidx. apply map_fst_combine_eq.
      unfold index. now rewrite length_map.
Qed.

(** One optional column of the merge. *)
Lemma merge_step (df ind : DataFrame) (c c' : string) (df' : DataFrame) :
  well_formed df -> rows df <> [] -> position c (columns df) = None ->
  (if negb (empty ind)
   then rbind (getitem ind c') (setitem df c)
   else Ok df) = Ok df' ->
  columns df' = columns df ++ (if empty ind then [] else [c]) /\
  keeps df df' /\
  (empty ind = false -> joined_on_date df' c ind c').
Proof.
  intros Hwf Hne Hpos. destruct (empty ind); cbn [negb].
  - intros [= <-]. rewrite app_nil_r.
    split; [reflexivity|]. split; [now apply keeps_refl|discriminate].
  - destruct (getitem ind c') as [s|e] eqn:Hs; [|discriminate].
    cbn [rbind]. intros Hset.
    apply setitem_fresh in Hset as (Hc & Hk & s' & Hg & Hi & Hv); auto.
    split; [exact Hc|]. split; [exact Hk|]. intros _.
    exists s', s. auto.
Qed.

(* ================================================================= *)
(** ** get_stock_data, step by step *)

Section Run.
Context `{Runtime}.

Lemma get_stock_data_eq (w : World) (self : AlphaVantageDataFetcher)
    (tr : trace) :
  get_stock_data w self tr =
  match py_getitem (config self) "symbol" with
  | Raise e => (Raise e, tr)
  | Ok symbol =>
    match _get_price_volume w self symbol (tr ++ [banner symbol]) with
    | (Raise e, tr1) => (Raise e, tr1)
    | (Ok price, tr1) =>
      match rbind (volatility price) (setitem price "volatility") with
      | Raise e => (Raise e, tr1)
      | Ok price6 =>
        match _get_rsi w self symbol tr1 with
        | (Raise e, tr2) => (Raise e, tr2)
        | (Ok rsi, tr2) =>
          match _get_macd w self symbol tr2 with
          | (Raise e, tr3) => (Raise e, tr3)
          | (Ok macd, tr3) =>
            match _get_sma w self symbol tr3 with
            | (Raise e, tr4) => (Raise e, tr4)
            | (Ok sma, tr4) => (combine_data price6 rsi macd sma, tr4)
            end
          end
        end
      end
    end
  end.
Proof.
  unfold get_stock_data, bind, lift, emit, banner.
  destruct (py_getitem (config self) "symbol") as [symbol|e]; [|reflexivity].
  destruct (_get_price_volume w self symbol _) as [[price|e] tr1];
    [|reflexivity].
  destruct (volatility price) as [vol|e]; [|reflexivity]. cbn [rbind].
  destruct (setitem price "volatility" vol) as [price6|e]; [|reflexivity].
  destruct (_get_rsi w self symbol tr1) as [[rsi|e] tr2]; [|reflexivity].
  destruct (_get_macd w self symbol tr2) as [[macd|e] tr3]; [|reflexivity].
  destruct (_get_sma w self symbol tr3) as [[sma|e] tr4]; reflexivity.
Qed.

Lemma set_columns_ok {I} (df : Frame I) (names : list string)
    (df' : Frame I) :
  set_columns df names = Ok df' ->
  columns df' = names /\ rows df' = rows df /\
  List.length (columns df) = List.length names.
Proof.
  unfold set_columns.
  destruct (Nat.eqb_spec (List.length (columns df)) (List.length names));
    [|discriminate].
  intros [= <-]. auto.
Qed.

(** What a successful price download looks like. *)
Lemma _get_price_volume_ok (w : World) (self : AlphaVantageDataFetcher)
    (symbol : pyval) (tr : trace) (price : DataFrame) (tr1 : trace) :
  _get_price_volume w self symbol tr = (Ok price, tr1) ->
  columns price = price_columns /\
  well_formed price /\
  rows price <> [] /\
  StronglySorted Z.le (index price) /\
  tr1 = tr ++ [request_of self [("function", VStr "TIME_SERIES_DAILY");
                                ("symbol", symbol);
                                ("outputsize", VStr "compact")]] /\
  exists data p dates,
    requests_get w tr (base_url self)
      [("function", VStr "TIME_SERIES_DAILY"); ("symbol", symbol);
       ("outputsize", VStr "compact"); ("apikey", VStr (api_key self))]
    = Ok data /\
    dict_get "Time Series (Daily)" data = Some (JEntries p) /\
    Forall2 (fun l d => to_datetime l = Some d) (from_dict_index p) dates /\
    Permutation dates (index price).
Proof.
  unfold _get_price_volume, bind, lift, _api_call. cbn [dict_set String.eqb
    Ascii.eqb Bool.eqb].
  change (dict_set "apikey" (VStr (api_key self))
            [("function", VStr "TIME_SERIES_DAILY"); ("symbol", symbol);
             ("outputsize", VStr "compact")])
    with [("function", VStr "TIME_SERIES_DAILY"); ("symbol", symbol);
          ("outputsize", VStr "compact"); ("apikey", VStr (api_key self))].
  destruct (requests_get w tr _ _) as [data|e] eqn:Hreq; [|discriminate].
  unfold dict_getitem.
  destruct (dict_get "Time Series (Daily)" data) as [ts|] eqn:Hts;
    [|discriminate].
  destruct (from_dict_json ts) as [d|e] eqn:Hd; [|discriminate].
  destruct (set_datetime_index d) as [d'|e] eqn:Hd'; [|discriminate].
  destruct (set_columns (sort_index d') _) as [df|e] eqn:Hcols;
    [|discriminate].
  intros [= <- <-].
  apply set_columns_ok in Hcols as (Hc & Hr & Hn).
  assert (Hnorm :
    rbind (from_dict_json ts) (fun d =>
    rbind (set_datetime_index d) (fun d => Ok (sort_index d)))
    = Ok (sort_index d')).
  { rewrite Hd. cbn [rbind]. now rewrite Hd'. }
  apply normalised_frame in Hnorm
    as (p & dates & -> & Hc0 & Hdates & Hperm & Hsorted & Hwf).
  assert (Hidx : index df = index (sort_index d'))
    by (unfold index; now rewrite Hr).
  split; [exact Hc|]. split.
  { unfold well_formed in *. rewrite Hr, Hc.
    eapply Forall_impl; [|exact Hwf]. intros r Hlen. cbn beta in *.
    congruence. }
  split.
  { rewrite Hr.
    apply (@normalised_frame_nonempty _ p dates (sort_index d') Hc0 Hdates
             Hperm).
    intros Hnil. rewrite Hnil in Hn. discriminate. }
  split; [now rewrite Hidx|]. split; [reflexivity|].
  exists data, p, dates. rewrite Hidx. auto.
Qed.

(** Line 33 on a downloaded price frame: the column is added, nothing else
    changes. *)
Lemma price_with_volatility (price : DataFrame) :
  columns price = price_columns -> well_formed price -> rows price <> [] ->
  exists vol price6,
    volatility price = Ok vol /\
    setitem price "volatility" vol = Ok price6 /\
    columns price6 = price_columns ++ ["volatility"] /\
    keeps price price6.
Proof.
  intros Hc Hwf Hne.
  destruct (@getitem_defined price "close" 3%nat) as [close Hclose];
    [now rewrite Hc|].
  destruct (volatility_ok price Hclose) as (vol & Hvol & Hidx & _).
  assert (Hset : exists price6, setitem price "volatility" vol = Ok price6).
  { unfold setitem, _ensure_valid_index, _reindex_for_setitem.
    destruct (rows price) eqn:Hrows; [congruence|].
    rewrite Hidx, (getitem_index _ _ Hclose), index_equals_refl.
    cbn [orb rbind]. eauto. }
  destruct Hset as [price6 Hset].
  exists vol, price6. split; [exact Hvol|]. split; [exact Hset|].
  apply setitem_fresh in Hset as (Hc6 & Hk & _); auto.
  - split; [now rewrite Hc6, Hc|exact Hk].
  - now rewrite Hc.
Qed.

(** The merge on a price frame that already carries the volatility. *)
Lemma combine_data_ok (price6 rsi macd sma out : DataFrame) :
  columns price6 = price_columns ++ ["volatility"] ->
  well_formed price6 -> rows price6 <> [] ->
  combine_data price6 rsi macd sma = Ok out ->
  columns out = expected_columns rsi macd sma /\
  keeps price6 out /\
  (empty rsi = false -> joined_on_date out "rsi" rsi "RSI") /\
  (empty macd = false ->
   joined_on_date out "macd" macd "MACD" /\
   joined_on_date out "macd_signal" macd "MACD_Signal") /\
  (empty sma = false -> joined_on_date out "sma_20" sma "SMA").
Proof.
  intros Hc Hwf Hne. unfold combine_data.
  destruct (if negb (empty rsi) then _ else _) as [df1|e] eqn:H1;
    [|discriminate].
  cbn [rbind].
  apply merge_step in H1 as (Hc1 & Hk1 & Hj1); auto; [|now rewrite Hc].
  rewrite Hc in Hc1. pose proof Hk1 as (_ & Hwf1 & Hne1 & _).
  destruct (if negb (empty macd) then _ else _) as [df2|e] eqn:H2;
    [|discriminate].
  cbn [rbind]. intros H3.
  assert (Hstep2 :
    columns df2 = columns df1
                  ++ (if empty macd then [] else ["macd"; "macd_signal"]) /\
    keeps df1 df2 /\
    (empty macd = false ->
     joined_on_date df2 "macd" macd "MACD" /\
     joined_on_date df2 "macd_signal" macd "MACD_Signal")).
  { destruct (empty macd); cbn [negb] in H2.
    - injection H2 as <-. rewrite app_nil_r.
      split; [reflexivity|]. split; [now apply keeps_refl|discriminate].
    - destruct (getitem macd "MACD") as [s|e] eqn:Hs; [|discriminate].
      cbn [rbind] in H2.
      destruct (setitem df1 "macd" s) as [dfa|e] eqn:Ha; [|discriminate].
      cbn [rbind] in H2.
      destruct (getitem macd "MACD_Signal") as [s'|e] eqn:Hs';
        [|discriminate].
      cbn [rbind] in H2.
      apply setitem_fresh in Ha as (Hca & Hka & sa & Hga & Hia & Hva); auto.
      2:{ rewrite Hc1. destruct (empty rsi); reflexivity. }
      pose proof Hka as (_ & Hwfa & Hnea & _).
      apply setitem_fresh in H2 as (Hcb & Hkb & sb & Hgb & Hib & Hvb); auto.
      2:{ rewrite Hca, Hc1. destruct (empty rsi); reflexivity. }
      split; [rewrite Hcb, Hca, <- app_assoc; reflexivity|].
      split; [eapply keeps_trans; eassumption|]. intros _. split.
      + apply joined_on_date_keeps with (df := dfa); [|exact Hkb].
        exists sa, s. auto.
      + exists sb, s'. auto. }
  destruct Hstep2 as (Hc2 & Hk2 & Hj2).
  pose proof Hk2 as (_ & Hwf2 & Hne2 & _).
  apply merge_step in H3 as (Hc3 & Hk3 & Hj3); auto.
  2:{ rewrite Hc2, Hc1. destruct (empty rsi), (empty macd); reflexivity. }
  split.
  { rewrite Hc3, Hc2, Hc1. unfold expected_columns.
    rewrite <- !app_assoc. reflexivity. }
  split; [eauto using keeps_trans|].
  split.
  { intros He. apply joined_on_date_keeps with (df := df1); auto.
    eapply keeps_trans; eassumption. }
  split; [|exact Hj3].
  intros He. destruct (Hj2 He) as [Ja Jb].
  split; apply joined_on_date_keeps with (df := df2); auto.
Qed.

(** A run that returns a table went through every step. *)
Lemma get_stock_data_inv (w : World) (self : AlphaVantageDataFetcher)
    (tr : trace) (out : DataFrame) (tr' : trace) :
  get_stock_data w self tr = (Ok out, tr') ->
  exists d vol price6,
    fetched w self tr d tr' /\
    volatility (price_of d) = Ok vol /\
    setitem (price_of d) "volatility" vol = Ok price6 /\
    combine_data price6 (rsi_of d) (macd_of d) (sma_of d) = Ok out.
Proof.
  rewrite get_stock_data_eq.
  destruct (py_getitem (config self) "symbol") as [symbol|e] eqn:Hsym;
    [|discriminate].
  destruct (_get_price_volume w self symbol _) as [[price|e] tr1] eqn:Hp;
    [|discriminate].
  destruct (volatility price) as [vol|e] eqn:Hvol; [|discriminate].
  cbn [rbind].
  destruct (setitem price "volatility" vol) as [price6|e] eqn:Hset;
    [|discriminate].
  destruct (_get_rsi w self symbol tr1) as [[rsi|e] tr2] eqn:Hrsi;
    [|discriminate].
  destruct (_get_macd w self symbol tr2) as [[macd|e] tr3] eqn:Hmacd;
    [|discriminate].
  destruct (_get_sma w self symbol tr3) as [[sma|e] tr4] eqn:Hsma;
    [|discriminate].
  intros [= Hout <-].
  exists {| symbol_of := symbol; price_of := price; rsi_of := rsi;
            macd_of := macd; sma_of := sma; after_price := tr1;
            after_rsi := tr2; after_macd := tr3 |}, vol, price6.
  unfold fetched. cbn. auto 10.
Qed.

(** Everything that is known of a table returned by get_stock_data. *)
Lemma get_stock_data_table (w : World) (self : AlphaVantageDataFetcher)
    (tr : trace) (out : DataFrame) (tr' : trace) :
  get_stock_data w self tr = (Ok out, tr') ->
  exists d,
    fetched w self tr d tr' /\
    columns (price_of d) = price_columns /\
    StronglySorted Z.le (index (price_of d)) /\
    rows (price_of d) <> [] /\
    keeps (price_of d) out /\
    columns out = expected_columns (rsi_of d) (macd_of d) (sma_of d) /\
    (exists vol, volatility (price_of d) = Ok vol /\
                 getitem out "volatility" = Ok vol) /\
    (empty (rsi_of d) = false -> joined_on_date out "rsi" (rsi_of d) "RSI") /\
    (empty (macd_of d) = false ->
     joined_on_date out "macd" (macd_of d) "MACD" /\
     joined_on_date out "macd_signal" (macd_of d) "MACD_Signal") /\
    (empty (sma_of d) = false ->
     joined_on_date out "sma_20" (sma_of d) "SMA").
Proof.
  intros Hrun.
  apply get_stock_data_inv in Hrun
    as (d & vol & price6 & Hf & Hvol & Hset & Hcomb).
  pose proof Hf as (_ & Hp & _).
  set (price := price_of d) in *.
  apply _get_price_volume_ok in Hp as (Hc & Hwf & Hne & Hs & _).
  destruct (price_with_volatility Hc Hwf Hne)
    as (vol' & price6' & Hvol' & Hset' & Hc6 & Hk6).
  assert (vol' = vol) by congruence. subst vol'.
  assert (price6' = price6) by congruence. subst price6'.
  pose proof Hk6 as (_ & Hwf6 & Hne6 & _).
  pose proof Hset as Hset2.
  apply setitem_fresh in Hset2 as (_ & _ & s & Hgs & His & Hvs); auto;
    [|now rewrite Hc].
  apply combine_data_ok in Hcomb as (Hco & Hko & Hj); auto.
  exists d.
  split; [exact Hf|]. split; [exact Hc|]. split; [exact Hs|].
  split; [exact Hne|]. split; [eapply keeps_trans; eassumption|].
  split; [exact Hco|]. split; [|exact Hj].
  exists vol. split; [exact Hvol|].
  destruct Hko as (_ & _ & _ & Hcols).
  destruct (Hcols "volatility" 5%nat) as [_ Hg];
    [rewrite Hc6; reflexivity|].
  rewrite Hg.
(* the stored column is the computed Series itself *)
  clear - Hset Hc Hwf Hne Hvol.
  unfold setitem, _ensure_valid_index in Hset.
  destruct (rows price) as [|r0 rs0] eqn:Hrows; [congruence|].
  destruct (_reindex_for_setitem vol price) as [vals|e] eqn:Hre;
    [|discriminate].
  injection Hset as <-.
  unfold volatility in Hvol.
  destruct (getitem price "close") as [close|e] eqn:Hclose; [|discriminate].
  destruct (volatility_ok price Hclose) as (vol0 & Hvol0 & Hidx & _).
  unfold volatility in Hvol0. rewrite Hclose in Hvol0.
  assert (vol0 = vol) by congruence. subst vol0.
  unfold _reindex_for_setitem in Hre.
  rewrite Hidx, (getitem_index _ _ Hclose), index_equals_refl in Hre.
  cbn [orb] in Hre. injection Hre as <-.
  unfold getitem, set_column. rewrite Hc. unfold price_columns.
  cbn [position String.eqb Ascii.eqb Bool.eqb option_map columns rows app].
  f_equal. rewrite (@appended_new_column 5).
  - fold (index price).
    rewrite <- (getitem_index _ _ Hclose), <- Hidx. apply combine_fst_snd.
  - unfold well_formed in Hwf. now rewrite Hc in Hwf.
Qed.
End Run.

(* ================================================================= *)
(** * The claims *)

Section Claims.
Context `{Runtime}.

(** The value and the trace of one optional download. *)
Lemma optional_indicator_call
    (get : World -> AlphaVantageDataFetcher -> pyval -> M DataFrame)
    (key : string) (params : pyval -> pydict) (w : World)
    (self : AlphaVantageDataFetcher) (symbol : pyval) (tr : trace) :
  In (get, key, params) optional_indicators ->
  get w self symbol tr
  = (rbind (reply w self tr (params symbol)) (indicator_frame key),
     tr ++ [request_of self (params symbol)]).
Proof.
  unfold optional_indicators, reply, request_of.
  intros [Heq|[Heq|[Heq|[]]]]; injection Heq as <- <- <-;
    [unfold _get_rsi|unfold _get_macd|unfold _get_sma];
    rewrite indicator_call; reflexivity.
Qed.

Lemma indicator_frame_absent (key : string) (data : response) :
  dict_in key data = false -> indicator_frame key data = Ok empty_frame.
Proof. unfold indicator_frame. now intros ->. Qed.

Lemma indicator_frame_no_entries (key : string) (data : response) :
  dict_get key data = Some (JEntries []) ->
  indicator_frame key data = Ok empty_frame.
Proof.
  intros Hget. unfold indicator_frame, dict_in, dict_getitem.
  rewrite Hget. reflexivity.
Qed.

(** C3: the table returned by get_stock_data has exactly the rows of the
    normalised price frame, in the same ascending order of dates and with
    the same price cells, and a cell of an indicator column holds the
    indicator's value at the date of its row, or NaN when the indicator has
    no entry at exactly that date. *)
Theorem merged_rows_are_price_rows (w : World)
    (self : AlphaVantageDataFetcher) (tr : trace) (out : DataFrame)
    (tr' : trace) :
  get_stock_data w self tr = (Ok out, tr') ->
  exists d,
    fetched w self tr d tr' /\
    index out = index (price_of d) /\
    StronglySorted Z.le (index out) /\
    (forall c, In c price_columns ->
               exists s, getitem (price_of d) c = Ok s /\
                         getitem out c = Ok s) /\
    (empty (rsi_of d) = false -> joined_on_date out "rsi" (rsi_of d) "RSI") /\
    (empty (macd_of d) = false ->
     joined_on_date out "macd" (macd_of d) "MACD" /\
     joined_on_date out "macd_signal" (macd_of d) "MACD_Signal") /\
    (empty (sma_of d) = false ->
     joined_on_date out "sma_20" (sma_of d) "SMA").
Proof.
  intros Hrun.
  apply get_stock_data_table in Hrun
    as (d & Hf & Hc & Hs & _ & (Hi & _ & _ & Hk) & _ & _ & Hj).
  exists d. split; [exact Hf|]. split; [exact Hi|].
  split; [now rewrite Hi|]. split; [|exact Hj].
  intros c Hin. rewrite <- Hc in Hin.
  destruct (position_In _ _ Hin) as [j Hpos].
  destruct (getitem_defined _ _ Hpos) as [s Hs'].
  exists s. split; [exact Hs'|].
  destruct (Hk c j Hpos) as [_ Hg]. congruence.
Qed.

(** C7: the columns of the table returned by get_stock_data are open, high,
    low, close, volume, volatility, then rsi when the RSI frame is not
    empty, then macd and macd_signal when the MACD frame is not empty, then
    sma_20 when the SMA frame is not empty, and nothing else; the volatility
    column holds the Series computed from the price frame. *)
Theorem output_columns_in_order (w : World) (self : AlphaVantageDataFetcher)
    (tr : trace) (out : DataFrame) (tr' : trace) :
  get_stock_data w self tr = (Ok out, tr') ->
  exists d,
    fetched w self tr d tr' /\
    columns out
    = ["open"; "high"; "low"; "close"; "volume"; "volatility"]
        ++ (if empty (rsi_of d) then [] else ["rsi"])
        ++ (if empty (macd_of d) then [] else ["macd"; "macd_signal"])
        ++ (if empty (sma_of d) then [] else ["sma_20"]) /\
    exists vol,
      volatility (price_of d) = Ok vol /\ getitem out "volatility" = Ok vol.
Proof.
  intros Hrun.
  apply get_stock_data_table in Hrun
    as (d & Hf & _ & _ & _ & _ & Hc & Hv & _).
  exists d. split; [exact Hf|]. split; [exact Hc|exact Hv].
Qed.

Lemma not_in_expected_columns (rsi macd sma : DataFrame) :
  (empty rsi = true -> ~ In "rsi" (expected_columns rsi macd sma)) /\
  (empty macd = true ->
   ~ In "macd" (expected_columns rsi macd sma) /\
   ~ In "macd_signal" (expected_columns rsi macd sma)) /\
  (empty sma = true -> ~ In "sma_20" (expected_columns rsi macd sma)).
Proof.
  unfold expected_columns.
  split; [|split]; intros ->; try split; apply position_None;
    destruct (empty rsi), (empty macd), (empty sma); reflexivity.
Qed.

(** C5: when the reply to the request of an optional indicator lacks the
    indicator's payload key, the method returns the empty frame without
    raising, and a table returned by get_stock_data has no column of that
    indicator. *)
Theorem missing_key_leaves_no_column :
  (forall get key params w self symbol tr data,
     In (get, key, params) optional_indicators ->
     reply w self tr (params symbol) = Ok data ->
     dict_in key data = false ->
     get w self symbol tr
     = (Ok empty_frame, tr ++ [request_of self (params symbol)])) /\
  (forall w self tr out tr',
     get_stock_data w self tr = (Ok out, tr') ->
     exists d,
       fetched w self tr d tr' /\
       (forall data,
          reply w self (after_price d)
            [("function", VStr "RSI"); ("symbol", symbol_of d);
             ("interval", VStr "daily"); ("time_period", VInt 14);
             ("series_type", VStr "close")] = Ok data ->
          dict_in "Technical Analysis: RSI" data = false ->
          rsi_of d = empty_frame /\ ~ In "rsi" (columns out)) /\
       (forall data,
          reply w self (after_rsi d)
            [("function", VStr "MACD"); ("symbol", symbol_of d);
             ("interval", VStr "daily"); ("series_type", VStr "close")]
          = Ok data ->
          dict_in "Technical Analysis: MACD" data = false ->
          macd_of d = empty_frame /\
          ~ In "macd" (columns out) /\ ~ In "macd_signal" (columns out)) /\
       (forall data,
          reply w self (after_macd d)
            [("function", VStr "SMA"); ("symbol", symbol_of d);
             ("interval", VStr "daily"); ("time_period", VInt 20);
             ("series_type", VStr "close")] = Ok data ->
          dict_in "Technical Analysis: SMA" data = false ->
          sma_of d = empty_frame /\ ~ In "sma_20" (columns out))).
Proof.
  assert (Hcall : forall get key params w self symbol tr data,
     In (get, key, params) optional_indicators ->
     reply w self tr (params symbol) = Ok data ->
     dict_in key data = false ->
     get w self symbol tr
     = (Ok empty_frame, tr ++ [request_of self (params symbol)])).
  { intros get key params w self symbol tr data Hin Hreply Habs.
    rewrite (optional_indicator_call w self symbol tr Hin), Hreply.
    cbn [rbind]. now rewrite indicator_frame_absent. }
  split; [exact Hcall|].
  intros w self tr out tr' Hrun.
  apply get_stock_data_table in Hrun
    as (d & Hf & _ & _ & _ & _ & Hc & _).
  exists d. split; [exact Hf|].
  destruct Hf as (_ & _ & Hrsi & Hmacd & Hsma).
  destruct (not_in_expected_columns (rsi_of d) (macd_of d) (sma_of d))
    as (Nrsi & Nmacd & Nsma).
  rewrite Hc. split; [|split]; intros data Hreply Habs.
  - assert (Hd : rsi_of d = empty_frame).
    { pose proof (Hcall _get_rsi "Technical Analysis: RSI"
        (fun symbol => [("function", VStr "RSI"); ("symbol", symbol);
                        ("interval", VStr "daily"); ("time_period", VInt 14);
                        ("series_type", VStr "close")])
        w self (symbol_of d) (after_price d) data
        (or_introl eq_refl) Hreply Habs) as Hget.
      rewrite Hget in Hrsi. now injection Hrsi. }
    split; [exact Hd|]. apply Nrsi. now rewrite Hd.
  - assert (Hd : macd_of d = empty_frame).
    { pose proof (Hcall _get_macd "Technical Analysis: MACD"
        (fun symbol => [("function", VStr "MACD"); ("symbol", symbol);
                        ("interval", VStr "daily");
                        ("series_type", VStr "close")])
        w self (symbol_of d) (after_rsi d) data
        (or_intror (or_introl eq_refl)) Hreply Habs) as Hget.
      rewrite Hget in Hmacd. now injection Hmacd. }
    split; [exact Hd|]. apply Nmacd. now rewrite Hd.
  - assert (Hd : sma_of d = empty_frame).
    { pose proof (Hcall _get_sma "Technical Analysis: SMA"
        (fun symbol => [("function", VStr "SMA"); ("symbol", symbol);
                        ("interval", VStr "daily"); ("time_period", VInt 20);
                        ("series_type", VStr "close")])
        w self (symbol_of d) (after_macd d) data
        (or_intror (or_intror (or_introl eq_refl))) Hreply Habs) as Hget.
      rewrite Hget in Hsma. now injection Hsma. }
    split; [exact Hd|]. apply Nsma. now rewrite Hd.
Qed.

(** C4, as amended: when the reply to the request of an optional indicator
    (RSI, MACD or SMA) has the payload key with no entry, the method returns
    the empty frame without raising, which is also what it returns for a
    reply without the key. *)
Theorem empty_payload_is_empty_series
    (get : World -> AlphaVantageDataFetcher -> pyval -> M DataFrame)
    (key : string) (params : pyval -> pydict) (w w' : World)
    (self : AlphaVantageDataFetcher) (symbol : pyval) (tr : trace)
    (data data' : response) :
  In (get, key, params) optional_indicators ->
  reply w self tr (params symbol) = Ok data ->
  dict_get key data = Some (JEntries []) ->
  reply w' self tr (params symbol) = Ok data' ->
  dict_in key data' = false ->
  get w self symbol tr
  = (Ok empty_frame, tr ++ [request_of self (params symbol)]) /\
  get w self symbol tr = get w' self symbol tr.
Proof.
  intros Hin Hreply Hnone Hreply' Habs.
  rewrite !(optional_indicator_call _ self symbol tr Hin), Hreply, Hreply'.
  cbn [rbind].
  now rewrite (indicator_frame_no_entries _ _ Hnone),
    (indicator_frame_absent _ _ Habs).
Qed.

(** C1, as amended: once the price download has succeeded, an exception
    raised while an optional indicator is downloaded or normalised (the
    request fails, or the payload cannot be converted) is raised by
    get_stock_data itself: no table is returned and the remaining indicators
    are not requested. *)
Theorem optional_failure_propagates (w : World)
    (self : AlphaVantageDataFetcher) (tr : trace) (symbol : pyval)
    (price : DataFrame) (tr1 : trace) :
  py_getitem (config self) "symbol" = Ok symbol ->
  _get_price_volume w self symbol (tr ++ [banner symbol]) = (Ok price, tr1) ->
  (forall get key params tr0 e,
     In (get, key, params) optional_indicators ->
     rbind (reply w self tr0 (params symbol)) (indicator_frame key) = Raise e ->
     get w self symbol tr0
     = (Raise e, tr0 ++ [request_of self (params symbol)])) /\
  (forall e tr2,
     _get_rsi w self symbol tr1 = (Raise e, tr2) ->
     get_stock_data w self tr = (Raise e, tr2)) /\
  (forall rsi tr2 e tr3,
     _get_rsi w self symbol tr1 = (Ok rsi, tr2) ->
     _get_macd w self symbol tr2 = (Raise e, tr3) ->
     get_stock_data w self tr = (Raise e, tr3)) /\
  (forall rsi tr2 macd tr3 e tr4,
     _get_rsi w self symbol tr1 = (Ok rsi, tr2) ->
     _get_macd w self symbol tr2 = (Ok macd, tr3) ->
     _get_sma w self symbol tr3 = (Raise e, tr4) ->
     get_stock_data w self tr = (Raise e, tr4)).
Proof.
  intros Hsym Hp. split.
  { intros get key params tr0 e Hin Hraise.
    now rewrite (optional_indicator_call w self symbol tr0 Hin), Hraise. }
  pose proof (_get_price_volume_ok _ _ _ _ Hp) as (Hc & Hwf & Hne & _).
  destruct (price_with_volatility Hc Hwf Hne)
    as (vol & price6 & Hvol & Hset & _).
  split; [|split].
  - intros e tr2 Hrsi.
    rewrite get_stock_data_eq, Hsym, Hp.
    rewrite Hvol. cbn [rbind]. rewrite Hset. now rewrite Hrsi.
  - intros rsi tr2 e tr3 Hrsi Hmacd.
    rewrite get_stock_data_eq, Hsym, Hp.
    rewrite Hvol. cbn [rbind]. rewrite Hset. now rewrite Hrsi, Hmacd.
  - intros rsi tr2 macd tr3 e tr4 Hrsi Hmacd Hsma.
    rewrite get_stock_data_eq, Hsym, Hp.
    rewrite Hvol. cbn [rbind]. rewrite Hset. now rewrite Hrsi, Hmacd, Hsma.
Qed.

(** C9, as amended: take a payload none of whose labels is read as NaT
    (the empty label, or one of pandas' NaT spellings; the model has no
    such date, so that these payloads are left out by hypothesis).  When
    its normalisation returns a frame, the frame has one row for each
    payload entry that carries at least one field (an entry without field
    has no row), every such label was parsed to a date, and the dates of the
    frame are these dates in ascending (non-decreasing) order, nothing being
    collapsed: two labels that parse to the same date give two rows with
    that date.  The dates are unique and strictly ascending exactly when
    the labels parse to pairwise different dates. *)
Theorem normalised_dates_ascending :
  (forall w self symbol tr price tr1 data p,
     reply w self tr [("function", VStr "TIME_SERIES_DAILY");
                      ("symbol", symbol); ("outputsize", VStr "compact")]
     = Ok data ->
     dict_get "Time Series (Daily)" data = Some (JEntries p) ->
     Forall (fun e => reads_as_NaT (fst e) = false) p ->
     _get_price_volume w self symbol tr = (Ok price, tr1) ->
     StronglySorted Z.le (index price) /\
     NoDup (from_dict_index p) /\
     (forall label,
        In label (from_dict_index p)
        <-> exists fields, In (label, fields) p /\ fields <> []) /\
     List.length (index price) = List.length (from_dict_index p) /\
     exists dates,
       Forall2 (fun l d => to_datetime l = Some d) (from_dict_index p) dates
       /\ Permutation dates (index price) /\
       (NoDup dates <-> StronglySorted Z.lt (index price))) /\
  (forall get key params w self symbol tr df tr' data p,
     In (get, key, params) optional_indicators ->
     reply w self tr (params symbol) = Ok data ->
     dict_get key data = Some (JEntries p) ->
     Forall (fun e => reads_as_NaT (fst e) = false) p ->
     get w self symbol tr = (Ok df, tr') ->
     StronglySorted Z.le (index df) /\
     NoDup (from_dict_index p) /\
     (forall label,
        In label (from_dict_index p)
        <-> exists fields, In (label, fields) p /\ fields <> []) /\
     List.length (index df) = List.length (from_dict_index p) /\
     exists dates,
       Forall2 (fun l d => to_datetime l = Some d) (from_dict_index p) dates
       /\ Permutation dates (index df) /\
       (NoDup dates <-> StronglySorted Z.lt (index df))).
Proof.
  assert (Hmain : forall (p : payload) (dates idx : list Timestamp),
    StronglySorted Z.le idx ->
    Forall2 (fun l d => to_datetime l = Some d) (from_dict_index p) dates ->
    Permutation dates idx ->
    StronglySorted Z.le idx /\
    NoDup (from_dict_index p) /\
    (forall label,
       In label (from_dict_index p)
       <-> exists fields, In (label, fields) p /\ fields <> []) /\
    List.length idx = List.length (from_dict_index p) /\
    exists dates',
      Forall2 (fun l d => to_datetime l = Some d) (from_dict_index p) dates'
      /\ Permutation dates' idx /\
      (NoDup dates' <-> StronglySorted Z.lt idx)).
  { intros p dates idx Hs Hd Hperm.
    split; [exact Hs|]. split; [apply unique_is_NoDup|].
    split; [apply from_dict_index_spec|]. split.
    - rewrite <- (Permutation_length Hperm).
      symmetry. exact (Forall2_length_eq Hd).
    - exists dates. split; [exact Hd|]. split; [exact Hperm|]. split.
      + intros Hnd. apply sorted_nodup_strict; [exact Hs|].
        eapply Permutation_NoDup; eassumption.
      + intros Hlt. apply strict_sorted_NoDup in Hlt.
        eapply Permutation_NoDup; [apply Permutation_sym|]; eassumption. }
  split.
  - intros w self symbol tr price tr1 data p Hreply Hkey _ Hp.
    apply _get_price_volume_ok in Hp
      as (_ & _ & _ & Hs & _ & data' & p' & dates & Hreq & Hget & Hd & Hperm).
    unfold reply in Hreply. cbn [app] in Hreply.
    rewrite Hreply in Hreq. injection Hreq as <-.
    rewrite Hkey in Hget. injection Hget as <-.
    eapply Hmain; eassumption.
  - intros get key params w self symbol tr df tr' data p Hin Hreply Hkey _
      Hget.
    rewrite (optional_indicator_call w self symbol tr Hin) in Hget.
    injection Hget as Hval _.
    rewrite Hreply in Hval. cbn [rbind] in Hval.
    apply indicator_frame_ok in Hval
      as (_ & Hs & [[Habs _]|(p' & dates & Hk & _ & Hd & Hperm)]).
    + unfold dict_in in Habs. rewrite Hkey in Habs. discriminate Habs.
    + rewrite Hkey in Hk. injection Hk as <-.
      eapply Hmain; eassumption.
Qed.

(** C10: two fetchers that differ only in their configuration, with the
    same symbol in both, issue the same requests and return the same result
    against the same provider; the RSI request carries time_period 14 and
    the SMA request time_period 20, both with series_type close, whatever
    the configuration says. *)
Theorem indicator_parameters_are_fixed :
  (forall w self1 self2 tr,
     py_getitem (config self1) "symbol" = py_getitem (config self2) "symbol" ->
     api_key self1 = api_key self2 ->
     base_url self1 = base_url self2 ->
     get_stock_data w self1 tr = get_stock_data w self2 tr) /\
  (forall w self symbol tr,
     snd (_get_rsi w self symbol tr)
     = tr ++ [HttpGet (base_url self)
                [("function", VStr "RSI"); ("symbol", symbol);
                 ("interval", VStr "daily"); ("time_period", VInt 14);
                 ("series_type", VStr "close");
                 ("apikey", VStr (api_key self))]]) /\
  (forall w self symbol tr,
     snd (_get_sma w self symbol tr)
     = tr ++ [HttpGet (base_url self)
                [("function", VStr "SMA"); ("symbol", symbol);
                 ("interval", VStr "daily"); ("time_period", VInt 20);
                 ("series_type", VStr "close");
                 ("apikey", VStr (api_key self))]]).
Proof.
  split; [|split].
  - intros w [c1 k1 u1] [c2 k2 u2] tr Hsym Hk Hu.
    cbn [config api_key base_url] in *. subst k2 u2.
    unfold get_stock_data, _get_price_volume, _get_rsi, _get_macd, _get_sma,
      _api_call, bind, lift, emit.
    cbn [config api_key base_url]. rewrite Hsym. reflexivity.
  - intros w self symbol tr. unfold _get_rsi. rewrite indicator_call.
    reflexivity.
  - intros w self symbol tr. unfold _get_sma. rewrite indicator_call.
    reflexivity.
Qed.

(** C8: without the API key in the environment (unset or empty), creating
    the fetcher raises, and so does the program, before any event: no
    request is sent, nothing is printed and no file is written.  The
    exception is the ValueError of the constructor, unless reading the
    configuration file has already failed. *)
Theorem missing_credential_is_fatal (w : World) (tr : trace) :
  not_ (getenv w "ALPHA_VANTAGE_API_KEY") = true ->
  exists e,
    __init__ w "config.yaml" tr = (Raise e, tr) /\
    main w tr = (Raise e, tr) /\
    (e = ValueError "Please set ALPHA_VANTAGE_API_KEY environment variable"
     \/ read_yaml w "config.yaml" = Raise e).
Proof.
  intros Hkey. unfold main, __init__, bind, lift, raise.
  destruct (read_yaml w "config.yaml") as [cfg|e] eqn:Hcfg.
  - rewrite Hkey. eexists. split; [reflexivity|]. split; [reflexivity|].
    now left.
  - exists e. split; [reflexivity|]. split; [reflexivity|]. now right.
Qed.
End Claims.

(* ================================================================= *)
(** * The program on concrete worlds *)

Example all_up_columns :
  columns (table_of all_up_run)
  = ["open"; "high"; "low"; "close"; "volume"; "volatility"; "rsi"; "macd";
     "macd_signal"; "sma_20"].
Proof. reflexivity. Qed.

Example all_up_dates :
  index (table_of all_up_run) = [19724; 19725; 19726]%Z.
Proof. reflexivity. Qed.

Example all_up_rsi :
  option_map (map snd)
    (match getitem (table_of all_up_run) "rsi" with
     | Ok s => Some s
     | Raise _ => None
     end)
  = Some [NaN; Fin (Q2Qc 51); Fin (Q2Qc 55.5)].
Proof. reflexivity. Qed.

Example only_prices_columns :
  columns (table_of only_prices_run)
  = ["open"; "high"; "low"; "close"; "volume"; "volatility"].
Proof. reflexivity. Qed.

Example malformed_rsi_aborts :
  fst (run (get_stock_data (H := reference_runtime) rsi_malformed
              sample_fetcher))
  = Raise (ValueError "could not convert string to float").
Proof. vm_compute. reflexivity. Qed.

(** The run in which every download succeeds. *)
Lemma all_up_run_eq :
  get_stock_data (H := reference_runtime) all_up sample_fetcher []
  = (Ok (table_of all_up_run), snd all_up_run).
Proof. vm_compute. reflexivity. Qed.

(** The run in which the provider answers every indicator with a notice. *)
Lemma only_prices_run_eq :
  get_stock_data (H := reference_runtime) only_prices sample_fetcher []
  = (Ok (table_of only_prices_run), snd only_prices_run).
Proof. vm_compute. reflexivity. Qed.

(** C3 on the run in which every download succeeds. *)
Lemma merged_rows_are_price_rows_witness :
  get_stock_data (H := reference_runtime) all_up sample_fetcher []
  = (Ok (table_of all_up_run), snd all_up_run) /\
  exists d,
    fetched (H := reference_runtime) all_up sample_fetcher [] d
      (snd all_up_run) /\
    index (table_of all_up_run) = index (price_of d) /\
    StronglySorted Z.le (index (table_of all_up_run)) /\
    (forall c, In c price_columns ->
               exists s, getitem (price_of d) c = Ok s /\
                         getitem (table_of all_up_run) c = Ok s) /\
    (empty (rsi_of d) = false ->
     joined_on_date (table_of all_up_run) "rsi" (rsi_of d) "RSI") /\
    (empty (macd_of d) = false ->
     joined_on_date (table_of all_up_run) "macd" (macd_of d) "MACD" /\
     joined_on_date (table_of all_up_run) "macd_signal" (macd_of d)
       "MACD_Signal") /\
    (empty (sma_of d) = false ->
     joined_on_date (table_of all_up_run) "sma_20" (sma_of d) "SMA").
Proof.
  split; [exact all_up_run_eq|].
  exact (@merged_rows_are_price_rows reference_runtime all_up sample_fetcher
           [] (table_of all_up_run) (snd all_up_run) all_up_run_eq).
Defined.

(** C7 on the run in which every download succeeds. *)
Lemma output_columns_in_order_witness :
  get_stock_data (H := reference_runtime) all_up sample_fetcher []
  = (Ok (table_of all_up_run), snd all_up_run) /\
  exists d,
    fetched (H := reference_runtime) all_up sample_fetcher [] d
      (snd all_up_run) /\
    columns (table_of all_up_run)
    = ["open"; "high"; "low"; "close"; "volume"; "volatility"]
        ++ (if empty (rsi_of d) then [] else ["rsi"])
        ++ (if empty (macd_of d) then [] else ["macd"; "macd_signal"])
        ++ (if empty (sma_of d) then [] else ["sma_20"]) /\
    exists vol,
      volatility (H := reference_runtime) (price_of d) = Ok vol /\
      getitem (table_of all_up_run) "volatility" = Ok vol.
Proof.
  split; [exact all_up_run_eq|].
  exact (@output_columns_in_order reference_runtime all_up sample_fetcher
           [] (table_of all_up_run) (snd all_up_run) all_up_run_eq).
Defined.

(** C5 on the run in which the RSI reply is a notice without the key. *)
Lemma missing_key_leaves_no_column_witness :
  get_stock_data (H := reference_runtime) only_prices sample_fetcher []
  = (Ok (table_of only_prices_run), snd only_prices_run) /\
  dict_in "Technical Analysis: RSI" notice_reply = false /\
  ~ In "rsi" (columns (table_of only_prices_run)) /\
  _get_rsi (H := reference_runtime) only_prices sample_fetcher (VStr "IBM") []
  = (Ok empty_frame,
     [request_of sample_fetcher
        [("function", VStr "RSI"); ("symbol", VStr "IBM");
         ("interval", VStr "daily"); ("time_period", VInt 14);
         ("series_type", VStr "close")]]).
Proof.
  split; [exact only_prices_run_eq|]. split; [reflexivity|].
  destruct (@missing_key_leaves_no_column reference_runtime) as [Hget Hrun].
  split.
  - destruct (Hrun only_prices sample_fetcher [] _ _ only_prices_run_eq)
      as (d & (Hsym & _) & Hrsi & _).
    injection Hsym as Hsym.
    refine (proj2 (Hrsi notice_reply _ eq_refl)).
    rewrite <- Hsym. reflexivity.
  - exact (Hget _get_rsi "Technical Analysis: RSI"
             (fun symbol => [("function", VStr "RSI"); ("symbol", symbol);
                             ("interval", VStr "daily");
                             ("time_period", VInt 14);
                             ("series_type", VStr "close")])
             only_prices sample_fetcher (VStr "IBM") [] notice_reply
             (or_introl eq_refl) eq_refl eq_refl).
Defined.

(** C4 fails for PRICE_VOLUME: the key is present with no entry, and the
    price download raises at the renaming of the columns. *)
Lemma empty_price_payload_raises :
  reply empty_prices sample_fetcher []
    [("function", VStr "TIME_SERIES_DAILY"); ("symbol", VStr "IBM");
     ("outputsize", VStr "compact")] = Ok empty_price_reply /\
  dict_get "Time Series (Daily)" empty_price_reply = Some (JEntries []) /\
  fst (run (_get_price_volume (H := reference_runtime) empty_prices
              sample_fetcher (VStr "IBM")))
  = Raise (ValueError "Length mismatch") /\
  fst (run (get_stock_data (H := reference_runtime) empty_prices
              sample_fetcher))
  = Raise (ValueError "Length mismatch").
Proof. repeat split; vm_compute; reflexivity. Qed.

(** C4, as amended, on an RSI reply with no entry and one without the key. *)
Lemma empty_payload_is_empty_series_witness :
  reply empty_rsi sample_fetcher []
    [("function", VStr "RSI"); ("symbol", VStr "IBM");
     ("interval", VStr "daily"); ("time_period", VInt 14);
     ("series_type", VStr "close")] = Ok empty_rsi_reply /\
  dict_get "Technical Analysis: RSI" empty_rsi_reply = Some (JEntries []) /\
  reply only_prices sample_fetcher []
    [("function", VStr "RSI"); ("symbol", VStr "IBM");
     ("interval", VStr "daily"); ("time_period", VInt 14);
     ("series_type", VStr "close")] = Ok notice_reply /\
  dict_in "Technical Analysis: RSI" notice_reply = false /\
  _get_rsi (H := reference_runtime) empty_rsi sample_fetcher (VStr "IBM") []
  = _get_rsi (H := reference_runtime) only_prices sample_fetcher
      (VStr "IBM") [].
Proof.
  repeat (split; [reflexivity|]).
  exact (proj2 (@empty_payload_is_empty_series reference_runtime
           _get_rsi "Technical Analysis: RSI"
           (fun symbol => [("function", VStr "RSI"); ("symbol", symbol);
                           ("interval", VStr "daily");
                           ("time_period", VInt 14);
                           ("series_type", VStr "close")])
           empty_rsi only_prices sample_fetcher (VStr "IBM") []
           empty_rsi_reply notice_reply
           (or_introl eq_refl) eq_refl eq_refl eq_refl eq_refl)).
Defined.

(** C1 fails: the price download succeeds, the MACD request fails at the
    transport level, and get_stock_data returns no table. *)
Lemma optional_failure_aborts_run :
  (exists price tr1,
     _get_price_volume (H := reference_runtime) macd_down sample_fetcher
       (VStr "IBM") [banner (VStr "IBM")] = (Ok price, tr1)) /\
  (forall tr,
     reply macd_down sample_fetcher tr
       [("function", VStr "MACD"); ("symbol", VStr "IBM");
        ("interval", VStr "daily"); ("series_type", VStr "close")]
     = Raise (RequestException "connection refused")) /\
  fst (run (get_stock_data (H := reference_runtime) macd_down
              sample_fetcher))
  = Raise (RequestException "connection refused") /\
  ~ (exists out tr',
       run (get_stock_data (H := reference_runtime) macd_down sample_fetcher)
       = (Ok out, tr')).
Proof.
  split; [eexists; eexists; vm_compute; reflexivity|].
  split; [intros tr; reflexivity|].
  split; [vm_compute; reflexivity|].
  intros (out & tr' & Hrun). vm_compute in Hrun. discriminate Hrun.
Qed.

(** C1, as amended, on the same run. *)
Lemma optional_failure_propagates_witness :
  py_getitem (config sample_fetcher) "symbol" = Ok (VStr "IBM") /\
  exists price tr1,
    _get_price_volume (H := reference_runtime) macd_down sample_fetcher
      (VStr "IBM") ([] ++ [banner (VStr "IBM")]) = (Ok price, tr1) /\
    exists rsi tr2,
      _get_rsi (H := reference_runtime) macd_down sample_fetcher
        (VStr "IBM") tr1 = (Ok rsi, tr2) /\
      exists tr3,
        _get_macd (H := reference_runtime) macd_down sample_fetcher
          (VStr "IBM") tr2
        = (Raise (RequestException "connection refused"), tr3) /\
        get_stock_data (H := reference_runtime) macd_down sample_fetcher []
        = (Raise (RequestException "connection refused"), tr3).
Proof.
  assert (Hsym : py_getitem (config sample_fetcher) "symbol"
                 = Ok (VStr "IBM")) by reflexivity.
  split; [exact Hsym|].
  destruct (_get_price_volume (H := reference_runtime) macd_down
              sample_fetcher (VStr "IBM") ([] ++ [banner (VStr "IBM")]))
    as [[price|e] tr1] eqn:Hp; [|vm_compute in Hp; discriminate Hp].
  exists price, tr1. split; [reflexivity|].
  destruct (_get_rsi (H := reference_runtime) macd_down sample_fetcher
              (VStr "IBM") tr1)
    as [[rsi|e] tr2] eqn:Hrsi; [|vm_compute in Hrsi; discriminate Hrsi].
  exists rsi, tr2. split; [reflexivity|].
  destruct (_get_macd (H := reference_runtime) macd_down sample_fetcher
              (VStr "IBM") tr2)
    as [[macd|e] tr3] eqn:Hmacd; [vm_compute in Hmacd; discriminate Hmacd|].
  assert (He : e = RequestException "connection refused")
    by (vm_compute in Hmacd; congruence).
  subst e. exists tr3. split; [reflexivity|].
  exact (proj1 (proj2 (proj2
           (@optional_failure_propagates reference_runtime macd_down
              sample_fetcher [] (VStr "IBM") price tr1 Hsym Hp)))
           rsi tr2 _ tr3 Hrsi Hmacd).
Defined.



(** C9 fails: a payload whose labels 2024-01-02 and 2024-1-2 are distinct
    keys normalises to a non-empty frame with the same date twice. *)
Lemma same_day_labels_give_duplicate_dates :
  exists df tr',
    run (_get_rsi (H := reference_runtime) same_day_rsi sample_fetcher
           (VStr "IBM")) = (Ok df, tr') /\
    empty df = false /\
    index df = [19724; 19724]%Z /\
    ~ NoDup (index df) /\
    ~ StronglySorted Z.lt (index df).
Proof.
  eexists. eexists. split; [vm_compute; reflexivity|].
  split; [reflexivity|]. split; [reflexivity|]. split.
  - cbn. intros Hnd. inversion Hnd as [|? ? Hnotin _]. apply Hnotin. now left.
  - cbn. intros Hs. inversion Hs as [|? ? _ Hall]. inversion Hall. lia.
Qed.

(** C9, as amended, on the RSI download of the run in which all succeed. *)
Lemma normalised_dates_ascending_witness :
  exists df tr',
    _get_rsi (H := reference_runtime) all_up sample_fetcher (VStr "IBM") []
    = (Ok df, tr') /\
    dict_get "Technical Analysis: RSI" rsi_reply
    = Some (JEntries rsi_payload) /\
    Forall (fun e => reads_as_NaT (fst e) = false) rsi_payload /\
    index df = [19725; 19726]%Z /\
    StronglySorted Z.le (index df) /\
    NoDup (from_dict_index rsi_payload) /\
    List.length (index df) = List.length (from_dict_index rsi_payload).
Proof.
  eexists. eexists.
  match goal with
  | |- ?P /\ _ => assert (Hget : P) by (vm_compute; reflexivity)
  end.
  assert (Hnat : Forall (fun e => reads_as_NaT (fst e) = false) rsi_payload)
    by (repeat constructor).
  split; [exact Hget|]. split; [reflexivity|]. split; [exact Hnat|].
  split; [reflexivity|].
  destruct (proj2 (@normalised_dates_ascending reference_runtime)
              _get_rsi "Technical Analysis: RSI"
              (fun symbol => [("function", VStr "RSI"); ("symbol", symbol);
                              ("interval", VStr "daily");
                              ("time_period", VInt 14);
                              ("series_type", VStr "close")])
              all_up sample_fetcher (VStr "IBM") [] _ _ rsi_reply rsi_payload
              (or_introl eq_refl) eq_refl eq_refl Hnat Hget)
    as (Hs & Hnd & _ & Hlen & _).
  auto.
Defined.

(** An entry without field has no row. *)
Example fieldless_entry_has_no_row :
  from_dict_index [("2024-01-04", [("RSI", "55.5")]); ("2024-01-03", [])]
  = ["2024-01-04"].
Proof. reflexivity. Qed.

(** C10 on two configurations with different indicator parameters. *)
Lemma indicator_parameters_are_fixed_witness :
  py_getitem (config sample_fetcher) "symbol"
  = py_getitem (config other_fetcher) "symbol" /\
  config sample_fetcher <> config other_fetcher /\
  get_stock_data (H := reference_runtime) all_up sample_fetcher []
  = get_stock_data (H := reference_runtime) all_up other_fetcher [].
Proof.
  split; [reflexivity|]. split; [discriminate|].
  exact (proj1 (@indicator_parameters_are_fixed reference_runtime)
           all_up sample_fetcher other_fetcher [] eq_refl eq_refl eq_refl).
Defined.

(** C8 in a world without the environment variable. *)
Lemma missing_credential_is_fatal_witness :
  not_ (getenv no_credential "ALPHA_VANTAGE_API_KEY") = true /\
  exists e,
    __init__ no_credential "config.yaml" [] = (Raise e, []) /\
    main (H := reference_runtime) no_credential [] = (Raise e, []) /\
    (e = ValueError "Please set ALPHA_VANTAGE_API_KEY environment variable"
     \/ read_yaml no_credential "config.yaml" = Raise e).
Proof.
  split; [reflexivity|].
  exact (@missing_credential_is_fatal reference_runtime no_credential []
           eq_refl).
Defined.

(* ================================================================= *)
(** * Further properties of the program *)

(** ** Dictionaries: storing a key and reading it back *)

Lemma dict_get_set_same {V} (k : string) (v : V) (d : list (string * V)) :
  dict_get k (dict_set k v d) = Some v.
Proof.
  induction d as [|[k' v'] d IH]; simpl.
  - now rewrite String.eqb_refl.
  - destruct (String.eqb k k') eqn:Hk; simpl.
    + now rewrite String.eqb_refl.
    + now rewrite Hk.
Qed.

Lemma dict_get_set_other {V} (k k0 : string) (v : V)
    (d : list (string * V)) :
  k0 <> k -> dict_get k0 (dict_set k v d) = dict_get k0 d.
Proof.
  intros Hne. induction d as [|[k' v'] d IH]; simpl.
  - destruct (String.eqb_spec k0 k); [contradiction|reflexivity].
  - destruct (String.eqb_spec k k') as [<-|Hk]; simpl.
    + destruct (String.eqb_spec k0 k); [contradiction|reflexivity].
    + destruct (String.eqb k0 k'); [reflexivity|exact IH].
Qed.

(** X1: _api_call sends exactly one request, to the base URL of the
    fetcher; the parameters sent carry the fetcher's key under apikey
    (replacing any value the caller put there), every other parameter is
    the caller's, and the result is the provider's answer to that request,
    exception included. *)
Theorem _api_call_sends_key (w : World) (self : AlphaVantageDataFetcher)
    (params : pydict) (tr : trace) :
  exists sent,
    _api_call w self params tr
    = (requests_get w tr (base_url self) sent,
       tr ++ [HttpGet (base_url self) sent]) /\
    dict_get "apikey" sent = Some (VStr (api_key self)) /\
    forall k, k <> "apikey" -> dict_get k sent = dict_get k params.
Proof.
  exists (dict_set "apikey" (VStr (api_key self)) params).
  split; [reflexivity|]. split.
  - apply dict_get_set_same.
  - intros k Hk. now apply dict_get_set_other.
Qed.

(* ================================================================= *)
(** ** The events of a run *)

Section RunEvents.
Context `{Runtime}.

Lemma _get_price_volume_trace (w : World) (self : AlphaVantageDataFetcher)
    (symbol : pyval) (tr : trace) :
  snd (_get_price_volume w self symbol tr)
  = tr ++ [request_of self [("function", VStr "TIME_SERIES_DAILY");
                            ("symbol", symbol);
                            ("outputsize", VStr "compact")]].
Proof.
  unfold _get_price_volume, bind, lift, _api_call, request_of.
  destruct (requests_get w tr _ _) as [data|e]; [|reflexivity].
  destruct (dict_getitem _ data) as [ts|e]; [|reflexivity].
  destruct (from_dict_json ts) as [d|e]; [|reflexivity].
  destruct (set_datetime_index d) as [d'|e]; [|reflexivity].
  destruct (set_columns _ _); reflexivity.
Qed.

Lemma _get_rsi_trace (w : World) (self : AlphaVantageDataFetcher)
    (symbol : pyval) (tr : trace) :
  snd (_get_rsi w self symbol tr)
  = tr ++ [request_of self [("function", VStr "RSI"); ("symbol", symbol);
                            ("interval", VStr "daily");
                            ("time_period", VInt 14);
                            ("series_type", VStr "close")]].
Proof. unfold _get_rsi. now rewrite indicator_call. Qed.

Lemma _get_macd_trace (w : World) (self : AlphaVantageDataFetcher)
    (symbol : pyval) (tr : trace) :
  snd (_get_macd w self symbol tr)
  = tr ++ [request_of self [("function", VStr "MACD"); ("symbol", symbol);
                            ("interval", VStr "daily");
                            ("series_type", VStr "close")]].
Proof. unfold _get_macd. now rewrite indicator_call. Qed.

Lemma _get_sma_trace (w : World) (self : AlphaVantageDataFetcher)
    (symbol : pyval) (tr : trace) :
  snd (_get_sma w self symbol tr)
  = tr ++ [request_of self [("function", VStr "SMA"); ("symbol", symbol);
                            ("interval", VStr "daily");
                            ("time_period", VInt 20);
                            ("series_type", VStr "close")]].
Proof. unfold _get_sma. now rewrite indicator_call. Qed.

(** The events of get_stock_data once the symbol is known. *)
Lemma get_stock_data_events (w : World) (self : AlphaVantageDataFetcher)
    (tr : trace) (symbol : pyval) :
  py_getitem (config self) "symbol" = Ok symbol ->
  exists n,
    (1 <= n <= 4)%nat /\
    snd (get_stock_data w self tr)
    = tr ++ banner symbol :: firstn n (run_requests self symbol) /\
    (forall out, fst (get_stock_data w self tr) = Ok out -> n = 4%nat).
Proof.
  intros Hsym. rewrite get_stock_data_eq, Hsym.
  pose proof (_get_price_volume_trace w self symbol (tr ++ [banner symbol]))
    as Tp.
  destruct (_get_price_volume w self symbol _) as [[price|e] tr1];
    cbn [snd] in Tp; subst tr1.
  2:{ exists 1%nat. split; [lia|]. cbn [snd fst firstn run_requests].
      rewrite <- app_assoc. split; [reflexivity|discriminate]. }
  destruct (rbind (volatility price) (setitem price "volatility"))
    as [price6|e].
  2:{ exists 1%nat. split; [lia|]. cbn [snd fst firstn run_requests].
      rewrite <- app_assoc. split; [reflexivity|discriminate]. }
  match goal with
  | |- context [_get_rsi w self symbol ?t] =>
      pose proof (_get_rsi_trace w self symbol t) as Tr;
      destruct (_get_rsi w self symbol t) as [[rsi|e] tr2]
  end; cbn [snd] in Tr; subst tr2.
  2:{ exists 2%nat. split; [lia|]. cbn [snd fst firstn run_requests].
      rewrite <- !app_assoc. split; [reflexivity|discriminate]. }
  match goal with
  | |- context [_get_macd w self symbol ?t] =>
      pose proof (_get_macd_trace w self symbol t) as Tm;
      destruct (_get_macd w self symbol t) as [[macd|e] tr3]
  end; cbn [snd] in Tm; subst tr3.
  2:{ exists 3%nat. split; [lia|]. cbn [snd fst firstn run_requests].
      rewrite <- !app_assoc. split; [reflexivity|discriminate]. }
  match goal with
  | |- context [_get_sma w self symbol ?t] =>
      pose proof (_get_sma_trace w self symbol t) as Ts;
      destruct (_get_sma w self symbol t) as [[sma|e] tr4]
  end; cbn [snd] in Ts; subst tr4;
    (exists 4%nat; split; [lia|]; cbn [snd fst firstn run_requests];
     rewrite <- !app_assoc; split; [reflexivity|auto]).
Qed.

(** The download that sent request k, read in the trace in which it ran. *)
Ltac at_request Hs Hget He0 :=
  cbn [firstn run_requests] in He0; rewrite Hs, Hget in He0.

(** Where get_stock_data stops: the download that sent the last request
    is the first one that raised, unless all four were sent. *)
Lemma get_stock_data_stops (w : World) (self : AlphaVantageDataFetcher)
    (tr : trace) (symbol : pyval) :
  py_getitem (config self) "symbol" = Ok symbol ->
  exists n,
    (1 <= n <= 4)%nat /\
    snd (get_stock_data w self tr)
    = tr ++ banner symbol :: firstn n (run_requests self symbol) /\
    (forall out, fst (get_stock_data w self tr) = Ok out -> n = 4%nat) /\
    (forall k get e,
       nth_error downloads k = Some get -> (k < n)%nat ->
       fst (get w self symbol
              (tr ++ banner symbol :: firstn k (run_requests self symbol)))
       = Raise e ->
       n = S k /\ fst (get_stock_data w self tr) = Raise e) /\
    ((n < 4)%nat ->
     exists get e,
       nth_error downloads (n - 1) = Some get /\
       fst (get w self symbol
              (tr ++ banner symbol
                  :: firstn (n - 1) (run_requests self symbol)))
       = Raise e /\
       fst (get_stock_data w self tr) = Raise e).
Proof.
  intros Hsym. rewrite get_stock_data_eq, Hsym.
  assert (Hs1 : tr ++ banner symbol :: firstn 1 (run_requests self symbol)
                = (tr ++ [banner symbol])
                    ++ firstn 1 (run_requests self symbol))
    by now rewrite <- app_assoc.
  assert (Hs2 : tr ++ banner symbol :: firstn 2 (run_requests self symbol)
                = ((tr ++ [banner symbol])
                     ++ firstn 1 (run_requests self symbol))
                    ++ firstn 1 (skipn 1 (run_requests self symbol)))
    by now rewrite <- !app_assoc.
  assert (Hs3 : tr ++ banner symbol :: firstn 3 (run_requests self symbol)
                = (((tr ++ [banner symbol])
                      ++ firstn 1 (run_requests self symbol))
                     ++ firstn 1 (skipn 1 (run_requests self symbol)))
                    ++ firstn 1 (skipn 2 (run_requests self symbol)))
    by now rewrite <- !app_assoc.
  assert (Hs4 : tr ++ banner symbol :: firstn 4 (run_requests self symbol)
                = ((((tr ++ [banner symbol])
                       ++ firstn 1 (run_requests self symbol))
                      ++ firstn 1 (skipn 1 (run_requests self symbol)))
                     ++ firstn 1 (skipn 2 (run_requests self symbol)))
                    ++ firstn 1 (skipn 3 (run_requests self symbol)))
    by now rewrite <- !app_assoc.
  cbn [firstn skipn run_requests] in Hs1, Hs2, Hs3, Hs4.
  pose proof (_get_price_volume_trace w self symbol (tr ++ [banner symbol]))
    as Tp.
  destruct (_get_price_volume w self symbol (tr ++ [banner symbol]))
    as [[price|e] tr1] eqn:Hp; cbn [snd] in Tp; subst tr1.
  2:{ exists 1%nat. split; [lia|]. cbn [snd fst].
      split; [cbn [firstn run_requests]; now rewrite Hs1|].
      split; [discriminate|]. split.
      - intros k get e0 Hk Hlt He0.
        destruct k as [|k]; [|lia]. injection Hk as <-.
        cbn [firstn] in He0. rewrite Hp in He0. now injection He0 as <-.
      - intros _. exists _get_price_volume, e.
        split; [reflexivity|]. cbn [Nat.sub firstn]. now rewrite Hp. }
  destruct (_get_price_volume_ok _ _ _ _ Hp) as (Hc & Hwf & Hne & _).
  destruct (price_with_volatility Hc Hwf Hne)
    as (vol & price6 & Hvol & Hset & _).
  rewrite Hvol. cbn [rbind]. rewrite Hset.
  match goal with
  | |- context [_get_rsi w self symbol ?t] =>
      pose proof (_get_rsi_trace w self symbol t) as Tr;
      destruct (_get_rsi w self symbol t) as [[rsi|e] tr2] eqn:Hr
  end; cbn [snd] in Tr; subst tr2.
  2:{ exists 2%nat. split; [lia|]. cbn [snd fst].
      split; [cbn [firstn run_requests]; now rewrite Hs2|].
      split; [discriminate|]. split.
      - intros k get e0 Hk Hlt He0.
        destruct k as [|[|k]]; [| |lia]; injection Hk as <-.
        + cbn [firstn] in He0. rewrite Hp in He0. discriminate He0.
        + at_request Hs1 Hr He0. now injection He0 as <-.
      - intros _. exists _get_rsi, e.
        split; [reflexivity|]. cbn [Nat.sub firstn run_requests].
        now rewrite Hs1, Hr. }
  match goal with
  | |- context [_get_macd w self symbol ?t] =>
      pose proof (_get_macd_trace w self symbol t) as Tm;
      destruct (_get_macd w self symbol t) as [[macd|e] tr3] eqn:Hm
  end; cbn [snd] in Tm; subst tr3.
  2:{ exists 3%nat. split; [lia|]. cbn [snd fst].
      split; [cbn [firstn run_requests]; now rewrite Hs3|].
      split; [discriminate|]. split.
      - intros k get e0 Hk Hlt He0.
        destruct k as [|[|[|k]]]; [| | |lia]; injection Hk as <-.
        + cbn [firstn] in He0. rewrite Hp in He0. discriminate He0.
        + at_request Hs1 Hr He0. discriminate He0.
        + at_request Hs2 Hm He0. now injection He0 as <-.
      - intros _. exists _get_macd, e.
        split; [reflexivity|]. cbn [Nat.sub firstn run_requests].
        now rewrite Hs2, Hm. }
  match goal with
  | |- context [_get_sma w self symbol ?t] =>
      pose proof (_get_sma_trace w self symbol t) as Ts;
      destruct (_get_sma w self symbol t) as [[sma|e] tr4] eqn:Hsma
  end; cbn [snd] in Ts; subst tr4.
  - exists 4%nat. split; [lia|]. cbn [snd fst].
    split; [cbn [firstn run_requests]; now rewrite Hs4|].
    split; [reflexivity|]. split; [|lia].
    intros k get e0 Hk Hlt He0.
    destruct k as [|[|[|[|k]]]]; [| | | |lia]; injection Hk as <-.
    + cbn [firstn] in He0. rewrite Hp in He0. discriminate He0.
    + at_request Hs1 Hr He0. discriminate He0.
    + at_request Hs2 Hm He0. discriminate He0.
    + at_request Hs3 Hsma He0. discriminate He0.
  - exists 4%nat. split; [lia|]. cbn [snd fst].
    split; [cbn [firstn run_requests]; now rewrite Hs4|].
    split; [reflexivity|]. split; [|lia].
    intros k get e0 Hk Hlt He0.
    destruct k as [|[|[|[|k]]]]; [| | | |lia]; injection Hk as <-.
    + cbn [firstn] in He0. rewrite Hp in He0. discriminate He0.
    + at_request Hs1 Hr He0. discriminate He0.
    + at_request Hs2 Hm He0. discriminate He0.
    + at_request Hs3 Hsma He0. now injection He0 as <-.
Qed.

(** X2: get_stock_data prints its banner and then sends the price, RSI,
    MACD and SMA requests in that order, each at most once and each to the
    fetcher's URL with the fetcher's key, and it stops at the first download
    that raises: with n the number of requests sent, every download that
    sent one of them and raised is the last one (n is its rank) and its
    exception is the one get_stock_data raises; a run that sent fewer than
    four requests stopped because the download of its last request raised;
    a run that returns a table has sent all four.  When the configuration
    has no symbol it raises before any event. *)
Theorem get_stock_data_requests_in_order (w : World)
    (self : AlphaVantageDataFetcher) (tr : trace) (r : result DataFrame)
    (tr' : trace) :
  get_stock_data w self tr = (r, tr') ->
  (exists e, py_getitem (config self) "symbol" = Raise e /\
             r = Raise e /\ tr' = tr) \/
  (exists symbol n,
     py_getitem (config self) "symbol" = Ok symbol /\
     (1 <= n <= 4)%nat /\
     tr' = tr ++ banner symbol :: firstn n (run_requests self symbol) /\
     (forall out, r = Ok out -> n = 4%nat) /\
     (forall k get e,
        nth_error downloads k = Some get -> (k < n)%nat ->
        fst (get w self symbol
               (tr ++ banner symbol :: firstn k (run_requests self symbol)))
        = Raise e ->
        n = S k /\ r = Raise e) /\
     ((n < 4)%nat ->
      exists get e,
        nth_error downloads (n - 1) = Some get /\
        fst (get w self symbol
               (tr ++ banner symbol
                   :: firstn (n - 1) (run_requests self symbol)))
        = Raise e /\
        r = Raise e)).
Proof.
  intros Hrun.
  destruct (py_getitem (config self) "symbol") as [symbol|e] eqn:Hsym.
  - right. destruct (get_stock_data_stops w self tr Hsym)
      as (n & Hn & Htr & Hok & Hstop & Hlast).
    rewrite Hrun in Htr, Hok, Hstop, Hlast. exists symbol, n. auto 7.
  - left. exists e. rewrite get_stock_data_eq, Hsym in Hrun.
    injection Hrun as <- <-. auto.
Qed.
End RunEvents.


Lemma http_requests_app (tr1 tr2 : trace) :
  http_requests (tr1 ++ tr2) = http_requests tr1 ++ http_requests tr2.
Proof. apply flat_map_app. Qed.

(** What a fetcher returned by the constructor is made of. *)
Lemma __init___ok (w : World) (path : string) (tr : trace)
    (f : AlphaVantageDataFetcher) (tr' : trace) :
  __init__ w path tr = (Ok f, tr') ->
  tr' = tr /\
  exists cfg k,
    read_yaml w path = Ok cfg /\
    getenv w "ALPHA_VANTAGE_API_KEY" = Some k /\ k <> "" /\
    f = {| config := cfg; api_key := k;
           base_url := "https://www.alphavantage.co/query" |}.
Proof.
  unfold __init__, bind, lift, raise, ret.
  destruct (read_yaml w path) as [cfg|e]; [|discriminate].
  destruct (getenv w "ALPHA_VANTAGE_API_KEY") as [k|]; cbn [not_];
    [|discriminate].
  destruct (String.eqb_spec k "") as [->|Hk]; [discriminate|].
  intros [= <- <-]. split; [reflexivity|]. exists cfg, k. auto.
Qed.

Section WholeRun.
Context `{Runtime}.

(** X3: the price download is mandatory: whatever it raises is raised by
    get_stock_data after that single request, and no indicator is
    requested.  In particular a price reply without the key
    "Time Series (Daily)", such as a provider notice, is a KeyError. *)
Theorem price_failure_is_fatal (w : World) (self : AlphaVantageDataFetcher)
    (tr : trace) (symbol : pyval) :
  py_getitem (config self) "symbol" = Ok symbol ->
  (forall e tr1,
     _get_price_volume w self symbol (tr ++ [banner symbol])
     = (Raise e, tr1) ->
     get_stock_data w self tr
     = (Raise e, tr ++ banner symbol :: firstn 1 (run_requests self symbol)))
  /\
  (forall data,
     reply w self (tr ++ [banner symbol])
       [("function", VStr "TIME_SERIES_DAILY"); ("symbol", symbol);
        ("outputsize", VStr "compact")] = Ok data ->
     dict_get "Time Series (Daily)" data = None ->
     get_stock_data w self tr
     = (Raise (KeyError "Time Series (Daily)"),
        tr ++ banner symbol :: firstn 1 (run_requests self symbol))).
Proof.
  intros Hsym.
  assert (Hfatal : forall e tr1,
     _get_price_volume w self symbol (tr ++ [banner symbol])
     = (Raise e, tr1) ->
     get_stock_data w self tr
     = (Raise e, tr ++ banner symbol :: firstn 1 (run_requests self symbol))).
  { intros e tr1 Hp.
    pose proof (_get_price_volume_trace w self symbol (tr ++ [banner symbol]))
      as Tp.
    rewrite Hp in Tp. cbn [snd] in Tp. subst tr1.
    rewrite get_stock_data_eq, Hsym, Hp. cbn [firstn run_requests].
    now rewrite <- app_assoc. }
  split; [exact Hfatal|].
  intros data Hreply Hnone.
  apply (Hfatal _ (snd (_get_price_volume w self symbol
                          (tr ++ [banner symbol])))).
  unfold _get_price_volume, bind, lift, _api_call, reply in *.
  cbn [dict_set String.eqb Ascii.eqb Bool.eqb app] in *.
  rewrite Hreply. unfold dict_getitem. rewrite Hnone. reflexivity.
Qed.




(** X5: whatever main does, it sends at most four requests, every one of
    them to https://www.alphavantage.co/query and with the non-empty value
    of ALPHA_VANTAGE_API_KEY as its apikey parameter. *)
Theorem main_requests_carry_the_key (w : World) (tr : trace)
    (r : result unit) (tr' : trace) :
  main w tr = (r, tr') ->
  exists evs,
    tr' = tr ++ evs /\
    (List.length (http_requests evs) <= 4)%nat /\
    forall url params,
      In (url, params) (http_requests evs) ->
      url = "https://www.alphavantage.co/query" /\
      exists k,
        getenv w "ALPHA_VANTAGE_API_KEY" = Some k /\ k <> "" /\
        dict_get "apikey" params = Some (VStr k).
Proof.
  unfold main, bind.
  destruct (__init__ w "config.yaml" tr) as [[f|e] tr0] eqn:Hinit.
  2:{ intros [= <- <-]. exists [].
      assert (tr0 = tr).
      { unfold __init__, bind, lift, raise, ret in Hinit.
        destruct (read_yaml w "config.yaml");
          [destruct (not_ _)|]; now injection Hinit. }
      subst tr0. rewrite app_nil_r. split; [reflexivity|].
      split; [simpl; lia|]. intros url params []. }
  apply __init___ok in Hinit as (-> & cfg & k & _ & Hk & Hne & ->).
  set (f := {| config := cfg; api_key := k;
               base_url := "https://www.alphavantage.co/query" |}).
  destruct (get_stock_data w f tr) as [[data|e] tr1] eqn:Hrun.
  - destruct (py_getitem (config f) "symbol") as [symbol|e] eqn:Hsym.
    2:{ rewrite get_stock_data_eq, Hsym in Hrun. discriminate Hrun. }
    destruct (get_stock_data_events w f tr Hsym) as (n & Hn & Htr & H4).
    rewrite Hrun in Htr, H4. cbn [snd fst] in Htr, H4.
    specialize (H4 data eq_refl). subst n tr1.
    unfold emit, lift, write_csv.
    match goal with
    | |- context [to_csv w ?t ?n data] => destruct (to_csv w t n data)
    end; intros [= <- <-].
    + exists (banner symbol :: firstn 4 (run_requests f symbol)
              ++ report symbol data).
      split; [rewrite <- !app_assoc; reflexivity|].
      split; [simpl; lia|].
      cbn. intros url params Hin.
      repeat (destruct Hin as [[= <- <-]|Hin];
              [split; [reflexivity|exists k; auto]|]).
      destruct Hin.
    + exists (banner symbol :: firstn 4 (run_requests f symbol)
              ++ summary data).
      split; [rewrite <- !app_assoc; reflexivity|].
      split; [simpl; lia|].
      cbn. intros url params Hin.
      repeat (destruct Hin as [[= <- <-]|Hin];
              [split; [reflexivity|exists k; auto]|]).
      destruct Hin.
  - intros [= <- <-].
    destruct (py_getitem (config f) "symbol") as [symbol|e'] eqn:Hsym.
    + destruct (get_stock_data_events w f tr Hsym) as (n & Hn & Htr & _).
      rewrite Hrun in Htr. cbn [snd] in Htr. subst tr1.
      exists (banner symbol :: firstn n (run_requests f symbol)).
      split; [reflexivity|].
      destruct n as [|[|[|[|[|n]]]]]; try lia;
        (split; [simpl; lia|]); cbn; intros url params Hin;
        repeat (destruct Hin as [[= <- <-]|Hin];
                [split; [reflexivity|exists k; auto]|]);
        destruct Hin.
    + rewrite get_stock_data_eq, Hsym in Hrun. injection Hrun as _ <-.
      exists []. rewrite app_nil_r. split; [reflexivity|].
      split; [simpl; lia|]. intros url params [].
Qed.
End WholeRun.

(* ================================================================= *)
(** ** Normalisation, entry by entry *)

Lemma rmap_raise_inv {A B} (f : A -> result B) (l : list A) (e : exn) :
  rmap f l = Raise e -> exists x, In x l /\ f x = Raise e.
Proof.
  induction l as [|x l IH]; simpl; [discriminate|].
  destruct (f x) as [y|e'] eqn:Hx; cbn [rbind].
  - destruct (rmap f l) as [ys|e'']; cbn [rbind]; [discriminate|].
    intros [= ->]. destruct (IH eq_refl) as (x' & Hin & Hx').
    exists x'. auto.
  - intros [= ->]. exists x. auto.
Qed.

Lemma rmap_raises {A B} (f : A -> result B) (l : list A) (x : A)
    (e : exn) :
  In x l -> f x = Raise e -> exists e', rmap f l = Raise e'.
Proof.
  induction l as [|y l IH]; simpl; [contradiction|].
  intros Hin Hx. destruct (f y) as [z|e'] eqn:Hy; cbn [rbind]; [|eauto].
  destruct Hin as [->|Hin]; [congruence|].
  destruct (IH Hin Hx) as [e' He']. rewrite He'. cbn [rbind]. eauto.
Qed.

Lemma Forall2_In_r {A B} (R : A -> B -> Prop) (l : list A) (l' : list B)
    (y : B) :
  Forall2 R l l' -> In y l' -> exists x, In x l /\ R x y.
Proof.
  induction 1 as [|a b l l' Hab Hl IH]; simpl; [contradiction|].
  intros [<-|Hin].
  - exists a. auto.
  - destruct (IH Hin) as (x & Hx & Hr). exists x. auto.
Qed.

Lemma dict_get_In {V} (k : string) (d : list (string * V)) (v : V) :
  dict_get k d = Some v -> In (k, v) d.
Proof.
  induction d as [|[k' v'] d IH]; simpl; [discriminate|].
  destruct (String.eqb_spec k k') as [->|Hne].
  - intros [= ->]. now left.
  - intros Hg. right. auto.
Qed.

Lemma dict_get_keys {V} (k : string) (d : list (string * V)) (v : V) :
  dict_get k d = Some v -> In k (map fst d).
Proof.
  intros Hg. apply dict_get_In in Hg.
  change k with (fst (k, v)). now apply in_map.
Qed.

Lemma from_dict_index_keys (p : payload) (label : string) :
  In label (from_dict_index p) -> exists fields, dict_get label p = Some fields.
Proof.
  unfold from_dict_index. intros Hin.
  apply In_unique, in_flat_map in Hin as (c & _ & Hin).
  apply in_map_iff in Hin as (e & <- & He).
  apply filter_In in He as [He _].
  apply dict_in_get, dict_in_keys. now apply in_map.
Qed.

Section Entries.
Context `{Runtime}.

Lemma from_dict_rows (p : payload) (d : Frame string) :
  from_dict p = Ok d ->
  Forall2 (fun label r => from_dict_row p (from_dict_columns p) label = Ok r)
          (from_dict_index p) (rows d).
Proof.
  unfold from_dict.
  destruct (rmap _ (from_dict_index p)) as [rs|e] eqn:Hrows; [|discriminate].
  cbn [rbind]. intros [= <-]. now apply rmap_Forall2.
Qed.

Lemma set_datetime_rows (d : Frame string) (d' : DataFrame) :
  set_datetime_index d = Ok d' ->
  Forall2 (fun r r' => to_datetime (fst r) = Some (fst r') /\ snd r' = snd r)
          (rows d) (rows d').
Proof.
  unfold set_datetime_index.
  destruct (rmap _ (rows d)) as [rs|e] eqn:Hrows; [|discriminate].
  cbn [rbind]. intros [= <-]. apply rmap_Forall2 in Hrows. cbn [rows].
  induction Hrows as [|r r' rs rs' Hr Hrs IH]; constructor; auto.
  unfold to_datetime_label in Hr.
  destruct (to_datetime (fst r)); [|discriminate].
  injection Hr as <-. auto.
Qed.

(** Every row of a normalised frame is one entry of the payload: its date
    is the parsed label and its cells are the fields of the entry taken in
    the order in which the field names first appear in the payload. *)
Lemma normalised_rows (p : payload) (d : Frame string) (d' : DataFrame)
    (t : Timestamp) (cells : list float64) :
  from_dict p = Ok d -> set_datetime_index d = Ok d' ->
  In (t, cells) (rows (sort_index d')) ->
  exists label fields,
    In label (from_dict_index p) /\
    dict_get label p = Some fields /\
    to_datetime label = Some t /\
    Forall2 (fun c v => from_dict_cell fields c = Ok v)
            (from_dict_columns p) cells.
Proof.
  intros Hd Hd' Hin.
  eapply Permutation_in in Hin;
    [|apply Permutation_sym, sort_index_perm].
  pose proof (set_datetime_rows _ Hd') as Rows'.
  destruct (@Forall2_In_r _ _ _ _ _ _ Rows' Hin)
    as ([label0 cells0] & Hin0 & Ht & Hc).
  cbn [fst snd] in Ht, Hc. subst cells0.
  pose proof (from_dict_rows _ Hd) as Rows.
  destruct (@Forall2_In_r _ _ _ _ _ _ Rows Hin0) as (label & Hl & Hrow).
  unfold from_dict_row in Hrow.
  destruct (rmap _ (from_dict_columns p)) as [cs|e] eqn:Hcells;
    [|discriminate].
  cbn [rbind] in Hrow. injection Hrow as <- <-.
  destruct (from_dict_index_keys _ _ Hl) as [fields Hf].
  rewrite Hf in Hcells.
  exists label, fields. repeat split; auto.
  now apply rmap_Forall2.
Qed.

(** X6: the five price columns are named by position: a successful price
    download means the payload has exactly five field names, and in every
    row the cells under open, high, low, close, volume are the floats of the
    1st to 5th field name in order of first appearance in the payload (NaN
    where the entry lacks that field), whatever those fields are called. *)
Theorem price_columns_are_positional (w : World)
    (self : AlphaVantageDataFetcher) (symbol : pyval) (tr : trace)
    (price : DataFrame) (tr1 : trace) :
  _get_price_volume w self symbol tr = (Ok price, tr1) ->
  exists data p,
    reply w self tr [("function", VStr "TIME_SERIES_DAILY");
                     ("symbol", symbol); ("outputsize", VStr "compact")]
    = Ok data /\
    dict_get "Time Series (Daily)" data = Some (JEntries p) /\
    List.length (from_dict_columns p) = 5%nat /\
    columns price = ["open"; "high"; "low"; "close"; "volume"] /\
    forall t cells,
      In (t, cells) (rows price) ->
      exists label fields,
        dict_get label p = Some fields /\
        to_datetime label = Some t /\
        Forall2 (fun c v => from_dict_cell fields c = Ok v)
                (from_dict_columns p) cells.
Proof.
  unfold _get_price_volume, bind, lift, _api_call, reply.
  cbn [dict_set String.eqb Ascii.eqb Bool.eqb app].
  destruct (requests_get w tr _ _) as [data|e] eqn:Hreq; [|discriminate].
  unfold dict_getitem.
  destruct (dict_get "Time Series (Daily)" data) as [[s|p]|] eqn:Hts;
    [destruct s; discriminate| |discriminate].
  cbn [from_dict_json].
  destruct (from_dict p) as [d|e] eqn:Hd; [|discriminate].
  destruct (set_datetime_index d) as [d'|e] eqn:Hd'; [|discriminate].
  destruct (set_columns (sort_index d') _) as [df|e] eqn:Hcols;
    [|discriminate].
  intros [= <- <-].
  apply set_columns_ok in Hcols as (Hc & Hr & Hn).
  exists data, p. split; [reflexivity|]. split; [exact Hts|].
  split.
  { rewrite sort_index_columns in Hn.
    pose proof Hd' as Hd'2. apply set_datetime_index_ok in Hd'2 as (Hc' & _).
    pose proof Hd as Hd2. apply from_dict_ok in Hd2 as (Hc0 & _).
    rewrite <- Hc0, <- Hc'. exact Hn. }
  split; [exact Hc|].
  intros t cells Hin. rewrite Hr in Hin.
  destruct (@normalised_rows p d d' t cells Hd Hd' Hin)
    as (label & fields & _ & Hf & Ht & Hcells).
  exists label, fields. auto.
Qed.

Lemma from_dict_raise (p : payload) (e : exn) :
  from_dict p = Raise e ->
  e = ValueError "could not convert string to float".
Proof.
  unfold from_dict.
  destruct (rmap _ (from_dict_index p)) as [rs|e'] eqn:Hrows; [discriminate|].
  cbn [rbind]. intros [= ->].
  apply rmap_raise_inv in Hrows as (label & _ & Hrow).
  unfold from_dict_row in Hrow.
  destruct (rmap _ (from_dict_columns p)) as [cs|e'] eqn:Hcells;
    [discriminate|].
  cbn [rbind] in Hrow. injection Hrow as ->.
  apply rmap_raise_inv in Hcells as (c & _ & Hc).
  unfold from_dict_cell in Hc.
  destruct (dict_get c _) as [s|]; [|discriminate].
  destruct (float_of_str s); [discriminate|]. now injection Hc.
Qed.

Lemma set_datetime_index_raise (d : Frame string) (e : exn) :
  set_datetime_index d = Raise e ->
  e = ValueError "unable to parse date string".
Proof.
  unfold set_datetime_index.
  destruct (rmap _ (rows d)) as [rs|e'] eqn:Hrows; [discriminate|].
  cbn [rbind]. intros [= ->].
  apply rmap_raise_inv in Hrows as (r & _ & Hr).
  unfold to_datetime_label in Hr.
  destruct (to_datetime (fst r)); [discriminate|]. now injection Hr.
Qed.

(** A payload with a text that is not a float, or a label that is not a
    date, has no normalised frame. *)
Lemma malformed_payload_raises (p : payload) (label : string)
    (fields : list (string * string)) :
  In label (from_dict_index p) ->
  dict_get label p = Some fields ->
  (exists c s, dict_get c fields = Some s /\ float_of_str s = None)
  \/ to_datetime label = None ->
  exists msg,
    rbind (from_dict p) (fun d =>
    rbind (set_datetime_index d) (fun d => Ok (sort_index d)))
    = Raise (ValueError msg).
Proof.
  intros Hl Hf Hbad.
  destruct (from_dict p) as [d|e] eqn:Hd; cbn [rbind].
  2:{ apply from_dict_raise in Hd. subst e. eauto. }
  destruct (set_datetime_index d) as [d'|e] eqn:Hd'; cbn [rbind].
  2:{ apply set_datetime_index_raise in Hd'. subst e. eauto. }
  exfalso. destruct Hbad as [(c & s & Hc & Hs)|Ht].
  - pose proof (from_dict_rows _ Hd) as Hrows.
    assert (Hrow : exists r, from_dict_row p (from_dict_columns p) label
                             = Ok r).
    { clear - Hrows Hl. induction Hrows as [|l r ls rs Hr Hrs IH];
        [contradiction|].
      destruct Hl as [<-|Hl]; eauto. }
    destruct Hrow as [r Hrow]. unfold from_dict_row in Hrow.
    rewrite Hf in Hrow.
    destruct (rmap (from_dict_cell fields) (from_dict_columns p))
      as [cs|e] eqn:Hcells; [|discriminate].
    assert (Hcol : In c (from_dict_columns p)).
    { unfold from_dict_columns. apply In_unique, in_flat_map.
      exists (label, fields). split; [now apply dict_get_In|].
      cbn [snd]. eapply dict_get_keys; eassumption. }
    assert (Hcell : from_dict_cell fields c
                    = Raise (ValueError "could not convert string to float")).
    { unfold from_dict_cell. now rewrite Hc, Hs. }
    destruct (@rmap_raises _ _ _ _ _ _ Hcol Hcell) as [e' He']. congruence.
  - pose proof Hd as Hd2. apply from_dict_ok in Hd2 as (_ & Hi & _).
    rewrite <- Hi in Hl. unfold index in Hl.
    apply in_map_iff in Hl as (r & Hr & Hin).
    assert (Hraise : to_datetime_label r
                     = Raise (ValueError "unable to parse date string")).
    { unfold to_datetime_label. now rewrite Hr, Ht. }
    unfold set_datetime_index in Hd'.
    destruct (@rmap_raises _ _ _ _ _ _ Hin Hraise) as [e' He'].
    rewrite He' in Hd'. discriminate Hd'.
Qed.

(** X7: the conversion of an indicator payload is all or nothing: when one
    text of an entry is not a float, or one date label cannot be parsed, the
    method raises ValueError after its request and returns no frame, however
    many other entries are well formed. *)
Theorem malformed_indicator_raises
    (get : World -> AlphaVantageDataFetcher -> pyval -> M DataFrame)
    (key : string) (params : pyval -> pydict) (w : World)
    (self : AlphaVantageDataFetcher) (symbol : pyval) (tr : trace)
    (data : response) (p : payload) (label : string)
    (fields : list (string * string)) :
  In (get, key, params) optional_indicators ->
  reply w self tr (params symbol) = Ok data ->
  dict_get key data = Some (JEntries p) ->
  In label (from_dict_index p) ->
  dict_get label p = Some fields ->
  (exists c s, dict_get c fields = Some s /\ float_of_str s = None)
  \/ to_datetime label = None ->
  exists msg,
    get w self symbol tr
    = (Raise (ValueError msg), tr ++ [request_of self (params symbol)]).
Proof.
  intros Hin Hreply Hkey Hl Hf Hbad.
  destruct (@malformed_payload_raises p label fields Hl Hf Hbad)
    as [msg Hmsg].
  exists msg.
  rewrite (optional_indicator_call w self symbol tr Hin), Hreply.
  cbn [rbind]. f_equal.
  unfold indicator_frame, dict_in, dict_getitem. rewrite Hkey.
  cbn [rbind from_dict_json]. exact Hmsg.
Qed.
End Entries.

(* ================================================================= *)
(** ** The merge *)

Lemma has_duplicates_false (l : list Timestamp) :
  has_duplicates l = false -> NoDup l.
Proof.
  induction l as [|t l IH]; simpl; [constructor|].
  intros Hd. apply orb_false_iff in Hd as [Hex Hl].
  constructor; [|auto].
  intros Hin. assert (Ht : existsb (Z.eqb t) l = true).
  { apply existsb_exists. exists t. split; [exact Hin|apply Z.eqb_refl]. }
  congruence.
Qed.

(** An aligned assignment succeeds only for a Series whose index is the
    index of the frame or has no duplicate. *)
Lemma setitem_ok_index (df : DataFrame) (c : string) (value : Series)
    (df' : DataFrame) :
  rows df <> [] -> setitem df c value = Ok df' ->
  map fst value = index df \/ NoDup (map fst value).
Proof.
  intros Hne. unfold setitem, _ensure_valid_index.
  destruct (rows df) as [|r0 rs0] eqn:Hrows; [congruence|].
  unfold _reindex_for_setitem.
  destruct (index_equals (map fst value) (index df)) eqn:Heq.
  - intros _. left. now apply index_equals_eq.
  - cbn [orb].
    assert (Hlen : Nat.eqb (List.length (index df)) 0 = false)
      by (unfold index; rewrite Hrows; reflexivity).
    rewrite Hlen. unfold reindex.
    destruct (has_duplicates (map fst value)) eqn:Hd; [discriminate|].
    intros _. right. now apply has_duplicates_false.
Qed.

(** The three steps of the merge, with the frames in between. *)
Lemma combine_data_steps (price6 rsi macd sma out : DataFrame) :
  columns price6 = price_columns ++ ["volatility"] ->
  well_formed price6 -> rows price6 <> [] ->
  combine_data price6 rsi macd sma = Ok out ->
  (empty rsi = false ->
   exists s df1, getitem rsi "RSI" = Ok s /\ setitem price6 "rsi" s = Ok df1)
  /\
  (empty macd = false ->
   exists s df1 df2,
     index df1 = index price6 /\ rows df1 <> [] /\
     getitem macd "MACD" = Ok s /\ setitem df1 "macd" s = Ok df2) /\
  (empty sma = false ->
   exists s df2,
     index df2 = index price6 /\ rows df2 <> [] /\
     getitem sma "SMA" = Ok s /\ setitem df2 "sma_20" s = Ok out).
Proof.
  intros Hc Hwf Hne. unfold combine_data.
  destruct (if negb (empty rsi) then _ else _) as [df1|e] eqn:H1;
    [|discriminate].
  cbn [rbind]. pose proof H1 as H1'.
  apply merge_step in H1' as (Hc1 & Hk1 & _); auto; [|now rewrite Hc].
  rewrite Hc in Hc1. pose proof Hk1 as (Hi1 & Hwf1 & Hne1 & _).
  destruct (if negb (empty macd) then _ else _) as [df2|e] eqn:H2;
    [|discriminate].
  cbn [rbind]. intros H3.
  assert (Hk2 : index df2 = index df1 /\ rows df2 <> []).
  { destruct (empty macd); cbn [negb] in H2.
    - injection H2 as <-. auto.
    - destruct (getitem macd "MACD") as [s|e] eqn:Hs; [|discriminate].
      cbn [rbind] in H2.
      destruct (setitem df1 "macd" s) as [dfa|e] eqn:Ha; [|discriminate].
      cbn [rbind] in H2.
      destruct (getitem macd "MACD_Signal") as [s'|e] eqn:Hs';
        [|discriminate].
      cbn [rbind] in H2.
      apply setitem_fresh in Ha as (Hca & (Hia & Hwfa & Hnea & _) & _); auto.
      2:{ rewrite Hc1. destruct (empty rsi); reflexivity. }
      apply setitem_fresh in H2 as (_ & (Hib & _ & Hneb & _) & _); auto.
      2:{ rewrite Hca, Hc1. destruct (empty rsi); reflexivity. }
      split; [congruence|exact Hneb]. }
  destruct Hk2 as [Hi2 Hne2].
  split; [|split]; intros He.
  - rewrite He in H1. cbn [negb] in H1.
    destruct (getitem rsi "RSI") as [s|e]; [|discriminate].
    cbn [rbind] in H1. eauto.
  - rewrite He in H2. cbn [negb] in H2.
    destruct (getitem macd "MACD") as [s|e]; [|discriminate].
    cbn [rbind] in H2.
    destruct (setitem df1 "macd" s) as [dfa|e] eqn:Ha; [|discriminate].
    exists s, df1, dfa. auto.
  - rewrite He in H3. cbn [negb] in H3.
    destruct (getitem sma "SMA") as [s|e]; [|discriminate].
    cbn [rbind] in H3.
    exists s, df2. repeat split; auto. congruence.
Qed.

Section Merge.
Context `{Runtime}.

(** X8: an indicator frame that is not empty must have the column the merge
    reads: a run returns a table only if a non-empty RSI frame has a column
    RSI, a non-empty MACD frame the columns MACD and MACD_Signal and a
    non-empty SMA frame a column SMA; and when the RSI frame lacks its
    column, the run raises KeyError "RSI" after all four downloads. *)
Theorem indicator_field_is_required :
  (forall w self tr out tr',
     get_stock_data w self tr = (Ok out, tr') ->
     exists d,
       fetched w self tr d tr' /\
       (empty (rsi_of d) = false -> In "RSI" (columns (rsi_of d))) /\
       (empty (macd_of d) = false ->
        In "MACD" (columns (macd_of d)) /\
        In "MACD_Signal" (columns (macd_of d))) /\
       (empty (sma_of d) = false -> In "SMA" (columns (sma_of d)))) /\
  (forall w self tr d tr',
     fetched w self tr d tr' ->
     empty (rsi_of d) = false ->
     ~ In "RSI" (columns (rsi_of d)) ->
     get_stock_data w self tr = (Raise (KeyError "RSI"), tr')).
Proof.
  assert (Hcol : forall out c ind c',
            joined_on_date out c ind c' -> In c' (columns ind)).
  { intros out c ind c' (_ & s & _ & Hs & _).
    unfold getitem in Hs.
    destruct (position c' (columns ind)) eqn:Hp; [|discriminate].
    destruct (in_dec string_dec c' (columns ind)) as [Hin|Hnot]; [exact Hin|].
    apply position_None in Hnot. congruence. }
  split.
  - intros w self tr out tr' Hrun.
    apply get_stock_data_table in Hrun
      as (d & Hf & _ & _ & _ & _ & _ & _ & Jr & Jm & Js).
    exists d. split; [exact Hf|]. split; [|split]; intros He.
    + eapply Hcol. exact (Jr He).
    + destruct (Jm He) as [Ja Jb]. split; eapply Hcol; eassumption.
    + eapply Hcol. exact (Js He).
  - intros w self tr d tr' (Hsym & Hp & Hrsi & Hmacd & Hsma) He Hnot.
    pose proof (_get_price_volume_ok _ _ _ _ Hp) as (Hc & Hwf & Hne & _).
    destruct (price_with_volatility Hc Hwf Hne)
      as (vol & price6 & Hvol & Hset & _).
    rewrite get_stock_data_eq, Hsym, Hp, Hvol. cbn [rbind].
    rewrite Hset, Hrsi, Hmacd, Hsma. f_equal.
    unfold combine_data. rewrite He. cbn [negb].
    unfold getitem at 1. apply position_None in Hnot. rewrite Hnot.
    reflexivity.
Qed.

(** X9: the merge never picks one of several entries of the same date: a
    run returns a table only if each non-empty indicator frame has pairwise
    different dates or has exactly the dates of the price frame, row by
    row. *)
Theorem duplicate_indicator_dates_abort (w : World)
    (self : AlphaVantageDataFetcher) (tr : trace) (out : DataFrame)
    (tr' : trace) :
  get_stock_data w self tr = (Ok out, tr') ->
  exists d,
    fetched w self tr d tr' /\
    (empty (rsi_of d) = false ->
     index (rsi_of d) = index (price_of d) \/ NoDup (index (rsi_of d))) /\
    (empty (macd_of d) = false ->
     index (macd_of d) = index (price_of d) \/ NoDup (index (macd_of d))) /\
    (empty (sma_of d) = false ->
     index (sma_of d) = index (price_of d) \/ NoDup (index (sma_of d))).
Proof.
  intros Hrun.
  apply get_stock_data_inv in Hrun
    as (d & vol & price6 & Hf & Hvol & Hset & Hcomb).
  exists d. split; [exact Hf|].
  destruct Hf as (_ & Hp & _).
  apply _get_price_volume_ok in Hp as (Hc & Hwf & Hne & _).
  destruct (price_with_volatility Hc Hwf Hne)
    as (vol' & price6' & Hvol' & Hset' & Hc6 & (Hi6 & Hwf6 & Hne6 & _)).
  assert (vol' = vol) by congruence. subst vol'.
  assert (price6' = price6) by congruence. subst price6'.
  destruct (combine_data_steps _ _ _ Hc6 Hwf6 Hne6 Hcomb)
    as (Sr & Sm & Ss).
  split; [|split]; intros He.
  - destruct (Sr He) as (s & df1 & Hs & Hs1).
    apply setitem_ok_index in Hs1; [|exact Hne6].
    rewrite (getitem_index _ _ Hs), Hi6 in Hs1. exact Hs1.
  - destruct (Sm He) as (s & df1 & df2 & Hi1 & Hne1 & Hs & Hs1).
    apply setitem_ok_index in Hs1; [|exact Hne1].
    rewrite (getitem_index _ _ Hs), Hi1, Hi6 in Hs1. exact Hs1.
  - destruct (Ss He) as (s & df2 & Hi2 & Hne2 & Hs & Hs1).
    apply setitem_ok_index in Hs1; [|exact Hne2].
    rewrite (getitem_index _ _ Hs), Hi2, Hi6 in Hs1. exact Hs1.
Qed.

(** X10: a table returned by get_stock_data is never empty and is
    rectangular: it has at least one row, every row has one cell per
    column, and its six to ten column names are pairwise different. *)
Theorem returned_table_is_rectangular (w : World)
    (self : AlphaVantageDataFetcher) (tr : trace) (out : DataFrame)
    (tr' : trace) :
  get_stock_data w self tr = (Ok out, tr') ->
  rows out <> [] /\
  well_formed out /\
  NoDup (columns out) /\
  (6 <= List.length (columns out) <= 10)%nat.
Proof.
  intros Hrun.
  apply get_stock_data_table in Hrun
    as (d & _ & _ & _ & _ & (_ & Hwf & Hne & _) & Hc & _).
  split; [exact Hne|]. split; [exact Hwf|].
  rewrite Hc. unfold expected_columns.
  destruct (empty (rsi_of d)), (empty (macd_of d)), (empty (sma_of d));
    (split; [|simpl; lia]);
    repeat (constructor; [simpl; intuition discriminate|]); constructor.
Qed.

(** X11: when all three indicator frames are empty, the table returned is
    the price frame with its volatility column and nothing else. *)
Theorem degraded_run_returns_price_frame (w : World)
    (self : AlphaVantageDataFetcher) (tr : trace) (out : DataFrame)
    (tr' : trace) :
  get_stock_data w self tr = (Ok out, tr') ->
  exists d vol,
    fetched w self tr d tr' /\
    volatility (price_of d) = Ok vol /\
    (empty (rsi_of d) = true -> empty (macd_of d) = true ->
     empty (sma_of d) = true ->
     setitem (price_of d) "volatility" vol = Ok out).
Proof.
  intros Hrun.
  apply get_stock_data_inv in Hrun
    as (d & vol & price6 & Hf & Hvol & Hset & Hcomb).
  exists d, vol. split; [exact Hf|]. split; [exact Hvol|].
  intros Er Em Es. unfold combine_data in Hcomb.
  rewrite Er, Em, Es in Hcomb. cbn in Hcomb. congruence.
Qed.
End Merge.

(* ================================================================= *)
(** ** More on the volatility column *)

Lemma pct_change_values_head (x : float64) (l : list float64) :
  exists rest, pct_change_values (x :: l) = NaN :: rest.
Proof.
  unfold pct_change_values, ffill, shift.
  destruct x;
    cbn [pad_from isnan List.length firstn combine map fst snd fdiv fsub];
    eexists; reflexivity.
Qed.

Lemma length_observations (l : list float64) :
  (List.length (observations l) <= List.length l)%nat.
Proof.
  induction l as [|[q| | |] l IH]; simpl; lia.
Qed.

Lemma pct_spec_scaled (k : Qc) (closes : list Qc) (i : nat) :
  k <> 0%Qc ->
  pct_spec (map (Qcmult k) closes) i = pct_spec closes i.
Proof.
  intros Hk. destruct i as [|j]; [reflexivity|]. cbn [pct_spec].
  assert (Hnth : forall n, nth n (map (Qcmult k) closes) 0%Qc
                           = (k * nth n closes 0%Qc)%Qc).
  { intros n. replace 0%Qc with (k * 0)%Qc at 1 by ring. apply map_nth. }
  rewrite !Hnth.
  set (p := nth j closes 0%Qc). set (c := nth (S j) closes 0%Qc).
  destruct (Qc_eq_dec p 0%Qc) as [Hp|Hp].
  - destruct (Qc_eq_dec (k * p)%Qc 0%Qc) as [_|Hkp]; [reflexivity|].
    exfalso. apply Hkp. rewrite Hp. ring.
  - destruct (Qc_eq_dec (k * p)%Qc 0%Qc) as [Hkp|_].
    + apply Qcmult_integral in Hkp as [?|?]; contradiction.
    + f_equal. field. auto.
Qed.

Section MoreVolatility.
Context `{Runtime}.

(** X12: whatever the prices are, the first twenty volatilities are null;
    so a price frame of at most twenty rows has a volatility column that is
    entirely null. *)
Theorem first_twenty_volatilities_are_null (price_data : DataFrame)
    (vol : Series) :
  volatility price_data = Ok vol ->
  List.length vol = List.length (rows price_data) /\
  (forall i, (i < 20)%nat -> nth i (map snd vol) NaN = NaN) /\
  ((List.length (rows price_data) <= 20)%nat ->
   Forall (fun v => v = NaN) (map snd vol)).
Proof.
  intros Hvol.
  assert (Hclose : exists close, getitem price_data "close" = Ok close).
  { unfold volatility in Hvol.
    destruct (getitem price_data "close"); [eauto|discriminate]. }
  destruct Hclose as [close Hclose].
  destruct (volatility_ok price_data Hclose) as (vol' & Hvol' & Hidx & Hval).
  assert (vol' = vol) by congruence. subst vol'.
  assert (Hlen : List.length vol = List.length (rows price_data)).
  { rewrite <- (length_map fst vol), Hidx, (getitem_index _ _ Hclose).
    unfold index. apply length_map. }
  assert (Hfirst : forall i, (i < 20)%nat -> nth i (map snd vol) NaN = NaN).
  { intros i Hi. rewrite Hval.
    set (l := map snd close).
    destruct (Nat.lt_ge_cases i (List.length l)) as [Hin|Hout].
    2:{ apply nth_overflow. now rewrite length_rolling_std_values,
          length_pct_change_values. }
    unfold rolling_std_values.
    rewrite length_pct_change_values.
    rewrite (nth_map_lt _ _ NaN 0%nat) by (now rewrite length_seq).
    rewrite seq_nth by exact Hin. cbn [Nat.add].
    destruct l as [|x l']; [simpl in Hin; lia|].
    destruct (pct_change_values_head x l') as [rest ->].
    unfold window_at. replace (i + 1 - 20)%nat with 0%nat by lia.
    cbn [skipn _prep_values map isinf].
    replace (i + 1 - 0)%nat with (S i) by lia. cbn [firstn observations
      flat_map app].
    unfold calc_std, calc_var.
    pose proof (length_observations
                  (firstn i (map (fun x => if isinf x then NaN else x) rest)))
      as Hobs.
    rewrite length_firstn in Hobs.
    destruct (Nat.leb_spec 20
                (List.length (flat_map
                   (fun x => match x with Fin q => [q] | _ => [] end)
                   (firstn i (map (fun x => if isinf x then NaN else x)
                                  rest)))));
      [unfold observations in Hobs; lia|reflexivity]. }
  split; [exact Hlen|]. split; [exact Hfirst|].
  intros Hshort. apply Forall_forall. intros v Hv.
  apply (In_nth _ _ NaN) in Hv as (i & Hi & <-).
  apply Hfirst. rewrite length_map in Hi. lia.
Qed.

(** X13: the volatility does not depend on the unit of the prices: two
    price frames whose finite closes differ by a constant non-zero factor
    have the same volatility column. *)
Theorem volatility_is_scale_invariant (price_data price_data' : DataFrame)
    (close close' : Series) (closes : list Qc) (k : Qc) :
  getitem price_data "close" = Ok close ->
  getitem price_data' "close" = Ok close' ->
  map snd close = map Fin closes ->
  map snd close' = map Fin (map (Qcmult k) closes) ->
  k <> 0%Qc ->
  exists vol vol',
    volatility price_data = Ok vol /\
    volatility price_data' = Ok vol' /\
    map snd vol' = map snd vol.
Proof.
  intros Hc Hc' Hv Hv' Hk.
  destruct (volatility_ok price_data Hc) as (vol & Hvol & _ & Hval).
  destruct (volatility_ok price_data' Hc') as (vol' & Hvol' & _ & Hval').
  exists vol, vol'. split; [exact Hvol|]. split; [exact Hvol'|].
  rewrite Hval, Hval', Hv, Hv'.
  apply (nth_ext _ _ NaN NaN).
  - now rewrite !length_rolling_std_values, !length_pct_change_values,
      !length_map.
  - intros i Hi.
    rewrite length_rolling_std_values, length_pct_change_values,
      !length_map in Hi.
    rewrite !rolling_std_pct_change_spec
      by (rewrite ?length_map; exact Hi).
    unfold volatility_spec.
    assert (Hsame : map (pct_spec (map (Qcmult k) closes))
                        (trailing_positions i)
                    = map (pct_spec closes) (trailing_positions i)).
    { apply map_ext. intros j. now apply pct_spec_scaled. }
    now rewrite Hsame.
Qed.
End MoreVolatility.

(* ================================================================= *)
(** ** The order of the entries of a payload *)

Lemma filter_unique (P : string -> bool) (l : list string) :
  filter P (unique l) = unique (filter P l).
Proof.
  induction l as [|x l IH]; [reflexivity|].
  cbn [unique filter]. destruct (P x) eqn:Px.
  - cbn [unique]. f_equal.
    rewrite <- IH. clear IH. induction (unique l) as [|y u IHu];
      [reflexivity|].
    cbn [filter]. destruct (P y) eqn:Py, (negb (String.eqb x y)) eqn:Hxy;
      cbn [filter]; rewrite ?Py, ?Hxy; now rewrite ?IHu.
  - rewrite <- IH. clear IH. induction (unique l) as [|y u IHu];
      [reflexivity|].
    cbn [filter]. destruct (String.eqb_spec x y) as [<-|Hne]; cbn [negb].
    + rewrite Px. exact IHu.
    + cbn [filter]. destruct (P y); now rewrite IHu.
Qed.

Lemma unique_app_subset (l m : list string) :
  (forall y, In y m -> In y l) -> unique (l ++ m) = unique l.
Proof.
  remember (List.length l) as n eqn:Hn. revert l m Hn.
  induction n as [n IH] using lt_wf_ind. intros l m Hn Hsub.
  destruct l as [|x l].
  - destruct m as [|y m]; [reflexivity|]. exfalso. apply (Hsub y). now left.
  - cbn [app unique]. f_equal.
    rewrite !filter_unique, filter_app.
    assert (Hlt : (List.length (filter (fun y => negb (String.eqb x y)) l)
                   < n)%nat).
    { subst n. simpl. pose proof (filter_length_le
        (fun y => negb (String.eqb x y)) l). lia. }
    apply (IH _ Hlt _ _ eq_refl).
    intros y Hy. apply filter_In in Hy as [Hy Hxy].
    apply filter_In. split; [|exact Hxy].
    destruct (Hsub y Hy) as [<-|Hin]; [|exact Hin].
    rewrite String.eqb_refl in Hxy. discriminate.
Qed.

Lemma unique_NoDup (l : list string) : NoDup l -> unique l = l.
Proof.
  induction 1 as [|x l Hnotin Hnd IH]; [reflexivity|].
  cbn [unique]. rewrite IH. f_equal.
  clear - Hnotin. induction l as [|y l IHl]; [reflexivity|].
  cbn [filter]. destruct (String.eqb_spec x y) as [->|Hne].
  - exfalso. apply Hnotin. now left.
  - cbn [negb]. f_equal. apply IHl. intros Hin. apply Hnotin. now right.
Qed.

Lemma dict_get_perm {V} (k : string) (d d' : list (string * V)) :
  Permutation d d' -> NoDup (map fst d) -> dict_get k d = dict_get k d'.
Proof.
  induction 1 as [|[k1 v1] d d' Hp IH|[k1 v1] [k2 v2] d|d1 d2 d3 H12 IH12 H23
                  IH23]; intros Hnd.
  - reflexivity.
  - simpl. inversion Hnd; subst. now rewrite IH.
  - simpl. destruct (String.eqb_spec k k1) as [E1|N1],
      (String.eqb_spec k k2) as [E2|N2]; try reflexivity.
    subst. inversion Hnd as [|? ? Hnotin _]; subst. exfalso. apply Hnotin.
    now left.
  - rewrite IH12 by exact Hnd. apply IH23.
    eapply Permutation_NoDup; [|exact Hnd]. now apply Permutation_map.
Qed.

Lemma rmap_perm {A B} (f : A -> result B) (l l' : list A) (ys : list B) :
  Permutation l l' -> rmap f l = Ok ys ->
  exists ys', rmap f l' = Ok ys' /\ Permutation ys ys'.
Proof.
  intros Hp. revert ys.
  induction Hp as [|x l l' Hp IH|x1 x2 l|l1 l2 l3 H12 IH12 H23 IH23];
    intros ys Hm.
  - exists ys. auto.
  - simpl in *. destruct (f x) as [y|e]; [|discriminate]. cbn [rbind] in *.
    destruct (rmap f l) as [ys0|e]; [|discriminate]. cbn [rbind] in Hm.
    injection Hm as <-. destruct (IH ys0 eq_refl) as (ys' & -> & Hperm).
    cbn [rbind]. exists (y :: ys'). auto.
  - simpl in *. destruct (f x2) as [y2|e]; [|discriminate].
    cbn [rbind] in *. destruct (f x1) as [y1|e]; [|discriminate].
    cbn [rbind] in *. destruct (rmap f l) as [ys0|e]; [|discriminate].
    cbn [rbind] in *. injection Hm as <-.
    exists (y1 :: y2 :: ys0). split; [reflexivity|]. apply perm_swap.
  - destruct (IH12 ys Hm) as (ys2 & H2 & P2).
    destruct (IH23 ys2 H2) as (ys3 & H3 & P3).
    exists ys3. split; [exact H3|]. eapply perm_trans; eassumption.
Qed.

(** Two ascending lists of rows with the same rows and pairwise different
    dates are the same list. *)
Lemma sorted_rows_unique {A} (a b : list (Timestamp * A)) :
  StronglySorted Z.le (map fst a) -> StronglySorted Z.le (map fst b) ->
  Permutation a b -> NoDup (map fst a) -> a = b.
Proof.
  revert b. induction a as [|x a IH]; intros b Sa Sb Hp Hnd.
  - apply Permutation_nil in Hp. now subst.
  - destruct b as [|y b].
    { apply Permutation_sym, Permutation_nil in Hp. discriminate. }
    cbn [map] in Sa, Sb, Hnd.
    inversion Sa as [|? ? Sa' Fa]; subst.
    inversion Sb as [|? ? Sb' Fb]; subst.
    inversion Hnd as [|? ? Hnotin Hnd']; subst.
    assert (Hxy : x = y).
    { assert (Hx : In x (y :: b))
        by (eapply Permutation_in; [exact Hp|now left]).
      assert (Hy : In y (x :: a))
        by (eapply Permutation_in; [apply Permutation_sym; exact Hp|now left]).
      destruct Hx as [->|Hx]; [reflexivity|].
      destruct Hy as [->|Hy]; [reflexivity|].
      exfalso. rewrite Forall_forall in Fa, Fb.
      assert (fst x <= fst y)%Z by (apply Fa; now apply in_map).
      assert (fst y <= fst x)%Z by (apply Fb; now apply in_map).
      apply Hnotin. replace (fst x) with (fst y) by lia. now apply in_map. }
    subst y. f_equal. apply IH; auto.
    eapply Permutation_cons_inv. exact Hp.
Qed.

Lemma sort_rows_order {A} (l l' : list (Timestamp * A)) :
  Permutation l l' -> NoDup (map fst l) -> sort_rows l = sort_rows l'.
Proof.
  intros Hp Hnd. apply sorted_rows_unique.
  - apply sort_rows_sorted.
  - apply sort_rows_sorted.
  - eapply perm_trans; [apply Permutation_sym, sort_rows_perm|].
    eapply perm_trans; [exact Hp|apply sort_rows_perm].
  - eapply Permutation_NoDup; [|exact Hnd].
    apply Permutation_map, sort_rows_perm.
Qed.

Lemma filter_all {A} (P : A -> bool) (l : list A) :
  (forall x, In x l -> P x = true) -> filter P l = l.
Proof.
  induction l as [|x l IH]; intros Hall; [reflexivity|].
  cbn [filter]. rewrite (Hall x) by now left.
  f_equal. apply IH. intros y Hy. apply Hall. now right.
Qed.

Lemma rmap_ext_in {A B} (f g : A -> result B) (l : list A) :
  (forall x, In x l -> f x = g x) -> rmap f l = rmap g l.
Proof.
  induction l as [|x l IH]; intros Hfg; [reflexivity|].
  simpl. rewrite (Hfg x) by now left.
  rewrite IH; [reflexivity|]. intros y Hy. apply Hfg. now right.
Qed.

Lemma flat_map_ext_on {A B} (f g : A -> list B) (l : list A) :
  (forall x, In x l -> f x = g x) -> flat_map f l = flat_map g l.
Proof.
  induction l as [|x l IH]; intros Hfg; [reflexivity|].
  cbn [flat_map]. rewrite (Hfg x) by now left.
  f_equal. apply IH. intros y Hy. apply Hfg. now right.
Qed.

Lemma unique_nonempty (l : list string) : l <> [] -> unique l <> [].
Proof. destruct l; [congruence|discriminate]. Qed.

(** Payloads whose entries all carry the same fields. *)
Lemma uniform_columns (p : payload) (cols : list string) :
  p <> [] -> (forall e, In e p -> map fst (snd e) = cols) ->
  from_dict_columns p = unique cols.
Proof.
  intros Hne Hu. unfold from_dict_columns.
  destruct p as [|e p]; [congruence|]. cbn [flat_map].
  rewrite (Hu e) by now left.
  apply unique_app_subset. intros y Hy.
  apply in_flat_map in Hy as (e' & He' & Hy).
  rewrite (Hu e') in Hy by now right. exact Hy.
Qed.

Lemma uniform_index (p : payload) (cols : list string) :
  p <> [] -> cols <> [] ->
  (forall e, In e p -> map fst (snd e) = cols) ->
  NoDup (map fst p) ->
  from_dict_index p = map fst p.
Proof.
  intros Hne Hc Hu Hnd. unfold from_dict_index.
  rewrite (uniform_columns Hne Hu).
  assert (Hflat : forall cs, (forall c, In c cs -> In c cols) ->
            flat_map (fun c => map fst (filter (fun e => dict_in c (snd e)) p))
                     cs
            = flat_map (fun _ => map fst p) cs).
  { intros cs Hcs. apply flat_map_ext_on. intros c Hin. f_equal.
    apply filter_all. intros e He. apply dict_in_keys.
    rewrite (Hu e He). now apply Hcs. }
  rewrite Hflat by (intros c Hin; now apply In_unique).
  pose proof (unique_nonempty Hc) as Hu0.
  destruct (unique cols) as [|c cs]; [congruence|]. cbn [flat_map].
  rewrite unique_app_subset.
  - now apply unique_NoDup.
  - intros y Hy. apply in_flat_map in Hy as (_ & _ & Hy). exact Hy.
Qed.

Lemma parsed_dates_NoDup {A} (g : A -> option Timestamp) (ls : list A)
    (ts : list Timestamp) :
  Forall2 (fun l t => g l = Some t) ls ts ->
  NoDup ls ->
  (forall l1 l2, In l1 ls -> In l2 ls -> g l1 = g l2 -> l1 = l2) ->
  NoDup ts.
Proof.
  induction 1 as [|l t ls ts Hlt Hrest IH]; intros Hnd Hinj; [constructor|].
  inversion Hnd as [|? ? Hnotin Hnd']; subst. constructor.
  - intros Hin.
    destruct (@Forall2_In_r _ _ _ _ _ _ Hrest Hin) as (l' & Hl' & Hg).
    assert (l = l').
    { apply Hinj; [now left|now right|congruence]. }
    subst l'. contradiction.
  - apply IH; [exact Hnd'|].
    intros l1 l2 H1 H2. apply Hinj; now right.
Qed.

Section EntryOrder.
Context `{Runtime}.

Lemma from_dict_perm (p p' : payload) (cols : list string)
    (d : Frame string) :
  Permutation p p' -> NoDup (map fst p) -> cols <> [] ->
  (forall e, In e p -> map fst (snd e) = cols) ->
  from_dict p = Ok d ->
  index d = map fst p /\
  exists d2,
    from_dict p' = Ok d2 /\ columns d2 = columns d /\
    Permutation (rows d) (rows d2).
Proof.
  intros Hp Hnd Hc Hu Hd.
  destruct p as [|e0 p0] eqn:Ep.
  { apply Permutation_nil in Hp. subst p'.
    split; [now injection Hd as <-|]. exists d. auto. }
  rewrite <- Ep in *.
  assert (Hne : p <> []) by (rewrite Ep; discriminate).
  assert (Hne' : p' <> []).
  { intros ->. apply Permutation_sym, Permutation_nil in Hp. congruence. }
  assert (Hu' : forall e, In e p' -> map fst (snd e) = cols).
  { intros e He. apply Hu. eapply Permutation_in;
      [apply Permutation_sym; exact Hp|exact He]. }
  assert (Hnd' : NoDup (map fst p')).
  { eapply Permutation_NoDup; [|exact Hnd]. now apply Permutation_map. }
  pose proof (from_dict_ok _ Hd) as (_ & Hi & _).
  rewrite (uniform_index Hne Hc Hu Hnd) in Hi.
  split; [exact Hi|].
  unfold from_dict in *.
  rewrite (uniform_columns Hne' Hu'), (uniform_index Hne' Hc Hu' Hnd').
  rewrite (uniform_columns Hne Hu), (uniform_index Hne Hc Hu Hnd) in Hd.
  destruct (rmap (from_dict_row p (unique cols)) (map fst p)) as [rs|e]
    eqn:Hrows; [|discriminate].
  cbn [rbind] in Hd. injection Hd as <-.
  assert (Hrows' : rmap (from_dict_row p' (unique cols)) (map fst p)
                   = Ok rs).
  { rewrite <- Hrows. apply rmap_ext_in. intros l _.
    unfold from_dict_row. now rewrite (dict_get_perm l Hp Hnd). }
  destruct (rmap_perm _ (Permutation_map fst Hp) Hrows')
    as (rs' & Hrs' & Hperm).
  rewrite Hrs'. cbn [rbind]. eexists. split; [reflexivity|]. auto.
Qed.

Lemma set_datetime_index_perm (d d2 : Frame string) (d' : DataFrame) :
  columns d2 = columns d -> Permutation (rows d) (rows d2) ->
  set_datetime_index d = Ok d' ->
  exists d2',
    set_datetime_index d2 = Ok d2' /\ columns d2' = columns d' /\
    Permutation (rows d') (rows d2').
Proof.
  intros Hc Hp. unfold set_datetime_index.
  destruct (rmap to_datetime_label (rows d)) as [ts|e] eqn:Hts;
    [|discriminate].
  cbn [rbind]. intros [= <-].
  destruct (rmap_perm _ Hp Hts) as (ts' & -> & Hperm).
  cbn [rbind]. eexists. split; [reflexivity|]. split; [exact Hc|exact Hperm].
Qed.

(** The normalised frame of a payload does not depend on the order of its
    entries, when they carry the same fields and different dates. *)
Lemma normalised_frame_order (p p' : payload) (cols : list string)
    (df : DataFrame) :
  Permutation p p' -> NoDup (map fst p) -> cols <> [] ->
  (forall e, In e p -> map fst (snd e) = cols) ->
  (forall l1 l2, In l1 (map fst p) -> In l2 (map fst p) ->
                 to_datetime l1 = to_datetime l2 -> l1 = l2) ->
  rbind (from_dict p) (fun d =>
  rbind (set_datetime_index d) (fun d => Ok (sort_index d))) = Ok df ->
  rbind (from_dict p') (fun d =>
  rbind (set_datetime_index d) (fun d => Ok (sort_index d))) = Ok df.
Proof.
  intros Hp Hnd Hc Hu Hinj.
  destruct (from_dict p) as [d|e] eqn:Hd; [|discriminate]. cbn [rbind].
  destruct (set_datetime_index d) as [d'|e] eqn:Hd'; [|discriminate].
  cbn [rbind]. intros [= <-].
  destruct (from_dict_perm Hp Hnd Hc Hu Hd) as (Hi & d2 & -> & Hc2 & Hp2).
  cbn [rbind].
  destruct (@set_datetime_index_perm d d2 d' Hc2 Hp2 Hd')
    as (d2' & -> & Hc2' & Hp2').
  cbn [rbind]. f_equal. unfold sort_index. rewrite Hc2'. f_equal.
  symmetry. apply sort_rows_order; [exact Hp2'|].
  pose proof Hd' as Hd'2.
  apply set_datetime_index_ok in Hd'2 as (_ & Hdates & _).
  fold (index d'). rewrite Hi in Hdates.
  eapply parsed_dates_NoDup; eassumption.
Qed.

(** X14: the frame of an optional indicator does not depend on the order
    in which the provider lists the entries: two replies whose payloads have
    the same entries in different orders, with labels that are valid dates
    written YYYY-MM-DD, distinct and parsed to distinct dates, and with the
    same fields in every entry, give the same frame.  (With labels in other
    or mixed formats the format that pandas infers from the first label
    makes the order matter; such payloads are left out by hypothesis.) *)
Theorem indicator_frame_ignores_entry_order
    (get : World -> AlphaVantageDataFetcher -> pyval -> M DataFrame)
    (key : string) (params : pyval -> pydict) (w w' : World)
    (self : AlphaVantageDataFetcher) (symbol : pyval) (tr : trace)
    (data data' : response) (p p' : payload) (cols : list string)
    (df : DataFrame) (tr' : trace) :
  In (get, key, params) optional_indicators ->
  reply w self tr (params symbol) = Ok data ->
  reply w' self tr (params symbol) = Ok data' ->
  dict_get key data = Some (JEntries p) ->
  dict_get key data' = Some (JEntries p') ->
  Permutation p p' ->
  Forall (fun e => iso_date_label (fst e) = true) p ->
  NoDup (map fst p) ->
  cols <> [] ->
  (forall e, In e p -> map fst (snd e) = cols) ->
  (forall l1 l2, In l1 (map fst p) -> In l2 (map fst p) ->
                 to_datetime l1 = to_datetime l2 -> l1 = l2) ->
  get w self symbol tr = (Ok df, tr') ->
  get w' self symbol tr = (Ok df, tr').
Proof.
  intros Hin Hr Hr' Hk Hk' Hp _ Hnd Hc Hu Hinj.
  rewrite !(optional_indicator_call _ self symbol tr Hin), Hr, Hr'.
  cbn [rbind]. intros [= Hdf <-]. f_equal.
  unfold indicator_frame, dict_in, dict_getitem in *.
  rewrite Hk in Hdf. rewrite Hk'. cbn [rbind from_dict_json] in *.
  eapply normalised_frame_order; eassumption.
Qed.
End EntryOrder.

Section PricePayload.
Context `{Runtime}.

(** X15: the conversion of the price payload is all or nothing as well:
    when one text of an entry is not a float, or one date label cannot be
    parsed, the price download raises ValueError after its request, and so
    does get_stock_data, which requests nothing more. *)
Theorem malformed_price_raises (w : World) (self : AlphaVantageDataFetcher)
    (tr : trace) (symbol : pyval) (data : response) (p : payload)
    (label : string) (fields : list (string * string)) :
  py_getitem (config self) "symbol" = Ok symbol ->
  reply w self (tr ++ [banner symbol])
    [("function", VStr "TIME_SERIES_DAILY"); ("symbol", symbol);
     ("outputsize", VStr "compact")] = Ok data ->
  dict_get "Time Series (Daily)" data = Some (JEntries p) ->
  In label (from_dict_index p) ->
  dict_get label p = Some fields ->
  (exists c s, dict_get c fields = Some s /\ float_of_str s = None)
  \/ to_datetime label = None ->
  exists msg,
    fst (_get_price_volume w self symbol (tr ++ [banner symbol]))
    = Raise (ValueError msg) /\
    get_stock_data w self tr
    = (Raise (ValueError msg),
       tr ++ banner symbol :: firstn 1 (run_requests self symbol)).
Proof.
  intros Hsym Hreply Hkey Hl Hf Hbad.
  destruct (@malformed_payload_raises _ p label fields Hl Hf Hbad)
    as [msg Hmsg].
  exists msg.
  assert (Hp : _get_price_volume w self symbol (tr ++ [banner symbol])
               = (Raise (ValueError msg),
                  (tr ++ [banner symbol])
                  ++ [request_of self
                        [("function", VStr "TIME_SERIES_DAILY");
                         ("symbol", symbol);
                         ("outputsize", VStr "compact")]])).
  { unfold _get_price_volume, bind, lift, _api_call, reply, request_of in *.
    cbn [dict_set String.eqb Ascii.eqb Bool.eqb app] in *.
    rewrite Hreply. unfold dict_getitem. rewrite Hkey.
    cbn [from_dict_json].
    destruct (from_dict p) as [d|e]; cbn [rbind] in Hmsg.
    - destruct (set_datetime_index d) as [d'|e]; cbn [rbind] in Hmsg;
        [discriminate|]. now injection Hmsg as ->.
    - now injection Hmsg as ->. }
  split; [now rewrite Hp|].
  rewrite get_stock_data_eq, Hsym, Hp. cbn [firstn run_requests].
  now rewrite <- app_assoc.
Qed.
End PricePayload.

(* ================================================================= *)
(** ** The further properties on concrete worlds *)

(** X1 on parameters that already carry a key. *)
Lemma _api_call_sends_key_witness :
  exists sent,
    snd (_api_call all_up sample_fetcher
           [("apikey", VStr "other"); ("function", VStr "RSI")] [])
    = [HttpGet "https://www.alphavantage.co/query" sent] /\
    dict_get "apikey" sent = Some (VStr "demo") /\
    dict_get "function" sent = Some (VStr "RSI").
Proof.
  destruct (_api_call_sends_key all_up sample_fetcher
              [("apikey", VStr "other"); ("function", VStr "RSI")] [])
    as (sent & Hcall & Hkey & Hother).
  exists sent. rewrite Hcall. split; [reflexivity|]. split; [exact Hkey|].
  rewrite Hother; [reflexivity|discriminate].
Defined.

(** X2 on the run in which the MACD request fails: three requests. *)
Lemma get_stock_data_requests_in_order_witness :
  get_stock_data (H := reference_runtime) macd_down sample_fetcher []
  = (fst macd_down_run, snd macd_down_run) /\
  exists n,
    (1 <= n <= 4)%nat /\
    snd macd_down_run
    = [] ++ banner (VStr "IBM")
         :: firstn n (run_requests sample_fetcher (VStr "IBM")) /\
    ((n < 4)%nat ->
     exists get e,
       nth_error (downloads (H := reference_runtime)) (n - 1) = Some get /\
       fst (get macd_down sample_fetcher (VStr "IBM")
              ([] ++ banner (VStr "IBM")
                  :: firstn (n - 1)
                       (run_requests sample_fetcher (VStr "IBM"))))
       = Raise e /\
       fst macd_down_run = Raise e).
Proof.
  assert (Hrun : get_stock_data (H := reference_runtime) macd_down
                   sample_fetcher []
                 = (fst macd_down_run, snd macd_down_run))
    by (vm_compute; reflexivity).
  split; [exact Hrun|].
  destruct (@get_stock_data_requests_in_order reference_runtime macd_down
              sample_fetcher [] _ _ Hrun)
    as [(e & Hsym & _)|(symbol & n & Hsym & Hn & Htr & _ & _ & Hlast)].
  - discriminate Hsym.
  - injection Hsym as <-. exists n. auto.
Defined.

(** X3 in the world whose price reply is a notice. *)
Lemma price_failure_is_fatal_witness :
  py_getitem (config sample_fetcher) "symbol" = Ok (VStr "IBM") /\
  dict_get "Time Series (Daily)" notice_reply = None /\
  get_stock_data (H := reference_runtime) price_notice sample_fetcher []
  = (Raise (KeyError "Time Series (Daily)"),
     [] ++ banner (VStr "IBM")
        :: firstn 1 (run_requests sample_fetcher (VStr "IBM"))).
Proof.
  split; [reflexivity|]. split; [reflexivity|].
  exact (proj2 (@price_failure_is_fatal reference_runtime price_notice
                  sample_fetcher [] (VStr "IBM") eq_refl)
           notice_reply eq_refl eq_refl).
Defined.


(** With the symbol BRK/B, main sends its four requests and prints its
    summary, then to_csv raises: no file, and no last line. *)
Example slash_in_symbol_aborts_the_write :
  fst slash_symbol_main
  = Raise (OSError "Cannot save file into a non-existent directory") /\
  List.length (http_requests (snd slash_symbol_main)) = 4%nat /\
  csv_files (snd slash_symbol_main) = [] /\
  last (snd slash_symbol_main) (Stdout [])
  = PrintFrame "tail(3)" (table_of slash_symbol_run).
Proof. repeat split; vm_compute; reflexivity. Qed.

(** X5 on the same run. *)
Lemma main_requests_carry_the_key_witness :
  main (H := reference_runtime) all_up [] = (fst all_up_main, snd all_up_main)
  /\
  exists evs,
    snd all_up_main = [] ++ evs /\
    (List.length (http_requests evs) <= 4)%nat /\
    forall url params,
      In (url, params) (http_requests evs) ->
      url = "https://www.alphavantage.co/query" /\
      exists k,
        getenv all_up "ALPHA_VANTAGE_API_KEY" = Some k /\ k <> "" /\
        dict_get "apikey" params = Some (VStr k).
Proof.
  assert (Hrun : main (H := reference_runtime) all_up []
                 = (fst all_up_main, snd all_up_main))
    by (vm_compute; reflexivity).
  split; [exact Hrun|].
  exact (@main_requests_carry_the_key reference_runtime all_up [] _ _ Hrun).
Defined.

(** With the close field first in the payload, the column open holds the
    closes. *)
Example shuffled_fields_are_renamed_by_position :
  option_map (map snd)
    (match fst (run (_get_price_volume (H := reference_runtime)
                       shuffled_prices sample_fetcher (VStr "IBM"))) with
     | Ok price => match getitem price "open" with
                   | Ok s => Some s
                   | Raise _ => None
                   end
     | Raise _ => None
     end)
  = Some [Fin (Q2Qc 100); Fin (Q2Qc 101)].
Proof. vm_compute. reflexivity. Qed.

(** X6 on that payload. *)
Lemma price_columns_are_positional_witness :
  exists price tr1 data p,
    _get_price_volume (H := reference_runtime) shuffled_prices
      sample_fetcher (VStr "IBM") [] = (Ok price, tr1) /\
    dict_get "Time Series (Daily)" data = Some (JEntries p) /\
    List.length (from_dict_columns p) = 5%nat /\
    columns price = ["open"; "high"; "low"; "close"; "volume"].
Proof.
  destruct (_get_price_volume (H := reference_runtime) shuffled_prices
              sample_fetcher (VStr "IBM") [])
    as [[price|e] tr1] eqn:Hp; [|vm_compute in Hp; discriminate Hp].
  destruct (@price_columns_are_positional reference_runtime shuffled_prices
              sample_fetcher (VStr "IBM") [] price tr1 Hp)
    as (data & p & _ & Hts & Hlen & Hc & _).
  exists price, tr1, data, p. auto.
Defined.

(** X7 on an RSI payload with a label that is not a date. *)
Lemma malformed_indicator_raises_witness :
  In "yesterday"
     (from_dict_index [("2024-01-04", [("RSI", "55.5")]);
                       ("yesterday", [("RSI", "51")])]) /\
  to_datetime (Runtime := reference_runtime) "yesterday" = None /\
  exists msg,
    _get_rsi (H := reference_runtime) bad_date_rsi sample_fetcher
      (VStr "IBM") []
    = (Raise (ValueError msg),
       [] ++ [request_of sample_fetcher
                [("function", VStr "RSI"); ("symbol", VStr "IBM");
                 ("interval", VStr "daily"); ("time_period", VInt 14);
                 ("series_type", VStr "close")]]).
Proof.
  assert (Hl : In "yesterday"
                 (from_dict_index [("2024-01-04", [("RSI", "55.5")]);
                                   ("yesterday", [("RSI", "51")])]))
    by (vm_compute; auto).
  split; [exact Hl|]. split; [reflexivity|].
  exact (@malformed_indicator_raises reference_runtime
           _get_rsi "Technical Analysis: RSI"
           (fun symbol => [("function", VStr "RSI"); ("symbol", symbol);
                           ("interval", VStr "daily");
                           ("time_period", VInt 14);
                           ("series_type", VStr "close")])
           bad_date_rsi sample_fetcher (VStr "IBM") [] bad_date_rsi_reply
           _ "yesterday" [("RSI", "51")]
           (or_introl eq_refl) eq_refl eq_refl Hl eq_refl
           (or_intror eq_refl)).
Defined.

(** X8 in the world whose RSI payload calls its field rsi. *)
Lemma indicator_field_is_required_witness :
  exists tr',
    get_stock_data (H := reference_runtime) renamed_rsi sample_fetcher []
    = (Raise (KeyError "RSI"), tr').
Proof.
  destruct (_get_price_volume (H := reference_runtime) renamed_rsi
              sample_fetcher (VStr "IBM") ([] ++ [banner (VStr "IBM")]))
    as [[price|e] tr1] eqn:Hp; [|vm_compute in Hp; discriminate Hp].
  destruct (_get_rsi (H := reference_runtime) renamed_rsi sample_fetcher
              (VStr "IBM") tr1)
    as [[rsi|e] tr2] eqn:Hrsi; [|vm_compute in Hrsi; discriminate Hrsi].
  destruct (_get_macd (H := reference_runtime) renamed_rsi sample_fetcher
              (VStr "IBM") tr2)
    as [[macd|e] tr3] eqn:Hmacd; [|vm_compute in Hmacd; discriminate Hmacd].
  destruct (_get_sma (H := reference_runtime) renamed_rsi sample_fetcher
              (VStr "IBM") tr3)
    as [[sma|e] tr4] eqn:Hsma; [|vm_compute in Hsma; discriminate Hsma].
  exists tr4.
  assert (Hcols : columns rsi = ["rsi"] /\ empty rsi = false).
  { pose proof Hrsi as Hrsi'. vm_compute in Hrsi'.
    injection Hrsi' as <- _. split; reflexivity. }
  destruct Hcols as [Hcols Hempty].
  apply (proj2 (@indicator_field_is_required reference_runtime)
           renamed_rsi sample_fetcher []
           {| symbol_of := VStr "IBM"; price_of := price; rsi_of := rsi;
              macd_of := macd; sma_of := sma; after_price := tr1;
              after_rsi := tr2; after_macd := tr3 |} tr4).
  - unfold fetched. cbn [symbol_of price_of rsi_of macd_of sma_of
      after_price after_rsi after_macd]. auto 10.
  - exact Hempty.
  - cbn [rsi_of]. rewrite Hcols. simpl. intuition discriminate.
Defined.

(** With the same date twice in the RSI payload the run is aborted. *)
Example duplicate_dates_abort_the_run :
  fst (run (get_stock_data (H := reference_runtime) same_day_rsi
              sample_fetcher))
  = Raise (ValueError "cannot reindex on an axis with duplicate labels").
Proof. vm_compute. reflexivity. Qed.

(** X9 on the run in which every download succeeds. *)
Lemma duplicate_indicator_dates_abort_witness :
  get_stock_data (H := reference_runtime) all_up sample_fetcher []
  = (Ok (table_of all_up_run), snd all_up_run) /\
  exists d,
    fetched (H := reference_runtime) all_up sample_fetcher [] d
      (snd all_up_run) /\
    (empty (rsi_of d) = false ->
     index (rsi_of d) = index (price_of d) \/ NoDup (index (rsi_of d))) /\
    (empty (macd_of d) = false ->
     index (macd_of d) = index (price_of d) \/ NoDup (index (macd_of d))) /\
    (empty (sma_of d) = false ->
     index (sma_of d) = index (price_of d) \/ NoDup (index (sma_of d))).
Proof.
  split; [exact all_up_run_eq|].
  exact (@duplicate_indicator_dates_abort reference_runtime all_up
           sample_fetcher [] (table_of all_up_run) (snd all_up_run)
           all_up_run_eq).
Defined.

(** X10 on the same run. *)
Lemma returned_table_is_rectangular_witness :
  get_stock_data (H := reference_runtime) all_up sample_fetcher []
  = (Ok (table_of all_up_run), snd all_up_run) /\
  rows (table_of all_up_run) <> [] /\
  well_formed (table_of all_up_run) /\
  NoDup (columns (table_of all_up_run)) /\
  (6 <= List.length (columns (table_of all_up_run)) <= 10)%nat.
Proof.
  split; [exact all_up_run_eq|].
  exact (@returned_table_is_rectangular reference_runtime all_up
           sample_fetcher [] (table_of all_up_run) (snd all_up_run)
           all_up_run_eq).
Defined.

(** X11 on the run in which every indicator reply is a notice. *)
Lemma degraded_run_returns_price_frame_witness :
  get_stock_data (H := reference_runtime) only_prices sample_fetcher []
  = (Ok (table_of only_prices_run), snd only_prices_run) /\
  exists d vol,
    fetched (H := reference_runtime) only_prices sample_fetcher [] d
      (snd only_prices_run) /\
    volatility (H := reference_runtime) (price_of d) = Ok vol /\
    (empty (rsi_of d) = true -> empty (macd_of d) = true ->
     empty (sma_of d) = true ->
     setitem (price_of d) "volatility" vol = Ok (table_of only_prices_run)).
Proof.
  split; [exact only_prices_run_eq|].
  exact (@degraded_run_returns_price_frame reference_runtime only_prices
           sample_fetcher [] (table_of only_prices_run)
           (snd only_prices_run) only_prices_run_eq).
Defined.

(** X12 on a frame of 22 rows. *)
Lemma first_twenty_volatilities_are_null_witness :
  exists vol,
    volatility (H := reference_runtime) (frame_of_closes closes_22) = Ok vol
    /\
    List.length vol = 22%nat /\
    nth 19 (map snd vol) NaN = NaN.
Proof.
  destruct (volatility (H := reference_runtime) (frame_of_closes closes_22))
    as [vol|e] eqn:Hvol; [|vm_compute in Hvol; discriminate Hvol].
  destruct (@first_twenty_volatilities_are_null reference_runtime
              (frame_of_closes closes_22) vol Hvol) as (Hlen & Hfirst & _).
  exists vol. split; [reflexivity|]. split.
  - rewrite Hlen. reflexivity.
  - apply Hfirst. lia.
Defined.

(** X13 on the 22 closes in dollars and in cents. *)
Lemma volatility_is_scale_invariant_witness :
  Q2Qc 100 <> 0%Qc /\
  exists vol vol',
    volatility (H := reference_runtime) (frame_of_closes closes_22) = Ok vol
    /\
    volatility (H := reference_runtime) (frame_of_closes closes_22_cents)
    = Ok vol' /\
    map snd vol' = map snd vol.
Proof.
  assert (Hk : Q2Qc 100 <> 0%Qc).
  { intros Heq. apply (f_equal this) in Heq. vm_compute in Heq.
    discriminate Heq. }
  split; [exact Hk|].
  exact (@volatility_is_scale_invariant reference_runtime
           (frame_of_closes closes_22) (frame_of_closes closes_22_cents)
           (close_of closes_22) (close_of closes_22_cents) closes_22
           (Q2Qc 100) eq_refl eq_refl eq_refl eq_refl Hk).
Defined.

(** X14 on the RSI payload of two days, listed in both orders. *)
Lemma indicator_frame_ignores_entry_order_witness :
  _get_rsi (H := reference_runtime) reversed_rsi sample_fetcher (VStr "IBM") []
  = _get_rsi (H := reference_runtime) all_up sample_fetcher (VStr "IBM") [].
Proof.
  destruct (_get_rsi (H := reference_runtime) all_up sample_fetcher
              (VStr "IBM") [])
    as [[df|e] tr'] eqn:Hget; [|vm_compute in Hget; discriminate Hget].
  apply (@indicator_frame_ignores_entry_order reference_runtime
           _get_rsi "Technical Analysis: RSI"
           (fun symbol => [("function", VStr "RSI"); ("symbol", symbol);
                           ("interval", VStr "daily");
                           ("time_period", VInt 14);
                           ("series_type", VStr "close")])
           all_up reversed_rsi sample_fetcher (VStr "IBM") []
           rsi_reply reversed_rsi_reply
           [("2024-01-04", [("RSI", "55.5")]); ("2024-01-03", [("RSI", "51")])]
           [("2024-01-03", [("RSI", "51")]); ("2024-01-04", [("RSI", "55.5")])]
           ["RSI"] df tr'
           (or_introl eq_refl) eq_refl eq_refl eq_refl eq_refl).
  - apply perm_swap.
  - repeat constructor.
  - repeat constructor; simpl; intuition discriminate.
  - discriminate.
  - intros e [<-|[<-|[]]]; reflexivity.
  - intros l1 l2 [<-|[<-|[]]] [<-|[<-|[]]] Heq; try reflexivity;
      vm_compute in Heq; discriminate Heq.
  - exact Hget.
Defined.

(** X15 on a price payload with a text that is not a number. *)
Lemma malformed_price_raises_witness :
  exists msg,
    get_stock_data (H := reference_runtime) malformed_prices sample_fetcher []
    = (Raise (ValueError msg),
       [] ++ banner (VStr "IBM")
          :: firstn 1 (run_requests sample_fetcher (VStr "IBM"))).
Proof.
  assert (Hl : In "2024-01-03" (from_dict_index malformed_price_payload))
    by (vm_compute; auto).
  destruct (@malformed_price_raises reference_runtime malformed_prices
              sample_fetcher [] (VStr "IBM") malformed_price_reply
              malformed_price_payload "2024-01-03"
              (bar "100" "102" "99" "-" "1100")
              eq_refl eq_refl eq_refl Hl eq_refl
              (or_introl (ex_intro _ "4. close"
                            (ex_intro _ "-" (conj eq_refl eq_refl)))))
    as (msg & _ & Hrun).
  exists msg. exact Hrun.
Defined.
